(** * SnakeCycle: the game simulation of the console Snake game

    A shallow embedding of the simulation core of [src/snakeCycle.cpp]
    (the Windows build) and of [src/unnamed/part_000] (the cross-platform
    build, which calls itself [snake.cpp]): positions, directions, the food
    and its rejection-sampling placement, the snake and its movement, the
    board's bounds check and the game controller's tick.

    Drawing, cursor control and sleeping only write to the terminal and are
    left out; the rest is translated function by function. *)

From Stdlib Require Import ZArith List Bool Lia String Ascii DecimalString.
Import ListNotations.
Open Scope Z_scope.

(** ** The C++ [int]

    Both files use [int] for coordinates, scores and speeds.  It is modelled
    as a [Z] that every arithmetic operation brings back into the 32-bit
    two's complement range.  (C++ leaves signed overflow undefined; the
    wrap-around is what the targeted compilers produce.) *)
Module Int.

Definition min_int : Z := -2147483648.
Definition max_int : Z := 2147483647.

Definition in_range (z : Z) : Prop := min_int <= z <= max_int.

Definition wrap (z : Z) : Z := (z + 2147483648) mod 4294967296 - 2147483648.

Definition add (a b : Z) : Z := wrap (a + b).
Definition sub (a b : Z) : Z := wrap (a - b).
Definition mul (a b : Z) : Z := wrap (a * b).
(** [a / b] truncates towards zero. *)
Definition div (a b : Z) : Z := wrap (Z.quot a b).

(** Conversion of an [int] to [char], a signed byte on the targeted
    compilers: the value modulo 256, between -128 and 127. *)
Definition to_char (z : Z) : Z := (z + 128) mod 256 - 128.

End Int.

(** ** Outcomes

    A call either returns, or it hits behaviour the language leaves
    undefined, or (in the model only) it exhausts the fuel given to a loop
    that has no bound of its own. *)
Inductive Error : Type :=
| OutOfFuel    (* the loop did not finish within the fuel *)
| OutOfRange   (* [v[0]] on an empty vector *)
| DivByZero.   (* [a % 0] *)

Inductive Res (A : Type) : Type :=
| Ok (a : A)
| Err (e : Error).
Arguments Ok {A} a.
Arguments Err {A} e.

(** [rand()] reads and advances a hidden global state.  The state is
    modelled as the stream of the results still to come. *)
Definition RandStream : Type := nat -> Z.

(** Computations that may call [rand()] and may fail. *)
Definition M (A : Type) : Type := RandStream -> Res (A * RandStream).

Definition ret {A} (a : A) : M A := fun r => Ok (a, r).

Definition bind {A B} (c : M A) (k : A -> M B) : M B :=
  fun r => match c r with
           | Ok (a, r') => k a r'
           | Err e => Err e
           end.

Definition lift {A} (x : Res A) : M A :=
  fun r => match x with
           | Ok a => Ok (a, r)
           | Err e => Err e
           end.

Definition fail {A} (e : Error) : M A := fun _ => Err e.

Notation "x <- c1 ;; c2" := (bind c1 (fun x => c2))
  (at level 61, c1 at next level, right associativity).

(** [rand()]: the next value of the stream. *)
Definition rand : M Z := fun r => Ok (r 0%nat, fun n => r (S n)).

(** [a % b] on [int]: the sign follows the dividend. *)
Definition int_rem (a b : Z) : M Z :=
  if b =? 0 then fail DivByZero else ret (Z.rem a b).

(** [rand()] returns an [int] between 0 and [RAND_MAX]. *)
Definition rand_stream_ok (r : RandStream) : Prop :=
  forall n, 0 <= r n <= Int.max_int.

(** ** Core game types (the same declarations in both files) *)

(** [enum ConsoleColor], the two values the food uses. *)
Definition LIGHT_RED : Z := 12.
Definition LIGHT_YELLOW : Z := 14.

Record Position : Type := mkPosition { pos_x : Z; pos_y : Z }.

(** [Position::operator==] *)
Definition Position_eqb (a b : Position) : bool :=
  (pos_x a =? pos_x b) && (pos_y a =? pos_y b).

Inductive Direction : Type := UP | DOWN | LEFT | RIGHT | STOP.

Definition Direction_eqb (a b : Direction) : bool :=
  match a, b with
  | UP, UP | DOWN, DOWN | LEFT, LEFT | RIGHT, RIGHT | STOP, STOP => true
  | _, _ => false
  end.

Record Food : Type := mkFood {
  food_position : Position;
  food_symbol : ascii;
  food_color : Z;
  food_value : Z
}.

Record Snake : Type := mkSnake {
  body : list Position;
  previousBody : list Position;
  direction : Direction;
  growing : bool
}.

(** The board's size.  Its other fields ([borderDrawn], [lastScore], ...)
    only remember what was drawn. *)
Record GameBoard : Type := mkGameBoard { width : Z; height : Z }.

Record Game : Type := mkGame {
  snake : Snake;
  food : Food;
  board : GameBoard;
  score : Z;
  highScore : Z;
  gameOver : bool;
  gameRunning : bool;
  paused : bool;
  gameSpeed : Z;
  currentLevel : string;
  oldFoodPos : Position;
  foodEaten : bool
}.

(** Field assignments. *)
Definition set_body (v : list Position) (s : Snake) : Snake :=
  mkSnake v (previousBody s) (direction s) (growing s).
Definition set_previousBody (v : list Position) (s : Snake) : Snake :=
  mkSnake (body s) v (direction s) (growing s).
Definition set_direction (v : Direction) (s : Snake) : Snake :=
  mkSnake (body s) (previousBody s) v (growing s).
Definition set_growing (v : bool) (s : Snake) : Snake :=
  mkSnake (body s) (previousBody s) (direction s) v.

Definition set_snake (v : Snake) (g : Game) : Game :=
  mkGame v (food g) (board g) (score g) (highScore g) (gameOver g)
         (gameRunning g) (paused g) (gameSpeed g) (currentLevel g)
         (oldFoodPos g) (foodEaten g).
Definition set_food (v : Food) (g : Game) : Game :=
  mkGame (snake g) v (board g) (score g) (highScore g) (gameOver g)
         (gameRunning g) (paused g) (gameSpeed g) (currentLevel g)
         (oldFoodPos g) (foodEaten g).
Definition set_score (v : Z) (g : Game) : Game :=
  mkGame (snake g) (food g) (board g) v (highScore g) (gameOver g)
         (gameRunning g) (paused g) (gameSpeed g) (currentLevel g)
         (oldFoodPos g) (foodEaten g).
Definition set_highScore (v : Z) (g : Game) : Game :=
  mkGame (snake g) (food g) (board g) (score g) v (gameOver g)
         (gameRunning g) (paused g) (gameSpeed g) (currentLevel g)
         (oldFoodPos g) (foodEaten g).
Definition set_gameOver (v : bool) (g : Game) : Game :=
  mkGame (snake g) (food g) (board g) (score g) (highScore g) v
         (gameRunning g) (paused g) (gameSpeed g) (currentLevel g)
         (oldFoodPos g) (foodEaten g).
Definition set_gameRunning (v : bool) (g : Game) : Game :=
  mkGame (snake g) (food g) (board g) (score g) (highScore g) (gameOver g)
         v (paused g) (gameSpeed g) (currentLevel g)
         (oldFoodPos g) (foodEaten g).
Definition set_paused (v : bool) (g : Game) : Game :=
  mkGame (snake g) (food g) (board g) (score g) (highScore g) (gameOver g)
         (gameRunning g) v (gameSpeed g) (currentLevel g)
         (oldFoodPos g) (foodEaten g).
Definition set_gameSpeed (v : Z) (g : Game) : Game :=
  mkGame (snake g) (food g) (board g) (score g) (highScore g) (gameOver g)
         (gameRunning g) (paused g) v (currentLevel g)
         (oldFoodPos g) (foodEaten g).
Definition set_currentLevel (v : string) (g : Game) : Game :=
  mkGame (snake g) (food g) (board g) (score g) (highScore g) (gameOver g)
         (gameRunning g) (paused g) (gameSpeed g) v
         (oldFoodPos g) (foodEaten g).
Definition set_oldFoodPos (v : Position) (g : Game) : Game :=
  mkGame (snake g) (food g) (board g) (score g) (highScore g) (gameOver g)
         (gameRunning g) (paused g) (gameSpeed g) (currentLevel g)
         v (foodEaten g).
Definition set_foodEaten (v : bool) (g : Game) : Game :=
  mkGame (snake g) (food g) (board g) (score g) (highScore g) (gameOver g)
         (gameRunning g) (paused g) (gameSpeed g) (currentLevel g)
         (oldFoodPos g) v.

(** [std::vector::push_back] and [emplace_back(x, y)] *)
Definition push_back (v : list Position) (p : Position) : list Position :=
  v ++ [p].
Definition emplace_back (v : list Position) (x y : Z) : list Position :=
  v ++ [mkPosition x y].

(** [std::find(v.begin(), v.end(), p) != v.end()] *)
Fixpoint find_in (v : list Position) (p : Position) : bool :=
  match v with
  | [] => false
  | q :: v' => if Position_eqb q p then true else find_in v' p
  end.

(** [std::to_string(int)] *)
Definition to_string (z : Z) : string := NilZero.string_of_int (Z.to_int z).

(** [tolower] on a key code. *)
Definition tolower (key : Z) : Z :=
  if (65 <=? key) && (key <=? 90) then key + 32 else key.

(** What the keyboard holds when [processInput] is called: nothing
    ([_kbhit()] is false), or a key code together with the code a second
    [_getch()] would return (read only after the prefix of an extended
    key). *)
Inductive Keyboard : Type :=
| NoKey
| Pressed (key next : Z).

(** ** The simulation of [src/snakeCycle.cpp] *)
Module SnakeCycle.

Module Food.

Definition new : Food := mkFood (mkPosition 0 0) "*"%char LIGHT_RED 10.

(** The [do ... while] loop of [generateFood]: draw a position, repeat
    while it lies in the snake's body. *)
Fixpoint generateFood_loop (fuel : nat) (width height : Z)
         (snakeBody : list Position) : M Position :=
  match fuel with
  | O => fail OutOfFuel
  | S fuel' =>
      a <- rand ;;
      px <- int_rem a width ;;
      b <- rand ;;
      py <- int_rem b height ;;
      let position := mkPosition px py in
      if find_in snakeBody position
      then generateFood_loop fuel' width height snakeBody
      else ret position
  end.

Definition generateFood (fuel : nat) (width height : Z)
           (snakeBody : list Position) (f : Food) : M Food :=
  position <- generateFood_loop fuel width height snakeBody ;;
  c <- rand ;;
  k <- int_rem c 10 ;;
  if k =? 0
  then ret (mkFood position "$"%char LIGHT_YELLOW 50)
  else ret (mkFood position "*"%char LIGHT_RED 10).

Definition getPosition (f : Food) : Position := food_position f.
Definition getValue (f : Food) : Z := food_value f.

End Food.

Module Snake.

Definition new : Snake :=
  let body := push_back [] (mkPosition 10 10) in
  let body := push_back body (mkPosition 9 10) in
  let body := push_back body (mkPosition 8 10) in
  mkSnake body body STOP false.

Definition setDirection (dir : Direction) (s : Snake) : Snake :=
  if (Direction_eqb (direction s) UP && negb (Direction_eqb dir DOWN))
     || (Direction_eqb (direction s) DOWN && negb (Direction_eqb dir UP))
     || (Direction_eqb (direction s) LEFT && negb (Direction_eqb dir RIGHT))
     || (Direction_eqb (direction s) RIGHT && negb (Direction_eqb dir LEFT))
     || Direction_eqb (direction s) STOP
  then set_direction dir s
  else s.

Definition getDirection (s : Snake) : Direction := direction s.

Definition move (s : Snake) : Res Snake :=
  if Direction_eqb (direction s) STOP then Ok s else
  let s := set_previousBody (body s) s in
  match body s with
  | [] => Err OutOfRange
  | head :: _ =>
      let head :=
        match direction s with
        | UP => mkPosition (pos_x head) (Int.sub (pos_y head) 1)
        | DOWN => mkPosition (pos_x head) (Int.add (pos_y head) 1)
        | LEFT => mkPosition (Int.sub (pos_x head) 1) (pos_y head)
        | RIGHT => mkPosition (Int.add (pos_x head) 1) (pos_y head)
        | STOP => head
        end in
      let s := set_body (head :: body s) s in
      if negb (growing s)
      then Ok (set_body (removelast (body s)) s)
      else Ok (set_growing false s)
  end.

Definition grow (s : Snake) : Snake := set_growing true s.

Definition getHead (s : Snake) : Position :=
  match body s with
  | [] => mkPosition 0 0
  | head :: _ => head
  end.

Definition getBody (s : Snake) : list Position := body s.

(** The [for] loop of [checkSelfCollision], from index 1 on. *)
Fixpoint checkSelfCollision_loop (head : Position)
         (rest : list Position) : bool :=
  match rest with
  | [] => false
  | segment :: rest' =>
      if Position_eqb head segment then true
      else checkSelfCollision_loop head rest'
  end.

Definition checkSelfCollision (s : Snake) : bool :=
  if (List.length (body s) <=? 1)%nat then false else
  match body s with
  | [] => false
  | head :: rest => checkSelfCollision_loop head rest
  end.

Definition getLength (s : Snake) : Z := Z.of_nat (List.length (body s)).

Definition reset (s : Snake) : Snake :=
  let body := [] in
  let body := push_back body (mkPosition 10 10) in
  let body := push_back body (mkPosition 9 10) in
  let body := push_back body (mkPosition 8 10) in
  mkSnake body body STOP false.

End Snake.

Module GameBoard.

Definition new (w h : Z) : GameBoard := mkGameBoard w h.

Definition getWidth (b : GameBoard) : Z := width b.
Definition getHeight (b : GameBoard) : Z := height b.

Definition isValidPosition (b : GameBoard) (pos : Position) : bool :=
  (pos_x pos >=? 0) && (pos_x pos <? width b)
  && (pos_y pos >=? 0) && (pos_y pos <? height b).

End GameBoard.

Module Game.

Definition saveHighScore (g : Game) : Game :=
  if score g >? highScore g then set_highScore (score g) g else g.

Definition updateGameSpeed (g : Game) : Game :=
  let level := Int.add (Int.div (score g) 100) 1 in
  let g := set_gameSpeed (Z.max 50 (Int.sub 200 (Int.mul level 15))) g in
  set_currentLevel ("Level " ++ to_string level)%string g.

(** The constructor; [srand(time(0))] picks the stream. *)
Definition new (fuel : nat) : M Game :=
  let s := Snake.new in
  let b := GameBoard.new 30 20 in
  f <- Food.generateFood fuel (GameBoard.getWidth b) (GameBoard.getHeight b)
                         (Snake.getBody s) Food.new ;;
  ret (mkGame s f b 0 0 false true false 150 "Level 1"%string
              (Food.getPosition f) false).

Definition processInput (kb : Keyboard) (g : Game) : Game :=
  match kb with
  | NoKey => g
  | Pressed key next =>
      if (key =? 0) || (key =? 224) then
        let key := next in
        if key =? 72 then set_snake (Snake.setDirection UP (snake g)) g
        else if key =? 80 then set_snake (Snake.setDirection DOWN (snake g)) g
        else if key =? 75 then set_snake (Snake.setDirection LEFT (snake g)) g
        else if key =? 77 then set_snake (Snake.setDirection RIGHT (snake g)) g
        else g
      else
        let key := tolower key in
        if key =? 119 then set_snake (Snake.setDirection UP (snake g)) g
        else if key =? 115 then set_snake (Snake.setDirection DOWN (snake g)) g
        else if key =? 97 then set_snake (Snake.setDirection LEFT (snake g)) g
        else if key =? 100 then set_snake (Snake.setDirection RIGHT (snake g)) g
        else if key =? 112 then set_paused (negb (paused g)) g
        else if key =? 113 then set_gameRunning false g
        else g
  end.

Definition update (fuel : nat) (g : Game) : M Game :=
  if gameOver g || paused g then ret g else
  let g := set_foodEaten false g in
  s <- lift (Snake.move (snake g)) ;;
  let g := set_snake s g in
  let g := updateGameSpeed g in
  let head := Snake.getHead (snake g) in
  if negb (GameBoard.isValidPosition (board g) head)
  then ret (set_gameOver true g) else
  if Snake.checkSelfCollision (snake g)
  then ret (set_gameOver true g) else
  if Position_eqb head (Food.getPosition (food g)) then
    let g := set_score (Int.add (score g) (Food.getValue (food g))) g in
    let g := set_snake (Snake.grow (snake g)) g in
    let g := set_foodEaten true g in
    let g := set_oldFoodPos (Food.getPosition (food g)) g in
    f <- Food.generateFood fuel (GameBoard.getWidth (board g))
                           (GameBoard.getHeight (board g))
                           (Snake.getBody (snake g)) (food g) ;;
    ret (set_food f g)
  else ret g.

Definition restart (fuel : nat) (g : Game) : M Game :=
  let g := set_snake (Snake.reset (snake g)) g in
  let g := set_score 0 g in
  let g := set_gameOver false g in
  let g := set_paused false g in
  let g := set_gameSpeed 150 g in
  let g := set_currentLevel "Level 1"%string g in
  f <- Food.generateFood fuel (GameBoard.getWidth (board g))
                         (GameBoard.getHeight (board g))
                         (Snake.getBody (snake g)) (food g) ;;
  ret (set_food f g).

(** [key] is what the blocking [_getch()] returns.  The function keeps it
    in a [char]: [char choice = _getch(); choice = tolower(choice);].
    ([tolower] of a negative [char] other than [EOF] is left undefined by
    the language; the targeted library returns it unchanged, as does
    [tolower] here.) *)
Definition handleGameOver (fuel : nat) (key : Z) (g : Game) : M Game :=
  if negb (gameOver g) then ret g else
  let g := saveHighScore g in
  let choice := Int.to_char key in
  let choice := Int.to_char (tolower choice) in
  if choice =? 114 then restart fuel g
  else if choice =? 113 then ret (set_gameRunning false g)
  else ret g.

(** One pass through the loop of [run]. *)
Definition run_iteration (fuel : nat) (kb : Keyboard) (choice : Z)
           (g : Game) : M Game :=
  let g := processInput kb g in
  g <- update fuel g ;;
  if gameOver g then handleGameOver fuel choice g else ret g.

End Game.

End SnakeCycle.

(** ** The simulation of [src/unnamed/part_000] ([snake.cpp]) *)
Module SnakeCpp.

Module Food.

Definition new : Food := mkFood (mkPosition 0 0) "*"%char LIGHT_RED 10.

Fixpoint generateFood_loop (fuel : nat) (width height : Z)
         (snakeBody : list Position) : M Position :=
  match fuel with
  | O => fail OutOfFuel
  | S fuel' =>
      a <- rand ;;
      px <- int_rem a width ;;
      b <- rand ;;
      py <- int_rem b height ;;
      let position := mkPosition px py in
      if find_in snakeBody position
      then generateFood_loop fuel' width height snakeBody
      else ret position
  end.

Definition generateFood (fuel : nat) (width height : Z)
           (snakeBody : list Position) (f : Food) : M Food :=
  position <- generateFood_loop fuel width height snakeBody ;;
  c <- rand ;;
  k <- int_rem c 10 ;;
  if k =? 0
  then ret (mkFood position "$"%char LIGHT_YELLOW 50)
  else ret (mkFood position "*"%char LIGHT_RED 10).

Definition getPosition (f : Food) : Position := food_position f.
Definition getValue (f : Food) : Z := food_value f.

End Food.

Module Snake.

Definition new : Snake :=
  let body := emplace_back [] 10 10 in
  let body := emplace_back body 9 10 in
  let body := emplace_back body 8 10 in
  mkSnake body body STOP false.

(** Prevent immediate reverse *)
Definition setDirection (dir : Direction) (s : Snake) : Snake :=
  if (Direction_eqb (direction s) UP && negb (Direction_eqb dir DOWN))
     || (Direction_eqb (direction s) DOWN && negb (Direction_eqb dir UP))
     || (Direction_eqb (direction s) LEFT && negb (Direction_eqb dir RIGHT))
     || (Direction_eqb (direction s) RIGHT && negb (Direction_eqb dir LEFT))
     || Direction_eqb (direction s) STOP
  then set_direction dir s
  else s.

Definition move (s : Snake) : Res Snake :=
  if Direction_eqb (direction s) STOP then Ok s else
  let s := set_previousBody (body s) s in
  match body s with
  | [] => Err OutOfRange
  | head :: _ =>
      let head :=
        match direction s with
        | UP => mkPosition (pos_x head) (Int.sub (pos_y head) 1)
        | DOWN => mkPosition (pos_x head) (Int.add (pos_y head) 1)
        | LEFT => mkPosition (Int.sub (pos_x head) 1) (pos_y head)
        | RIGHT => mkPosition (Int.add (pos_x head) 1) (pos_y head)
        | _ => head  (* default: break *)
        end in
      let s := set_body (head :: body s) s in
      if negb (growing s)
      then Ok (set_body (removelast (body s)) s)
      else Ok (set_growing false s)
  end.

Definition grow (s : Snake) : Snake := set_growing true s.

Definition getHead (s : Snake) : Position :=
  match body s with
  | [] => mkPosition 0 0
  | head :: _ => head
  end.

Definition getBody (s : Snake) : list Position := body s.

Fixpoint checkSelfCollision_loop (head : Position)
         (rest : list Position) : bool :=
  match rest with
  | [] => false
  | segment :: rest' =>
      if Position_eqb head segment then true
      else checkSelfCollision_loop head rest'
  end.

Definition checkSelfCollision (s : Snake) : bool :=
  if (List.length (body s) <=? 1)%nat then false else
  match body s with
  | [] => false
  | head :: rest => checkSelfCollision_loop head rest
  end.

Definition reset (s : Snake) : Snake :=
  let body := [] in
  let body := emplace_back body 10 10 in
  let body := emplace_back body 9 10 in
  let body := emplace_back body 8 10 in
  mkSnake body body STOP false.

End Snake.

Module GameBoard.

Definition getWidth (b : GameBoard) : Z := width b.
Definition getHeight (b : GameBoard) : Z := height b.

Definition isValidPosition (b : GameBoard) (pos : Position) : bool :=
  (pos_x pos >=? 0) && (pos_x pos <? width b)
  && (pos_y pos >=? 0) && (pos_y pos <? height b).

End GameBoard.

Module Game.

Definition updateGameSpeed (g : Game) : Game :=
  let level := Int.add (Int.div (score g) 100) 1 in
  let g := set_gameSpeed (Z.max 50 (Int.sub 200 (Int.mul level 15))) g in
  set_currentLevel ("Level " ++ to_string level)%string g.

Definition update (fuel : nat) (g : Game) : M Game :=
  if gameOver g || paused g then ret g else
  let g := set_foodEaten false g in
  s <- lift (Snake.move (snake g)) ;;
  let g := set_snake s g in
  let g := updateGameSpeed g in
  let head := Snake.getHead (snake g) in
  if negb (GameBoard.isValidPosition (board g) head)
  then ret (set_gameOver true g) else
  if Snake.checkSelfCollision (snake g)
  then ret (set_gameOver true g) else
  if Position_eqb head (Food.getPosition (food g)) then
    let g := set_score (Int.add (score g) (Food.getValue (food g))) g in
    let g := set_snake (Snake.grow (snake g)) g in
    let g := set_foodEaten true g in
    let g := set_oldFoodPos (Food.getPosition (food g)) g in
    f <- Food.generateFood fuel (GameBoard.getWidth (board g))
                           (GameBoard.getHeight (board g))
                           (Snake.getBody (snake g)) (food g) ;;
    ret (set_food f g)
  else ret g.

End Game.

End SnakeCpp.

(** ** Input of [src/unnamed/part_000] where [_WIN32] is not defined

    Standard input is a terminal in non-canonical mode without echo, read
    without blocking.  It is modelled as the queue of the bytes typed and
    not yet read, the oldest first; while the program sleeps, the bytes
    typed meanwhile join the queue. *)
Module Posix.

Definition Stdin : Type := list Z.

Module Console.

(** [select] on standard input with a zero timeout. *)
Definition kbhit (q : Stdin) : bool :=
  match q with
  | [] => false
  | _ :: _ => true
  end.

(** [getch_nonblocking]: [read] of one byte; -1 if there is none. *)
Definition getch (q : Stdin) : Z * Stdin :=
  match q with
  | [] => (-1, [])
  | ch :: q' => (ch, q')
  end.

(** [usleep]; [typed] are the bytes typed meanwhile. *)
Definition sleep (typed : list Z) (q : Stdin) : Stdin := q ++ typed.

End Console.

Module Game.

Definition saveHighScore (g : Game) : Game :=
  if score g >? highScore g then set_highScore (score g) g else g.

(** [typed8] and [typed4] are the bytes typed during [Console::sleep(8)]
    and [Console::sleep(4)]. *)
Definition processInput (typed8 typed4 : list Z) (q : Stdin) (g : Game)
  : Game * Stdin :=
  if negb (Console.kbhit q) then (g, q) else
  let (key, q) := Console.getch q in
  if key =? 27 then
    let q := Console.sleep typed8 q in
    if Console.kbhit q then
      let (next, q) := Console.getch q in
      if next =? 91 then
        let q := Console.sleep typed4 q in
        if Console.kbhit q then
          let (code, q) := Console.getch q in
          if code =? 65
          then (set_snake (SnakeCpp.Snake.setDirection UP (snake g)) g, q)
          else if code =? 66
          then (set_snake (SnakeCpp.Snake.setDirection DOWN (snake g)) g, q)
          else if code =? 67
          then (set_snake (SnakeCpp.Snake.setDirection RIGHT (snake g)) g, q)
          else if code =? 68
          then (set_snake (SnakeCpp.Snake.setDirection LEFT (snake g)) g, q)
          else (g, q)
        else (g, q)
      else (g, q)
    else (g, q)
  else
    let key := tolower key in
    if key =? 119
    then (set_snake (SnakeCpp.Snake.setDirection UP (snake g)) g, q)
    else if key =? 115
    then (set_snake (SnakeCpp.Snake.setDirection DOWN (snake g)) g, q)
    else if key =? 97
    then (set_snake (SnakeCpp.Snake.setDirection LEFT (snake g)) g, q)
    else if key =? 100
    then (set_snake (SnakeCpp.Snake.setDirection RIGHT (snake g)) g, q)
    else if key =? 112 then (set_paused (negb (paused g)) g, q)
    else if key =? 113 then (set_gameRunning false g, q)
    else (g, q).

Definition restart (fuel : nat) (g : Game) : M Game :=
  let g := set_snake (SnakeCpp.Snake.reset (snake g)) g in
  let g := set_score 0 g in
  let g := set_gameOver false g in
  let g := set_paused false g in
  let g := set_gameSpeed 150 g in
  let g := set_currentLevel "Level 1"%string g in
  f <- SnakeCpp.Food.generateFood fuel
         (SnakeCpp.GameBoard.getWidth (board g))
         (SnakeCpp.GameBoard.getHeight (board g))
         (SnakeCpp.Snake.getBody (snake g)) (food g) ;;
  ret (set_food f g).

(** [while (Console::kbhit()) Console::getch();] *)
Fixpoint flush (q : Stdin) : Stdin :=
  match q with
  | [] => q
  | _ :: q' => flush q'
  end.

(** The [while (true)] loop of [handleGameOver], for at most [polls]
    passes; [typed n] are the bytes typed during the [n]-th
    [Console::sleep(50)] from now. *)
Fixpoint handleGameOver_loop (polls fuel : nat) (typed : nat -> list Z)
         (q : Stdin) (g : Game) : M (Game * Stdin) :=
  match polls with
  | O => fail OutOfFuel
  | S polls' =>
      if Console.kbhit q then
        let (choice, q) := Console.getch q in
        if choice =? -1
        then handleGameOver_loop polls' fuel (fun n => typed (S n))
                                 (Console.sleep (typed O) q) g
        else
          let choice := tolower choice in
          if choice =? 114 then (g' <- restart fuel g ;; ret (g', q))
          else if choice =? 113 then ret (set_gameRunning false g, q)
          else handleGameOver_loop polls' fuel typed q g
      else handleGameOver_loop polls' fuel (fun n => typed (S n))
                               (Console.sleep (typed O) q) g
  end.

Definition handleGameOver (polls fuel : nat) (typed : nat -> list Z)
           (q : Stdin) (g : Game) : M (Game * Stdin) :=
  if negb (gameOver g) then ret (g, q) else
  let g := saveHighScore g in
  let q := flush q in
  handleGameOver_loop polls fuel typed q g.

End Game.

End Posix.

Import SnakeCycle.

(** ** Notions the properties are stated with *)

(** The position drawn by the [k]-th pass (from 0) through the loop of
    [generateFood] on stream [r]. *)
Definition sample (w h : Z) (r : RandStream) (k : nat) : Position :=
  mkPosition (Z.rem (r (2 * k)%nat) w) (Z.rem (r (2 * k + 1)%nat) h).

(** The stream after one pass through that loop: two calls of [rand()]. *)
Definition after_draw (r : RandStream) : RandStream :=
  fun n => r (S (S n)).

(** A cell of a [w] by [h] board that the body leaves free. *)
Definition free_cell (w h : Z) (snakeBody : list Position) (p : Position) : Prop :=
  GameBoard.isValidPosition (mkGameBoard w h) p = true /\ ~ In p snakeBody.

(** A stream whose draws reach every cell of the board. *)
Definition draws_every_cell (w h : Z) (r : RandStream) : Prop :=
  forall p, GameBoard.isValidPosition (mkGameBoard w h) p = true ->
            exists k, sample w h r k = p.

(** [generateFood] returns, given enough fuel. *)
Definition generateFood_returns (w h : Z) (snakeBody : list Position)
           (f : Food) (r : RandStream) : Prop :=
  exists fuel f' r', Food.generateFood fuel w h snakeBody f r = Ok (f', r').

(** Streams for the examples: [rand()] always 0, and a stream that draws
    (0,0), (1,0), (0,0), (1,0), ... on a board of height 1. *)
Definition rand_zero : RandStream := fun _ => 0.
Definition rand_sweep : RandStream := fun n => Z.of_nat (Nat.div2 n).

(** The head translated by the unit vector of a direction. *)
Definition translate (d : Direction) (p : Position) : Position :=
  match d with
  | UP => mkPosition (pos_x p) (pos_y p - 1)
  | DOWN => mkPosition (pos_x p) (pos_y p + 1)
  | LEFT => mkPosition (pos_x p - 1) (pos_y p)
  | RIGHT => mkPosition (pos_x p + 1) (pos_y p)
  | STOP => p
  end.

(** The exact opposite of a direction. *)
Definition opposite (d : Direction) : Direction :=
  match d with
  | UP => DOWN
  | DOWN => UP
  | LEFT => RIGHT
  | RIGHT => LEFT
  | STOP => STOP
  end.

(** A position whose neighbours are still [int]s. *)
Definition inner (p : Position) : Prop :=
  Int.min_int < pos_x p < Int.max_int /\ Int.min_int < pos_y p < Int.max_int.

(** The level and the tick interval as the specification words them. *)
Definition level_spec (s : Z) : Z := s / 100 + 1.
Definition tickIntervalMs_spec (s : Z) : Z :=
  Z.max 50 (200 - level_spec s * 15).

(** A call on a [Snake] object that can change its direction or body. *)
Inductive SnakeCall : Type :=
| CallSetDirection (dir : Direction)
| CallMove.

Definition call (c : SnakeCall) (s : Snake) : Res Snake :=
  match c with
  | CallSetDirection dir => Ok (Snake.setDirection dir s)
  | CallMove => Snake.move s
  end.

Fixpoint calls (cs : list SnakeCall) (s : Snake) : Res Snake :=
  match cs with
  | [] => Ok s
  | c :: cs' =>
      match call c s with
      | Ok s' => calls cs' s'
      | Err e => Err e
      end
  end.

(** The requests the keyboard can cause: one of the four directions. *)
Definition directional (c : SnakeCall) : Prop :=
  match c with
  | CallSetDirection dir => dir <> STOP
  | CallMove => True
  end.

(** The character [handleGameOver] decides on when [_getch()] returns
    [key]: the key stored in a [char], lowered, and stored again. *)
Definition choice_of (key : Z) : Z :=
  Int.to_char (tolower (Int.to_char key)).

(** A game in the RUNNING phase. *)
Definition running (g : Game) : Prop :=
  gameOver g = false /\ paused g = false.

(** The scenario of the right wall: three segments, head at (29,10). *)
Definition at_right_wall : Game :=
  mkGame (mkSnake [mkPosition 29 10; mkPosition 28 10; mkPosition 27 10]
                  [mkPosition 28 10; mkPosition 27 10; mkPosition 26 10]
                  RIGHT false)
         (mkFood (mkPosition 5 5) "*"%char LIGHT_RED 10)
         (GameBoard.new 30 20) 0 0 false true false 185 "Level 1"%string
         (mkPosition 5 5) false.

(** ** The states a game passes through *)

(** The states at the top of the loop of [run]: the constructed game, and
    the state after each pass while [gameRunning] holds.  The stream is the
    one [rand()] will continue with. *)
Inductive reachable : Game -> RandStream -> Prop :=
| reach_new (fuel : nat) (r0 : RandStream) (g : Game) (r : RandStream) :
    rand_stream_ok r0 ->
    Game.new fuel r0 = Ok (g, r) ->
    reachable g r
| reach_iteration (fuel : nat) (kb : Keyboard) (choice : Z)
                  (g : Game) (r : RandStream) (g' : Game) (r' : RandStream) :
    reachable g r ->
    gameRunning g = true ->
    Game.run_iteration fuel kb choice g r = Ok (g', r') ->
    reachable g' r'.

(** The states [update] is called in: a state at the top of the loop,
    after [processInput] has looked at the keyboard. *)
Definition at_tick (g : Game) (r : RandStream) : Prop :=
  exists g0 kb,
    reachable g0 r /\ gameRunning g0 = true /\ g = Game.processInput kb g0.

(** All cells of a [w] by [h] board. *)
Definition cells (w h : nat) : list Position :=
  map (fun xy => mkPosition (Z.of_nat (fst xy)) (Z.of_nat (snd xy)))
      (list_prod (seq 0 w) (seq 0 h)).

(** The body lies on the board. *)
Definition on_board (b : GameBoard) (v : list Position) : Prop :=
  Forall (fun p => GameBoard.isValidPosition b p = true) v.

(** The two kinds of food [generateFood] makes. *)
Definition common_food (f : Food) : Prop :=
  food_symbol f = "*"%char /\ food_color f = LIGHT_RED /\ food_value f = 10.
Definition bonus_food (f : Food) : Prop :=
  food_symbol f = "$"%char /\ food_color f = LIGHT_YELLOW /\ food_value f = 50.

(** What holds of the game while it is not over. *)
Definition alive_inv (g : Game) : Prop :=
  NoDup (body (snake g)) /\
  on_board (board g) (body (snake g)) /\
  GameBoard.isValidPosition (board g) (food_position (food g)) = true /\
  ~ In (food_position (food g)) (body (snake g)).

(** What holds of the game in every state. *)
Definition game_inv (g : Game) : Prop :=
  board g = mkGameBoard 30 20 /\
  (3 <= List.length (body (snake g)))%nat /\
  (common_food (food g) \/ bonus_food (food g)) /\
  0 <= score g
    <= 50 * (Z.of_nat (List.length (body (snake g))) - 3
             + (if growing (snake g) then 1 else 0)) /\
  (gameOver g = false -> alive_inv g).

(** ** Example states *)

(** The game as the constructor leaves it on [rand_zero]: the loop draws
    (0,0), which is free, and the kind draw 0 makes the food a bonus. *)
Definition initial_game : Game :=
  mkGame Snake.new (mkFood (mkPosition 0 0) "$"%char LIGHT_YELLOW 50)
         (GameBoard.new 30 20) 0 0 false true false 150 "Level 1"%string
         (mkPosition 0 0) false.

(** The scenario of the meal: three segments, head at (10,10), facing
    RIGHT, food at (11,10). *)
Definition before_food : Game :=
  mkGame (mkSnake [mkPosition 10 10; mkPosition 9 10; mkPosition 8 10]
                  [mkPosition 10 10; mkPosition 9 10; mkPosition 8 10]
                  RIGHT false)
         (mkFood (mkPosition 11 10) "*"%char LIGHT_RED 10)
         (GameBoard.new 30 20) 0 0 false true false 150 "Level 1"%string
         (mkPosition 11 10) false.

(** A stream on which the constructor places the food at (11,10): the
    draws are 11, 10, then 1 for the kind, then 1 for ever. *)
Definition rand_meal : RandStream :=
  fun n => match n with
           | O => 11
           | S O => 10
           | _ => 1
           end.

(** The stream [rand_meal] leaves behind, and the game the constructor
    builds on [rand_meal]. *)
Definition rand_one : RandStream := fun _ => 1.

Definition meal_game : Game :=
  mkGame Snake.new (mkFood (mkPosition 11 10) "*"%char LIGHT_RED 10)
         (GameBoard.new 30 20) 0 0 false true false 150 "Level 1"%string
         (mkPosition 11 10) false.

(** [before_food] after the tick on [rand_one]: the food is eaten and the
    new one is at (1,1). *)
Definition after_meal : Game :=
  Eval vm_compute in
    match Game.update 1 before_food rand_one with
    | Ok (g, _) => g
    | Err _ => before_food
    end.

(** [at_right_wall] restarted on [rand_zero]. *)
Definition restarted_game : Game :=
  Eval vm_compute in
    match Game.restart 1 at_right_wall rand_zero with
    | Ok (g, _) => g
    | Err _ => at_right_wall
    end.

(** The snake of [before_food] after its move onto the food. *)
Definition fed_snake : Snake :=
  mkSnake [mkPosition 11 10; mkPosition 10 10; mkPosition 9 10]
          [mkPosition 10 10; mkPosition 9 10; mkPosition 8 10]
          RIGHT false.

(** Reads the fields of a game built by field assignments. *)
Ltac game_fields :=
  cbn [Game.updateGameSpeed Snake.grow set_food set_oldFoodPos
       set_foodEaten set_snake set_score set_gameOver set_gameSpeed
       set_currentLevel set_growing set_paused set_highScore
       set_gameRunning
       snake food board score highScore gameOver gameRunning paused
       gameSpeed currentLevel oldFoodPos foodEaten
       body previousBody direction growing].

(** ** Drawing ([src/snakeCycle.cpp])

    What the program sends to the console, in order: cursor placements,
    colour changes and text. *)
Inductive TermOp : Type :=
| Gotoxy (x y : Z)        (* Console::gotoxy *)
| SetColor (color : Z)    (* Console::setColor *)
| PutChar (c : ascii)     (* std::cout << a character *)
| PutString (s : string)  (* std::cout << a string or a formatted number *)
| ClearScreen.            (* Console::clearScreen *)

(** [enum ConsoleColor], the other values the drawing uses. *)
Definition GREEN : Z := 2.
Definition CYAN : Z := 3.
Definition YELLOW : Z := 6.
Definition WHITE : Z := 7.
Definition LIGHT_GREEN : Z := 10.
Definition LIGHT_CYAN : Z := 11.
Definition LIGHT_MAGENTA : Z := 13.

(** [std::setw(n)] before a string or a number: blanks on the left up to
    width [n]. *)
Fixpoint blanks (n : nat) : string :=
  match n with
  | O => EmptyString
  | S n' => String " "%char (blanks n')
  end.

Definition setw (n : nat) (s : string) : string :=
  (blanks (n - String.length s) ++ s)%string.

(** What [GameBoard] remembers of what it drew: its members [borderDrawn],
    [lastScore], [lastHighScore], [lastLength], [lastLevel], and the
    function-static [headerDrawn] of [displayHeader]. *)
Record Drawn : Type := mkDrawn {
  borderDrawn : bool;
  lastScore : Z;
  lastHighScore : Z;
  lastLength : Z;
  lastLevel : string;
  headerDrawn : bool
}.

Module Draw.

(** The members as the constructor of [GameBoard] sets them, in a process
    that has not called [displayHeader] yet. *)
Definition new : Drawn := mkDrawn false (-1) (-1) (-1) EmptyString false.

(** [for (int i = 0; i < n; i++) std::cout << "-";] *)
Definition dashes (n : Z) : list TermOp :=
  repeat (PutString "-") (Z.to_nat n).

Definition drawBorder (b : GameBoard) (d : Drawn) : list TermOp * Drawn :=
  if borderDrawn d then ([], d) else
  ([SetColor CYAN; Gotoxy 0 3; PutString "+"]
   ++ dashes (width b)
   ++ [PutString "+"]
   ++ flat_map (fun i => [Gotoxy 0 (Int.add 4 i); PutString "|";
                          Gotoxy (Int.add (width b) 1) (Int.add 4 i);
                          PutString "|"])
               (map Z.of_nat (seq 0 (Z.to_nat (height b))))
   ++ [Gotoxy 0 (Int.add 4 (height b)); PutString "+"]
   ++ dashes (width b)
   ++ [PutString "+"],
   mkDrawn true (lastScore d) (lastHighScore d) (lastLength d) (lastLevel d)
           (headerDrawn d)).

(** The first loop of [drawSnake]: blank the cells the snake has left. *)
Definition drawSnake_erase (b : GameBoard) (s : Snake) : list TermOp :=
  flat_map (fun pos =>
              if negb (find_in (Snake.getBody s) pos) then
                if GameBoard.isValidPosition b pos
                then [Gotoxy (Int.add (pos_x pos) 1) (Int.add (pos_y pos) 4);
                      PutChar " "]
                else []
              else [])
           (previousBody s).

Definition head_glyph (d : Direction) : ascii :=
  match d with
  | UP => "^"
  | DOWN => "v"
  | LEFT => "<"
  | RIGHT => ">"
  | STOP => "@"
  end%char.

Definition drawSnake_head (b : GameBoard) (s : Snake) : list TermOp :=
  match Snake.getBody s with
  | [] => []
  | head :: _ =>
      if GameBoard.isValidPosition b head
      then [Gotoxy (Int.add (pos_x head) 1) (Int.add (pos_y head) 4);
            SetColor LIGHT_GREEN;
            PutChar (head_glyph (Snake.getDirection s))]
      else []
  end.

(** The last loop of [drawSnake], over the segments from index 1 on. *)
Definition drawSnake_segments (b : GameBoard) (s : Snake) : list TermOp :=
  flat_map (fun segment =>
              if GameBoard.isValidPosition b segment
              then [Gotoxy (Int.add (pos_x segment) 1)
                           (Int.add (pos_y segment) 4);
                    PutChar "o"]
              else [])
           (tl (Snake.getBody s)).

Definition drawSnake (b : GameBoard) (s : Snake) : list TermOp :=
  drawSnake_erase b s
  ++ drawSnake_head b s
  ++ [SetColor GREEN]
  ++ drawSnake_segments b s.

Definition drawFood (b : GameBoard) (f : Food) : list TermOp :=
  let pos := Food.getPosition f in
  if GameBoard.isValidPosition b pos
  then [Gotoxy (Int.add (pos_x pos) 1) (Int.add (pos_y pos) 4);
        SetColor (food_color f);
        PutChar (food_symbol f)]
  else [].

Definition eraseFood (b : GameBoard) (pos : Position) : list TermOp :=
  if GameBoard.isValidPosition b pos
  then [Gotoxy (Int.add (pos_x pos) 1) (Int.add (pos_y pos) 4); PutChar " "]
  else [].

(** The part of [displayHeader] under [if (!headerDrawn)]. *)
Definition header_frame (b : GameBoard) : list TermOp :=
  [SetColor LIGHT_CYAN;
   Gotoxy 0 0;
   PutString "+========================================================+";
   Gotoxy 0 1;
   PutString "|                    SNAKE GAME                        |";
   Gotoxy 0 2;
   PutString "+========================================================+";
   SetColor YELLOW;
   Gotoxy (Int.add (width b) 5) 5;
   PutString "+----------- STATS -----------+";
   Gotoxy (Int.add (width b) 5) 10;
   PutString "+----------------------------+";
   SetColor LIGHT_MAGENTA;
   Gotoxy (Int.add (width b) 5) 12;
   PutString "+--------- CONTROLS ---------+";
   SetColor WHITE;
   Gotoxy (Int.add (width b) 5) 13;
   PutString "| W/UP    - Move Up          |";
   Gotoxy (Int.add (width b) 5) 14;
   PutString "| S/DOWN  - Move Down        |";
   Gotoxy (Int.add (width b) 5) 15;
   PutString "| A/LEFT  - Move Left        |";
   Gotoxy (Int.add (width b) 5) 16;
   PutString "| D/RIGHT - Move Right       |";
   Gotoxy (Int.add (width b) 5) 17;
   PutString "| P       - Pause Game       |";
   Gotoxy (Int.add (width b) 5) 18;
   PutString "| Q       - Quit Game        |";
   SetColor LIGHT_MAGENTA;
   Gotoxy (Int.add (width b) 5) 19;
   PutString "+----------------------------+";
   SetColor CYAN;
   Gotoxy (Int.add (width b) 5) 21;
   PutString "+------ FOOD TYPES ------+";
   Gotoxy (Int.add (width b) 5) 22;
   SetColor LIGHT_RED;
   PutString "| * ";
   SetColor WHITE;
   PutString "- Normal Food (+10)  |";
   Gotoxy (Int.add (width b) 5) 23;
   SetColor LIGHT_YELLOW;
   PutString "| $ ";
   SetColor WHITE;
   PutString "- Special Food (+50) |";
   SetColor CYAN;
   Gotoxy (Int.add (width b) 5) 24;
   PutString "+------------------------+"].

(** One line of the statistics: drawn when the value differs from the one
    remembered. *)
Definition stat_line (b : GameBoard) (row : Z) (label value : string)
  : list TermOp :=
  [Gotoxy (Int.add (width b) 5) row; SetColor WHITE;
   PutString label; PutString (setw 10 value); PutString "       |"].

Definition displayHeader (b : GameBoard) (score highScore length : Z)
           (level : string) (d : Drawn) : list TermOp * Drawn :=
  let o0 := if negb (headerDrawn d) then header_frame b else [] in
  let o1 := if negb (score =? lastScore d)
            then stat_line b 6 "| Score:      " (to_string score) else [] in
  let o2 := if negb (highScore =? lastHighScore d)
            then stat_line b 7 "| High Score: " (to_string highScore)
            else [] in
  let o3 := if negb (length =? lastLength d)
            then stat_line b 8 "| Length:     " (to_string length) else [] in
  let o4 := if negb (String.eqb level (lastLevel d))
            then stat_line b 9 "| Level:      " level else [] in
  (o0 ++ o1 ++ o2 ++ o3 ++ o4,
   mkDrawn (borderDrawn d) score highScore length level true).

Definition resetDrawnFlags (d : Drawn) : Drawn :=
  mkDrawn false (-1) (-1) (-1) EmptyString (headerDrawn d).

Definition showGameOverScreen (g : Game) : list TermOp :=
  let boardWidth := GameBoard.getWidth (board g) in
  let boardHeight := GameBoard.getHeight (board g) in
  let x := Int.sub (Int.div boardWidth 2) 10 in
  let y := Int.div boardHeight 2 in
  [SetColor LIGHT_RED;
   Gotoxy x (Int.add y 2); PutString "+==================+";
   Gotoxy x (Int.add y 3); PutString "|    GAME  OVER!   |";
   Gotoxy x (Int.add y 4); PutString "+==================+";
   SetColor WHITE;
   Gotoxy x (Int.add y 5);
   PutString "| Final Score: "; PutString (setw 3 (to_string (score g)));
   PutString " |";
   Gotoxy x (Int.add y 6);
   PutString "| High Score:  "; PutString (setw 3 (to_string (highScore g)));
   PutString " |";
   SetColor LIGHT_RED;
   Gotoxy x (Int.add y 7); PutString "+==================+";
   SetColor YELLOW;
   Gotoxy (Int.sub (Int.div boardWidth 2) 15) (Int.add y 9);
   PutString "Press 'R' to restart or 'Q' to quit"].

(** [Game::render] *)
Definition render (g : Game) (d : Drawn) : list TermOp * Drawn :=
  let (o1, d) := drawBorder (board g) d in
  let o2 := if foodEaten g then eraseFood (board g) (oldFoodPos g) else [] in
  let o3 := drawSnake (board g) (snake g) in
  let o4 := drawFood (board g) (food g) in
  let (o5, d) := displayHeader (board g) (score g) (highScore g)
                               (Snake.getLength (snake g)) (currentLevel g)
                               d in
  let o6 := if paused g
            then [SetColor LIGHT_YELLOW;
                  Gotoxy (Int.sub (Int.div (GameBoard.getWidth (board g)) 2) 3)
                         (Int.add (Int.div (GameBoard.getHeight (board g)) 2)
                                  4);
                  PutString "PAUSED"]
            else [] in
  let o7 := if gameOver g then showGameOverScreen g else [] in
  (o1 ++ o2 ++ o3 ++ o4 ++ o5 ++ o6 ++ o7, d).

(** One pass through the loop of [run] with what it draws: [render] shows
    the state [update] leaves, and [restart], reached through
    [handleGameOver] on the key r, clears the console and resets the flags
    of the board. *)
Definition run_iteration (fuel : nat) (kb : Keyboard) (choice : Z)
           (g : Game) (d : Drawn) : M (Game * Drawn * list TermOp) :=
  let g := Game.processInput kb g in
  g <- Game.update fuel g ;;
  let (o, d) := render g d in
  if gameOver g then
    g' <- Game.handleGameOver fuel choice g ;;
    if Int.to_char (tolower (Int.to_char choice)) =? 114
    then ret (g', resetDrawnFlags d, o ++ [ClearScreen])
    else ret (g', d, o)
  else ret (g, d, o).

End Draw.

(** [GameBoard::displayPauseMessage] of [src/unnamed/part_000], which
    [render] calls there in place of writing PAUSED itself; [wasPaused] is
    the member of that name, and the second component its new value. *)
Module SnakeCppDraw.

Definition displayPauseMessage (b : GameBoard) (paused wasPaused : bool)
  : list TermOp * bool :=
  if paused && negb wasPaused then
    ([SetColor LIGHT_YELLOW;
      Gotoxy (Int.sub (Int.div (width b) 2) 3)
             (Int.add (Int.div (height b) 2) 4);
      PutString "PAUSED"], true)
  else if negb paused && wasPaused then
    ([Gotoxy (Int.sub (Int.div (width b) 2) 3)
             (Int.add (Int.div (height b) 2) 4);
      PutString "      "], false)
  else ([], wasPaused).

End SnakeCppDraw.

(** The console as far as the properties need it: a cursor and the
    character in each cell.  A character goes to the cell under the cursor
    and moves the cursor one column to the right.  The console is taken
    large enough for what is written: no line wraps and nothing scrolls
    (the game sets the window to 80 by 30 and the default board is 30 by
    20); colours are not recorded. *)
Record Screen : Type := mkScreen {
  cursor_x : Z;
  cursor_y : Z;
  cell : Z -> Z -> ascii
}.

(** The console after [Console::clearScreen]: blank, the cursor at the
    origin. *)
Definition blank_screen : Screen := mkScreen 0 0 (fun _ _ => " "%char).

Definition put (c : ascii) (sc : Screen) : Screen :=
  mkScreen (cursor_x sc + 1) (cursor_y sc)
           (fun x y => if (x =? cursor_x sc) && (y =? cursor_y sc)
                       then c else cell sc x y).

Fixpoint put_string (s : string) (sc : Screen) : Screen :=
  match s with
  | EmptyString => sc
  | String c s' => put_string s' (put c sc)
  end.

Definition paint_op (op : TermOp) (sc : Screen) : Screen :=
  match op with
  | Gotoxy x y => mkScreen x y (cell sc)
  | SetColor _ => sc
  | PutChar c => put c sc
  | PutString s => put_string s sc
  | ClearScreen => blank_screen
  end.

Fixpoint paint (ops : list TermOp) (sc : Screen) : Screen :=
  match ops with
  | [] => sc
  | op :: ops' => paint ops' (paint_op op sc)
  end.

(** The cell of the console that shows board position [p]. *)
Definition shown (sc : Screen) (p : Position) : ascii :=
  cell sc (pos_x p + 1) (pos_y p + 4).

(** The characters [drawSnake] draws a snake with. *)
Definition snake_glyph (c : ascii) : bool :=
  (Ascii.eqb c "^" || Ascii.eqb c "v" || Ascii.eqb c "<" || Ascii.eqb c ">"
   || Ascii.eqb c "@" || Ascii.eqb c "o")%char.

(** A board whose frame fits the [int] range. *)
Definition drawable (b : GameBoard) : Prop :=
  width b < Int.max_int /\ height b + 4 <= Int.max_int.

(** A board that fits the console together with the panel at its right:
    no coordinate the drawing computes leaves the [int] range. *)
Definition console_fits (b : GameBoard) : Prop :=
  0 <= width b /\ width b + 5 <= Int.max_int /\
  0 <= height b /\ height b + 4 <= Int.max_int.

(** The cells of the play area, and the rows of the banner above it. *)
Definition play_area (b : GameBoard) (x y : Z) : Prop :=
  1 <= x <= width b /\ 4 <= y <= height b + 3.

Definition banner_rows (y : Z) : Prop := y <= 2.

(** The picture of the border: corners, and edges around the play area. *)
Definition border_glyph (b : GameBoard) (x y : Z) : option ascii :=
  if ((y =? 3) || (y =? height b + 4)) && ((x =? 0) || (x =? width b + 1))
  then Some "+"%char
  else if ((y =? 3) || (y =? height b + 4)) && ((1 <=? x) && (x <=? width b))
  then Some "-"%char
  else if ((4 <=? y) && (y <=? height b + 3))
          && ((x =? 0) || (x =? width b + 1))
  then Some "|"%char
  else None.

(** [leaves x y ops cx cy]: the operations [ops], begun with the cursor at
    [(cx, cy)], put no character into the cell [(x, y)] and do not clear
    the console. *)
Fixpoint leaves (x y : Z) (ops : list TermOp) (cx cy : Z) : Prop :=
  match ops with
  | [] => True
  | Gotoxy x' y' :: ops' => leaves x y ops' x' y'
  | SetColor _ :: ops' => leaves x y ops' cx cy
  | PutChar _ :: ops' =>
      ~ (y = cy /\ x = cx) /\ leaves x y ops' (cx + 1) cy
  | PutString s :: ops' =>
      ~ (y = cy /\ cx <= x < cx + Z.of_nat (String.length s)) /\
      leaves x y ops' (cx + Z.of_nat (String.length s)) cy
  | ClearScreen :: _ => False
  end.

Definition is_clear (op : TermOp) : bool :=
  match op with
  | ClearScreen => true
  | _ => false
  end.

(** The strings a drawing writes, each with the cell of its first
    character, in the order written, when it begins with the cursor at
    [(cx, cy)] (up to the first clearing of the console). *)
Fixpoint lines_of (ops : list TermOp) (cx cy : Z) : list (Z * Z * string) :=
  match ops with
  | [] => []
  | Gotoxy x y :: ops' => lines_of ops' x y
  | SetColor _ :: ops' => lines_of ops' cx cy
  | PutChar c :: ops' =>
      (cx, cy, String c EmptyString) :: lines_of ops' (cx + 1) cy
  | PutString s :: ops' =>
      (cx, cy, s) :: lines_of ops' (cx + Z.of_nat (String.length s)) cy
  | ClearScreen :: _ => []
  end.

(** The character that strings written one after the other leave in a
    cell, if any: that of the last string that covers the cell. *)
Fixpoint glyph_of (ls : list (Z * Z * string)) (x y : Z) : option ascii :=
  match ls with
  | [] => None
  | (x0, y0, s) :: ls' =>
      match glyph_of ls' x y with
      | Some c => Some c
      | None => if (y =? y0) && (x0 <=? x)
                then String.get (Z.to_nat (x - x0)) s
                else None
      end
  end.

(** The static part of the header as it stands on the console: the banner
    in the rows 0 to 2, and to the right of the board the frames of the
    statistics, the controls and the kinds of food. *)
Definition static_lines (b : GameBoard) : list (Z * Z * string) :=
  [(0, 0,
    "+========================================================+"%string);
   (0, 1,
    "|                    SNAKE GAME                        |"%string);
   (0, 2,
    "+========================================================+"%string);
   (width b + 5, 5,
    "+----------- STATS -----------+"%string);
   (width b + 5, 10,
    "+----------------------------+"%string);
   (width b + 5, 12,
    "+--------- CONTROLS ---------+"%string);
   (width b + 5, 13,
    "| W/UP    - Move Up          |"%string);
   (width b + 5, 14,
    "| S/DOWN  - Move Down        |"%string);
   (width b + 5, 15,
    "| A/LEFT  - Move Left        |"%string);
   (width b + 5, 16,
    "| D/RIGHT - Move Right       |"%string);
   (width b + 5, 17,
    "| P       - Pause Game       |"%string);
   (width b + 5, 18,
    "| Q       - Quit Game        |"%string);
   (width b + 5, 19,
    "+----------------------------+"%string);
   (width b + 5, 21,
    "+------ FOOD TYPES ------+"%string);
   (width b + 5, 22,
    "| * "%string);
   (width b + 5 + 4, 22,
    "- Normal Food (+10)  |"%string);
   (width b + 5, 23,
    "| $ "%string);
   (width b + 5 + 4, 23,
    "- Special Food (+50) |"%string);
   (width b + 5, 24,
    "+------------------------+"%string)].

(** The cells to the right of the board outside the rows of the
    statistics. *)
Definition panel_area (b : GameBoard) (x y : Z) : Prop :=
  width b + 5 <= x /\ ~ (6 <= y <= 9).

(** The operations that keep the cursor in its row. *)
Definition in_row (op : TermOp) : Prop :=
  match op with
  | Gotoxy _ _ | ClearScreen => False
  | _ => True
  end.

(** The console shows the game: on the board, [o] on the segments behind
    the head, the glyph of the direction on the head, the symbol of the
    food on the food, and blanks elsewhere. *)
Definition screen_shows (sc : Screen) (g : Game) : Prop :=
  forall p,
    GameBoard.isValidPosition (board g) p = true ->
    (In p (tl (body (snake g))) -> shown sc p = "o"%char) /\
    (hd_error (body (snake g)) = Some p ->
     shown sc p = Draw.head_glyph (direction (snake g))) /\
    (p = food_position (food g) -> shown sc p = food_symbol (food g)) /\
    (~ In p (body (snake g)) -> p <> food_position (food g) ->
     shown sc p = " "%char).

(** The console shows nothing on the board but, at most, the snake and the
    food of the game. *)
Definition tidy (sc : Screen) (g : Game) : Prop :=
  forall p,
    GameBoard.isValidPosition (board g) p = true ->
    ~ In p (body (snake g)) -> p <> food_position (food g) ->
    shown sc p = " "%char.

(** The cells of the console [render] writes PAUSED into, as positions of
    the board, and the letter in each. *)
Definition pause_cell (b : GameBoard) (i : Z) : Position :=
  mkPosition (width b / 2 - 4 + i) (height b / 2).

Definition pause_letter (i : Z) : ascii :=
  match String.get (Z.to_nat i) "PAUSED" with
  | Some c => c
  | None => " "%char
  end.

(** ** Notions for the further properties *)

(** A direction at right angles to a moving one. *)
Definition perpendicular (d : Direction) : Direction :=
  match d with
  | UP | DOWN => LEFT
  | LEFT | RIGHT => UP
  | STOP => STOP
  end.

(** The letter key [processInput] maps to a direction (w, s, a, d), and
    the second code of its arrow key. *)
Definition letter_key (d : Direction) : Z :=
  match d with
  | UP => 119
  | DOWN => 115
  | LEFT => 97
  | RIGHT => 100
  | STOP => 32
  end.

Definition arrow_code (d : Direction) : Z :=
  match d with
  | UP => 72
  | DOWN => 80
  | LEFT => 75
  | RIGHT => 77
  | STOP => 32
  end.

(** The food [generateFood] makes at position [p] when the draw for the
    kind is [c]. *)
Definition food_of_draw (p : Position) (c : Z) : Food :=
  if Z.rem c 10 =? 0
  then mkFood p "$"%char LIGHT_YELLOW 50
  else mkFood p "*"%char LIGHT_RED 10.

(** Two cells that share a side, and a body in which each segment shares
    a side with the next. *)
Definition adjacentb (p q : Position) : bool :=
  Z.abs (pos_x p - pos_x q) + Z.abs (pos_y p - pos_y q) =? 1.

Fixpoint chainb (v : list Position) : bool :=
  match v with
  | [] => true
  | p :: v' =>
      match v' with
      | [] => true
      | q :: _ => adjacentb p q && chainb v'
      end
  end.

(** What else holds of the game in every state of the run: the body is a
    chain of neighbouring cells of at most 601 segments, score and high
    score are multiples of 10, every segment beyond the third (and a
    pending one) has brought at least 10 points, and the speed lies between
    50 and 185. *)
Definition run_inv (g : Game) : Prop :=
  chainb (body (snake g)) = true /\
  (List.length (body (snake g)) <= 601)%nat /\
  (10 | score g) /\
  10 * (Z.of_nat (List.length (body (snake g))) - 3
        + (if growing (snake g) then 1 else 0)) <= score g /\
  50 <= gameSpeed g <= 185 /\
  0 <= highScore g /\
  (10 | highScore g).

(** The last byte of the sequence a terminal sends for an arrow key:
    ESC, an opening bracket, then A, B, C or D. *)
Definition arrow_byte (d : Direction) : Z :=
  match d with
  | UP => 65
  | DOWN => 66
  | RIGHT => 67
  | LEFT => 68
  | STOP => 32
  end.

(** A byte of the terminal, and one that decides nothing in
    [handleGameOver]: neither r nor q, in either case. *)
Definition byte (c : Z) : Prop := 0 <= c <= 255.

Definition undecided (c : Z) : Prop :=
  byte c /\ tolower c <> 114 /\ tolower c <> 113.

(** ** Example frames *)

(** [initial_game] after the key w and the tick on [rand_zero]. *)
Definition up_game : Game :=
  Eval vm_compute in
    match Game.update 0 (Game.processInput (Pressed 119 0) initial_game)
                      rand_zero with
    | Ok (g, _) => g
    | Err _ => initial_game
    end.

(** [initial_game] after the key p, and after the tick that follows a
    second p. *)
Definition paused_game : Game :=
  Eval vm_compute in Game.processInput (Pressed 112 0) initial_game.

Definition resumed_game : Game :=
  Eval vm_compute in
    match Game.update 0 (Game.processInput (Pressed 112 0) paused_game)
                      rand_zero with
    | Ok (g, _) => g
    | Err _ => paused_game
    end.

(** The pass of the loop in which [at_right_wall] runs into the wall and
    the player answers r. *)
Definition restart_pass : Game * Drawn * list TermOp :=
  Eval vm_compute in
    match Draw.run_iteration 1 NoKey 114 at_right_wall Draw.new rand_zero with
    | Ok (x, _) => x
    | Err _ => (at_right_wall, Draw.new, [])
    end.

(** The first pass of the loop on [initial_game], no key pressed. *)
Definition first_pass : Game * Drawn * list TermOp :=
  Eval vm_compute in
    match Draw.run_iteration 0 NoKey 0 initial_game Draw.new rand_zero with
    | Ok (x, _) => x
    | Err _ => (initial_game, Draw.new, [])
    end.

(** [at_right_wall] after the tick that runs it into the wall. *)
Definition crashed_game : Game :=
  Eval vm_compute in
    match Game.update 0 at_right_wall rand_zero with
    | Ok (g, _) => g
    | Err _ => at_right_wall
    end.

(** Nothing typed during the first sleep, then x, q and w during the
    second, and nothing after. *)
Definition typed_xqw : nat -> list Z :=
  fun n => match n with
           | 1%nat => [120; 113; 119]
           | _ => []
           end.

(** * Properties *)

(** ** Basic facts *)

Lemma wrap_id (z : Z) : Int.in_range z -> Int.wrap z = z.
Proof.
  unfold Int.in_range, Int.min_int, Int.max_int, Int.wrap. intros H.
  rewrite Z.mod_small; lia.
Qed.

Lemma wrap_in_range (z : Z) : Int.in_range (Int.wrap z).
Proof.
  unfold Int.in_range, Int.min_int, Int.max_int, Int.wrap.
  pose proof (Z.mod_pos_bound (z + 2147483648) 4294967296). lia.
Qed.

Lemma Position_eqb_eq (a b : Position) : Position_eqb a b = true <-> a = b.
Proof.
  destruct a as [ax ay], b as [bx by_]. unfold Position_eqb. simpl.
  rewrite andb_true_iff, !Z.eqb_eq. split.
  - intros [-> ->]. reflexivity.
  - intros H. injection H. auto.
Qed.

Lemma Position_eqb_refl (a : Position) : Position_eqb a a = true.
Proof. apply Position_eqb_eq. reflexivity. Qed.

Lemma Position_eqb_neq (a b : Position) : Position_eqb a b = false <-> a <> b.
Proof.
  rewrite <- Position_eqb_eq. destruct (Position_eqb a b); split; congruence.
Qed.

Lemma find_in_In (v : list Position) (p : Position) :
  find_in v p = true <-> In p v.
Proof.
  induction v as [|q v IH]; simpl.
  - split; [discriminate | tauto].
  - destruct (Position_eqb q p) eqn:E.
    + apply Position_eqb_eq in E. tauto.
    + apply Position_eqb_neq in E. rewrite IH. tauto.
Qed.

Lemma find_in_not_In (v : list Position) (p : Position) :
  find_in v p = false <-> ~ In p v.
Proof.
  rewrite <- find_in_In. destruct (find_in v p); split; congruence.
Qed.

Lemma checkSelfCollision_loop_In (head : Position) (rest : list Position) :
  Snake.checkSelfCollision_loop head rest = true <-> In head rest.
Proof.
  induction rest as [|q rest IH]; simpl.
  - split; [discriminate | tauto].
  - destruct (Position_eqb head q) eqn:E.
    + apply Position_eqb_eq in E. split; auto.
    + apply Position_eqb_neq in E. rewrite IH. split; [auto|].
      intros [H|H]; [congruence | exact H].
Qed.

(** [checkSelfCollision] is true exactly when the head occurs again
    further down the body. *)
Lemma checkSelfCollision_spec (s : Snake) (head : Position)
      (rest : list Position) :
  body s = head :: rest ->
  (Snake.checkSelfCollision s = true <-> In head rest).
Proof.
  intros Hb. unfold Snake.checkSelfCollision. rewrite Hb.
  destruct rest as [|q rest]; simpl.
  - split; [discriminate | tauto].
  - apply (checkSelfCollision_loop_In head (q :: rest)).
Qed.

Lemma translate_wrap_sub (z : Z) :
  Int.min_int < z <= Int.max_int -> Int.sub z 1 = z - 1.
Proof.
  intros H. unfold Int.sub. apply wrap_id.
  unfold Int.in_range, Int.min_int, Int.max_int in *. lia.
Qed.

Lemma translate_wrap_add (z : Z) :
  Int.min_int <= z < Int.max_int -> Int.add z 1 = z + 1.
Proof.
  intros H. unfold Int.add. apply wrap_id.
  unfold Int.in_range, Int.min_int, Int.max_int in *. lia.
Qed.

(** What [move] computes on a moving snake with a head. *)
Lemma move_moving (s : Snake) (head : Position) (rest : list Position) :
  direction s <> STOP ->
  body s = head :: rest ->
  inner head ->
  Snake.move s =
  Ok (mkSnake (translate (direction s) head
                 :: (if growing s then body s else removelast (body s)))
              (body s) (direction s) false).
Proof.
  intros Hd Hb [Hx Hy]. unfold Snake.move.
  destruct (Direction_eqb (direction s) STOP) eqn:E.
  { destruct (direction s); simpl in E; congruence. }
  destruct s as [b pb d gr]. simpl in *. subst b.
  assert (Ht :
    match d with
    | UP => mkPosition (pos_x head) (Int.sub (pos_y head) 1)
    | DOWN => mkPosition (pos_x head) (Int.add (pos_y head) 1)
    | LEFT => mkPosition (Int.sub (pos_x head) 1) (pos_y head)
    | RIGHT => mkPosition (Int.add (pos_x head) 1) (pos_y head)
    | STOP => head
    end = translate d head).
  { destruct d; simpl; try reflexivity;
      rewrite ?translate_wrap_sub, ?translate_wrap_add by lia; reflexivity. }
  rewrite Ht. destruct gr; reflexivity.
Qed.

Lemma removelast_length {A} (l : list A) :
  List.length (removelast l) = pred (List.length l).
Proof.
  rewrite removelast_firstn_len. apply firstn_length_le. lia.
Qed.

(** ** C2: [Snake::setDirection] *)

(** C2. [setDirection] returns the snake untouched when the request is the
    exact opposite of a direction the snake is moving in; in every other
    case it assigns the request and nothing else; a stopped snake takes any
    request.  The function is total: a rejected request is no error. *)
Theorem C2_setDirection_rejects_reversal (s : Snake) (r : Direction) :
  (direction s <> STOP -> r = opposite (direction s) ->
   Snake.setDirection r s = s) /\
  (~ (direction s <> STOP /\ r = opposite (direction s)) ->
   Snake.setDirection r s = set_direction r s /\
   direction (Snake.setDirection r s) = r) /\
  (direction s = STOP -> direction (Snake.setDirection r s) = r).
Proof.
  destruct s as [b pb d gr]. unfold Snake.setDirection. simpl.
  split; [|split].
  - intros Hd Hr. subst r. destruct d; simpl; congruence.
  - intros Hn.
    split; destruct d, r; simpl; try reflexivity;
      exfalso; apply Hn; split; simpl; congruence.
  - intros Hd. subst d. reflexivity.
Qed.

(** C2 on a snake moving right: LEFT is rejected, UP is taken. *)
Lemma C2_setDirection_rejects_reversal_witness :
  let s := Snake.setDirection RIGHT Snake.new in
  (direction s <> STOP /\ LEFT = opposite (direction s) /\
   Snake.setDirection LEFT s = s) /\
  (~ (direction s <> STOP /\ UP = opposite (direction s)) /\
   Snake.setDirection UP s = set_direction UP s /\
   direction (Snake.setDirection UP s) = UP) /\
  (direction Snake.new = STOP /\
   direction (Snake.setDirection DOWN Snake.new) = DOWN).
Proof.
  intros s.
  assert (H1 : direction s <> STOP) by (simpl; discriminate).
  assert (H2 : LEFT = opposite (direction s)) by reflexivity.
  assert (H3 : ~ (direction s <> STOP /\ UP = opposite (direction s)))
    by (simpl; intros [_ H]; discriminate H).
  assert (H4 : direction Snake.new = STOP) by reflexivity.
  split; [|split].
  - split; [exact H1|]. split; [exact H2|].
    exact (proj1 (C2_setDirection_rejects_reversal s LEFT) H1 H2).
  - split; [exact H3|].
    exact (proj1 (proj2 (C2_setDirection_rejects_reversal s UP)) H3).
  - split; [exact H4|].
    exact (proj2 (proj2 (C2_setDirection_rejects_reversal Snake.new DOWN)) H4).
Defined.

(** ** The tick, unfolded *)

(** [update] in the RUNNING phase, once [move] has returned: the three
    checks in their order. *)
Lemma update_running (fuel : nat) (g : Game) (r : RandStream) (s' : Snake) :
  running g ->
  Snake.move (snake g) = Ok s' ->
  Game.update fuel g r =
  let g1 := Game.updateGameSpeed (set_snake s' (set_foodEaten false g)) in
  let head := Snake.getHead s' in
  if negb (GameBoard.isValidPosition (board g) head)
  then Ok (set_gameOver true g1, r)
  else if Snake.checkSelfCollision s'
  then Ok (set_gameOver true g1, r)
  else if Position_eqb head (food_position (food g))
  then
    match Food.generateFood fuel (width (board g)) (height (board g))
                            (body s') (food g) r with
    | Ok (f, r') =>
        Ok (set_food f
              (set_oldFoodPos (food_position (food g))
                 (set_foodEaten true
                    (set_snake (Snake.grow s')
                       (set_score
                          (Int.add (score g) (food_value (food g))) g1)))),
            r')
    | Err e => Err e
    end
  else Ok (g1, r).
Proof.
  intros [Hover Hpaused] Hmove.
  unfold Game.update. rewrite Hover, Hpaused. simpl orb. cbv iota.
  unfold bind at 1. unfold lift.
  change (snake (set_foodEaten false g)) with (snake g). rewrite Hmove.
  cbv zeta.
  change (board (Game.updateGameSpeed (set_snake s' (set_foodEaten false g))))
    with (board g).
  change (snake (Game.updateGameSpeed (set_snake s' (set_foodEaten false g))))
    with s'.
  change (food (Game.updateGameSpeed (set_snake s' (set_foodEaten false g))))
    with (food g).
  destruct (negb (GameBoard.isValidPosition (board g) (Snake.getHead s')));
    [reflexivity|].
  destruct (Snake.checkSelfCollision s'); [reflexivity|].
  unfold Food.getPosition.
  destruct (Position_eqb (Snake.getHead s') (food_position (food g)));
    [|reflexivity].
  unfold bind. simpl.
  unfold GameBoard.getWidth, GameBoard.getHeight, Snake.getBody. simpl.
  destruct (Food.generateFood fuel (width (board g)) (height (board g))
                              (body s') (food g) r) as [[f r']|e];
    reflexivity.
Qed.

(** ** C5: the bounds check and the wall *)

Lemma isValidPosition_true (b : GameBoard) (p : Position) :
  GameBoard.isValidPosition b p = true <->
  0 <= pos_x p < width b /\ 0 <= pos_y p < height b.
Proof.
  unfold GameBoard.isValidPosition.
  rewrite !andb_true_iff, !Z.geb_le, !Z.ltb_lt. lia.
Qed.

(** C5. [isValidPosition] (the spec's [Board.contains]) is false exactly
    when x<0, x>=width, y<0 or y>=height; a tick in the RUNNING phase whose
    move puts the head on such a position ends with [gameOver] set; and on
    the 30x20 board a snake with head (29,10) facing RIGHT moves its head
    to (30,10), which the board does not contain, and the game is over. *)
Theorem C5_bounds_and_wall (b : GameBoard) (p : Position) :
  (GameBoard.isValidPosition b p = false <->
   pos_x p < 0 \/ pos_x p >= width b \/ pos_y p < 0 \/ pos_y p >= height b) /\
  (forall fuel g r s',
      running g ->
      Snake.move (snake g) = Ok s' ->
      GameBoard.isValidPosition (board g) (Snake.getHead s') = false ->
      exists g',
        Game.update fuel g r = Ok (g', r) /\
        snake g' = s' /\ gameOver g' = true) /\
  (forall fuel r,
      exists g',
        Game.update fuel at_right_wall r = Ok (g', r) /\
        Snake.getHead (snake g') = mkPosition 30 10 /\
        GameBoard.isValidPosition (board g') (mkPosition 30 10) = false /\
        gameOver g' = true).
Proof.
  split; [|split].
  - pose proof (isValidPosition_true b p) as H.
    destruct (GameBoard.isValidPosition b p); split; intros H'.
    + discriminate.
    + assert (true = true) as E by reflexivity. apply H in E. lia.
    + destruct (Z_lt_dec (pos_x p) 0); [lia|].
      destruct (Z_ge_dec (pos_x p) (width b)); [lia|].
      destruct (Z_lt_dec (pos_y p) 0); [lia|].
      destruct (Z_ge_dec (pos_y p) (height b)); [lia|].
      assert (false = true) as E by (apply H; lia). discriminate.
    + reflexivity.
  - intros fuel g r s' Hrun Hmove Hout.
    eexists. rewrite (update_running fuel g r s' Hrun Hmove).
    cbv zeta. rewrite Hout. simpl negb. cbv iota.
    split; [reflexivity|]. split; reflexivity.
  - intros fuel r. eexists. split.
    + rewrite (update_running fuel at_right_wall r
                 (mkSnake [mkPosition 30 10; mkPosition 29 10; mkPosition 28 10]
                          [mkPosition 29 10; mkPosition 28 10; mkPosition 27 10]
                          RIGHT false)
                 (conj eq_refl eq_refl) eq_refl).
      reflexivity.
    + split; [reflexivity|]. split; reflexivity.
Qed.

(** C5 at the right wall. *)
Lemma C5_bounds_and_wall_witness :
  running at_right_wall /\
  Snake.move (snake at_right_wall)
  = Ok (mkSnake [mkPosition 30 10; mkPosition 29 10; mkPosition 28 10]
                [mkPosition 29 10; mkPosition 28 10; mkPosition 27 10]
                RIGHT false) /\
  exists g',
    Game.update 0 at_right_wall (fun _ => 0) = Ok (g', fun _ => 0) /\
    snake g' = mkSnake [mkPosition 30 10; mkPosition 29 10; mkPosition 28 10]
                       [mkPosition 29 10; mkPosition 28 10; mkPosition 27 10]
                       RIGHT false /\
    gameOver g' = true.
Proof.
  assert (Hrun : running at_right_wall) by (split; reflexivity).
  assert (Hmove : Snake.move (snake at_right_wall)
    = Ok (mkSnake [mkPosition 30 10; mkPosition 29 10; mkPosition 28 10]
                  [mkPosition 29 10; mkPosition 28 10; mkPosition 27 10]
                  RIGHT false)) by reflexivity.
  split; [exact Hrun|]. split; [exact Hmove|].
  exact (proj1 (proj2 (C5_bounds_and_wall (board at_right_wall)
                                           (mkPosition 30 10)))
               0%nat at_right_wall (fun _ => 0) _ Hrun Hmove eq_refl).
Defined.

(** ** C6: level and speed *)

Lemma score_div_100 (s : Z) :
  0 <= s <= Int.max_int -> Int.div s 100 = s / 100 /\ 0 <= s / 100 <= 21474836.
Proof.
  unfold Int.max_int. intros H.
  assert (Hb : 0 <= s / 100 <= 21474836).
  { pose proof (Z.div_mod s 100). pose proof (Z.mod_pos_bound s 100). lia. }
  split; [|exact Hb].
  unfold Int.div. rewrite Z.quot_div_nonneg by lia.
  apply wrap_id. unfold Int.in_range, Int.min_int, Int.max_int. lia.
Qed.

Lemma updateGameSpeed_spec (g : Game) :
  0 <= score g <= Int.max_int ->
  Game.updateGameSpeed g =
  set_currentLevel ("Level " ++ to_string (level_spec (score g)))%string
    (set_gameSpeed (tickIntervalMs_spec (score g)) g).
Proof.
  intros H. destruct (score_div_100 (score g) H) as [Hd Hb].
  unfold Game.updateGameSpeed, tickIntervalMs_spec, level_spec.
  rewrite Hd.
  assert (Hl : Int.add (score g / 100) 1 = score g / 100 + 1).
  { unfold Int.add. apply wrap_id.
    unfold Int.in_range, Int.min_int, Int.max_int. lia. }
  rewrite Hl.
  assert (Hm : Int.mul (score g / 100 + 1) 15 = (score g / 100 + 1) * 15).
  { unfold Int.mul. apply wrap_id.
    unfold Int.in_range, Int.min_int, Int.max_int. lia. }
  rewrite Hm.
  assert (Hs : Int.sub 200 ((score g / 100 + 1) * 15)
               = 200 - (score g / 100 + 1) * 15).
  { unfold Int.sub. apply wrap_id.
    unfold Int.in_range, Int.min_int, Int.max_int. lia. }
  rewrite Hs. reflexivity.
Qed.

(** C6. For every non-negative [int] score, [updateGameSpeed] shows level
    score/100 + 1 and sets the speed to max(50, 200 - level*15); for scores
    s1 < s2 the level does not fall and the speed does not rise; and the
    speed is never below 50, whatever the score. *)
Theorem C6_level_and_speed (g1 g2 : Game) :
  (0 <= score g1 <= Int.max_int ->
   gameSpeed (Game.updateGameSpeed g1)
   = Z.max 50 (200 - (score g1 / 100 + 1) * 15) /\
   currentLevel (Game.updateGameSpeed g1)
   = ("Level " ++ to_string (score g1 / 100 + 1))%string) /\
  (0 <= score g1 -> score g1 < score g2 -> score g2 <= Int.max_int ->
   level_spec (score g1) <= level_spec (score g2) /\
   currentLevel (Game.updateGameSpeed g1)
   = ("Level " ++ to_string (level_spec (score g1)))%string /\
   currentLevel (Game.updateGameSpeed g2)
   = ("Level " ++ to_string (level_spec (score g2)))%string /\
   gameSpeed (Game.updateGameSpeed g2) <= gameSpeed (Game.updateGameSpeed g1)) /\
  50 <= gameSpeed (Game.updateGameSpeed g1).
Proof.
  split; [|split].
  - intros H. rewrite (updateGameSpeed_spec g1 H). split; reflexivity.
  - intros H0 Hlt Hmax.
    assert (H1 : 0 <= score g1 <= Int.max_int) by lia.
    assert (H2 : 0 <= score g2 <= Int.max_int) by lia.
    rewrite (updateGameSpeed_spec g1 H1), (updateGameSpeed_spec g2 H2).
    assert (Hle : score g1 / 100 <= score g2 / 100)
      by (apply Z.div_le_mono; lia).
    split; [unfold level_spec; lia|].
    split; [reflexivity|]. split; [reflexivity|].
    simpl. unfold tickIntervalMs_spec, level_spec. lia.
  - unfold Game.updateGameSpeed. simpl. apply Z.le_max_l.
Qed.

(** C6 at scores 90 and 250: levels 1 and 3, speeds 185 and 155. *)
Lemma C6_level_and_speed_witness :
  let g1 := set_score 90 at_right_wall in
  let g2 := set_score 250 at_right_wall in
  0 <= score g1 <= Int.max_int /\
  0 <= score g1 /\ score g1 < score g2 /\ score g2 <= Int.max_int /\
  gameSpeed (Game.updateGameSpeed g1)
  = Z.max 50 (200 - (score g1 / 100 + 1) * 15) /\
  level_spec (score g1) <= level_spec (score g2) /\
  gameSpeed (Game.updateGameSpeed g2) <= gameSpeed (Game.updateGameSpeed g1).
Proof.
  intros g1 g2.
  assert (H1 : 0 <= score g1 <= Int.max_int)
    by (unfold Int.max_int; simpl; lia).
  assert (H2 : 0 <= score g1) by (simpl; lia).
  assert (H3 : score g1 < score g2) by (simpl; lia).
  assert (H4 : score g2 <= Int.max_int) by (unfold Int.max_int; simpl; lia).
  split; [exact H1|]. split; [exact H2|]. split; [exact H3|].
  split; [exact H4|].
  split; [exact (proj1 (proj1 (C6_level_and_speed g1 g2) H1))|].
  split;
    [exact (proj1 (proj1 (proj2 (C6_level_and_speed g1 g2)) H2 H3 H4))|].
  exact (proj2 (proj2 (proj2
           (proj1 (proj2 (C6_level_and_speed g1 g2)) H2 H3 H4)))).
Defined.

(** ** C8: leaving and re-entering STOP *)

Lemma setDirection_keeps_body (dir : Direction) (s : Snake) :
  body (Snake.setDirection dir s) = body s.
Proof.
  unfold Snake.setDirection.
  match goal with |- context [if ?c then _ else _] => destruct c end;
    reflexivity.
Qed.

Lemma setDirection_directional (dir : Direction) (s : Snake) :
  direction s <> STOP -> dir <> STOP ->
  direction (Snake.setDirection dir s) <> STOP.
Proof.
  intros Hs Hd. unfold Snake.setDirection.
  match goal with |- context [if ?c then _ else _] => destruct c end;
    simpl; assumption.
Qed.

(** [move] returns on every snake that has a head, and keeps the direction
    and a head. *)
Lemma move_defined (s : Snake) :
  body s <> [] ->
  exists s', Snake.move s = Ok s' /\ direction s' = direction s /\
             body s' <> [].
Proof.
  intros Hb. unfold Snake.move.
  destruct (Direction_eqb (direction s) STOP).
  - exists s. auto.
  - destruct s as [b pb d gr]. simpl in *.
    destruct b as [|head rest]; [congruence|].
    destruct gr; simpl.
    + eexists. split; [reflexivity|]. simpl. split; [reflexivity|discriminate].
    + eexists. split; [reflexivity|]. simpl. split; [reflexivity|discriminate].
Qed.

Lemma calls_directional (cs : list SnakeCall) :
  forall s, direction s <> STOP -> body s <> [] -> Forall directional cs ->
            exists s', calls cs s = Ok s' /\ direction s' <> STOP.
Proof.
  induction cs as [|c cs IH]; intros s Hd Hb Hcs.
  - exists s. split; [reflexivity | exact Hd].
  - inversion Hcs as [|c' cs' Hc Hrest]; subst.
    destruct c as [dir|]; simpl.
    + apply IH; [|rewrite setDirection_keeps_body; exact Hb | exact Hrest].
      apply setDirection_directional; [exact Hd | exact Hc].
    + destruct (move_defined s Hb) as [s' [Hm [Hd' Hb']]].
      rewrite Hm. apply IH; [congruence | exact Hb' | exact Hrest].
Qed.

Lemma processInput_directional (kb : Keyboard) (g : Game) :
  direction (snake g) <> STOP ->
  direction (snake (Game.processInput kb g)) <> STOP.
Proof.
  intros Hd. unfold Game.processInput. destruct kb as [|key next]; [exact Hd|].
  repeat match goal with
         | |- context [if ?c then _ else _] => destruct c
         end;
    simpl; try exact Hd;
    apply setDirection_directional; try exact Hd; discriminate.
Qed.

Lemma update_directional (fuel : nat) (g : Game) (r : RandStream)
      (g' : Game) (r' : RandStream) :
  Game.update fuel g r = Ok (g', r') ->
  direction (snake g) <> STOP ->
  direction (snake g') <> STOP.
Proof.
  intros H Hd. unfold Game.update in H.
  destruct (gameOver g || paused g); [injection H as <- _; exact Hd|].
  cbv zeta in H. unfold bind at 1 in H. unfold lift in H.
  change (snake (set_foodEaten false g)) with (snake g) in H.
  destruct (Snake.move (snake g)) as [s'|e] eqn:Hmove; [|discriminate].
  assert (Hd' : direction s' <> STOP).
  { unfold Snake.move in Hmove.
    destruct (Direction_eqb (direction (snake g)) STOP);
      [injection Hmove as <-; exact Hd|].
    cbv zeta in Hmove.
    destruct (body (set_previousBody (body (snake g)) (snake g)));
      [discriminate|].
    destruct (negb _); injection Hmove as <-; exact Hd. }
  cbv zeta in H.
  destruct (negb _); [injection H as <- _; exact Hd'|].
  destruct (Snake.checkSelfCollision _); [injection H as <- _; exact Hd'|].
  destruct (Position_eqb _ _); [|injection H as <- _; exact Hd'].
  unfold bind in H.
  destruct (Food.generateFood _ _ _ _ _ _) as [[f1 r1]|e]; [|discriminate].
  injection H as <- _. exact Hd'.
Qed.

(** C8 as stated fails: [setDirection(STOP)] on a snake moving up is
    accepted, since STOP is not the opposite of UP. *)
Lemma C8_setDirection_STOP_accepted :
  let s := Snake.setDirection UP Snake.new in
  direction s = UP /\
  calls [CallSetDirection STOP] s = Ok (set_direction STOP s) /\
  direction (set_direction STOP s) = STOP /\
  ~ (forall s0 cs s',
        direction s0 <> STOP -> calls cs s0 = Ok s' -> direction s' <> STOP).
Proof.
  intros s. split; [reflexivity|]. split; [reflexivity|].
  split; [reflexivity|].
  intros H.
  apply (H s [CallSetDirection STOP] (set_direction STOP s)).
  - simpl. discriminate.
  - reflexivity.
  - reflexivity.
Qed.

(** C8, amended.  A snake that is moving stays out of STOP under every
    sequence of [move] calls and of [setDirection] calls whose request is
    one of UP, DOWN, LEFT, RIGHT; every such sequence returns.  These are
    the only requests [processInput] makes, whatever the keyboard holds,
    and a tick keeps the direction.  STOP is the direction of a new snake
    and of a reset one. *)
Theorem C8_never_STOP_again (s : Snake) (cs : list SnakeCall) :
  (direction s <> STOP -> body s <> [] -> Forall directional cs ->
   exists s', calls cs s = Ok s' /\ direction s' <> STOP) /\
  (forall kb g,
      direction (snake g) <> STOP ->
      direction (snake (Game.processInput kb g)) <> STOP) /\
  (forall fuel g r g' r',
      Game.update fuel g r = Ok (g', r') ->
      direction (snake g) <> STOP ->
      direction (snake g') <> STOP) /\
  direction Snake.new = STOP /\
  direction (Snake.reset s) = STOP.
Proof.
  split; [apply calls_directional|].
  split; [exact processInput_directional|].
  split; [exact update_directional|].
  split; reflexivity.
Qed.

(** C8 on a snake steered right, left (rejected), moved, steered down; and
    on the down arrow pressed while the snake moves right. *)
Lemma C8_never_STOP_again_witness :
  let s := Snake.setDirection RIGHT Snake.new in
  let cs := [CallSetDirection LEFT; CallMove; CallSetDirection DOWN] in
  (direction s <> STOP /\ body s <> [] /\ Forall directional cs /\
   exists s', calls cs s = Ok s' /\ direction s' <> STOP) /\
  (direction (snake before_food) <> STOP /\
   direction (snake (Game.processInput (Pressed 224 80) before_food))
   <> STOP) /\
  (Game.update 1 before_food rand_one = Ok (after_meal, rand_one) /\
   direction (snake after_meal) <> STOP).
Proof.
  intros s cs.
  assert (H1 : direction s <> STOP) by (simpl; discriminate).
  assert (H2 : body s <> []) by (simpl; discriminate).
  assert (H3 : Forall directional cs).
  { repeat constructor; simpl; discriminate. }
  assert (H4 : direction (snake before_food) <> STOP)
    by (simpl; discriminate).
  assert (H5 : Game.update 1 before_food rand_one
               = Ok (after_meal, rand_one)) by reflexivity.
  split; [|split].
  - split; [exact H1|]. split; [exact H2|]. split; [exact H3|].
    exact (proj1 (C8_never_STOP_again s cs) H1 H2 H3).
  - split; [exact H4|].
    exact (proj1 (proj2 (C8_never_STOP_again s cs))
                 (Pressed 224 80) before_food H4).
  - split; [exact H5|].
    exact (proj1 (proj2 (proj2 (C8_never_STOP_again s cs)))
                 _ _ _ _ _ H5 H4).
Defined.

(** ** C10: the two files agree *)

(** C10. Each of [Snake::setDirection], [Snake::move],
    [Snake::checkSelfCollision], [Snake::reset], [Food::generateFood] (on
    every random stream), [GameBoard::isValidPosition],
    [Game::updateGameSpeed] and [Game::update] of [src/snakeCycle.cpp]
    returns, on every input, what the function of the same name in
    [src/unnamed/part_000] returns. *)
Theorem C10_files_agree :
  (forall dir s, SnakeCycle.Snake.setDirection dir s
                 = SnakeCpp.Snake.setDirection dir s) /\
  (forall s, SnakeCycle.Snake.move s = SnakeCpp.Snake.move s) /\
  (forall s, SnakeCycle.Snake.checkSelfCollision s
             = SnakeCpp.Snake.checkSelfCollision s) /\
  (forall s, SnakeCycle.Snake.reset s = SnakeCpp.Snake.reset s) /\
  (forall fuel w h snakeBody f r,
      SnakeCycle.Food.generateFood fuel w h snakeBody f r
      = SnakeCpp.Food.generateFood fuel w h snakeBody f r) /\
  (forall b pos, SnakeCycle.GameBoard.isValidPosition b pos
                 = SnakeCpp.GameBoard.isValidPosition b pos) /\
  (forall g, SnakeCycle.Game.updateGameSpeed g
             = SnakeCpp.Game.updateGameSpeed g) /\
  (forall fuel g r, SnakeCycle.Game.update fuel g r
                    = SnakeCpp.Game.update fuel g r).
Proof.
  assert (Hloop : forall fuel w h snakeBody r,
             SnakeCycle.Food.generateFood_loop fuel w h snakeBody r
             = SnakeCpp.Food.generateFood_loop fuel w h snakeBody r).
  { induction fuel as [|fuel IH]; intros w h snakeBody r; [reflexivity|].
    simpl. unfold bind.
    destruct (rand r) as [[a r1]|e]; [|reflexivity].
    destruct (int_rem a w r1) as [[px r2]|e]; [|reflexivity].
    destruct (rand r2) as [[b r3]|e]; [|reflexivity].
    destruct (int_rem b h r3) as [[py r4]|e]; [|reflexivity].
    destruct (find_in snakeBody (mkPosition px py)); [apply IH|reflexivity]. }
  assert (Hgen : forall fuel w h snakeBody f r,
             SnakeCycle.Food.generateFood fuel w h snakeBody f r
             = SnakeCpp.Food.generateFood fuel w h snakeBody f r).
  { intros. unfold SnakeCycle.Food.generateFood, SnakeCpp.Food.generateFood.
    unfold bind. rewrite Hloop. reflexivity. }
  assert (Hcol : forall s, SnakeCycle.Snake.checkSelfCollision s
                           = SnakeCpp.Snake.checkSelfCollision s).
  { intros s.
    unfold SnakeCycle.Snake.checkSelfCollision,
           SnakeCpp.Snake.checkSelfCollision.
    destruct (List.length (body s) <=? 1)%nat; [reflexivity|].
    destruct (body s) as [|head rest]; [reflexivity|].
    induction rest as [|q rest IH]; [reflexivity|].
    simpl. rewrite IH. reflexivity. }
  assert (Hmove : forall s, SnakeCycle.Snake.move s = SnakeCpp.Snake.move s).
  { intros s. unfold SnakeCycle.Snake.move, SnakeCpp.Snake.move.
    destruct (Direction_eqb (direction s) STOP); [reflexivity|].
    cbv zeta. destruct (body (set_previousBody (body s) s)); [reflexivity|].
    destruct (direction (set_previousBody (body s) s)); reflexivity. }
  split; [intros dir s; reflexivity|].
  split; [exact Hmove|].
  split; [exact Hcol|].
  split; [intros s; reflexivity|].
  split; [exact Hgen|].
  split; [intros b pos; reflexivity|].
  split; [intros g; reflexivity|].
  intros fuel g r.
  unfold SnakeCycle.Game.update, SnakeCpp.Game.update.
  destruct (gameOver g || paused g); [reflexivity|].
  cbv zeta. unfold bind at 1 3.
  change (SnakeCpp.Snake.move (snake (set_foodEaten false g)))
    with (SnakeCycle.Snake.move (snake (set_foodEaten false g))).
  destruct (lift (SnakeCycle.Snake.move (snake (set_foodEaten false g))) r)
    as [[s' r']|e]; reflexivity.
Qed.

(** ** The sampling loop of [generateFood] *)

Lemma sample_after_draw (w h : Z) (r : RandStream) (k : nat) :
  sample w h (after_draw r) k = sample w h r (S k).
Proof.
  unfold sample, after_draw.
  replace (2 * S k)%nat with (S (S (2 * k))) by lia.
  replace (S (S (2 * k)) + 1)%nat with (S (S (2 * k + 1))) by lia.
  reflexivity.
Qed.

Lemma generateFood_loop_div0 (fuel : nat) (w h : Z)
      (snakeBody : list Position) (r : RandStream) (p : Position)
      (r' : RandStream) :
  Food.generateFood_loop fuel w h snakeBody r = Ok (p, r') ->
  w <> 0 /\ h <> 0.
Proof.
  destruct fuel as [|fuel]; [discriminate|].
  simpl. unfold bind, rand, int_rem.
  destruct (w =? 0) eqn:Ew; [discriminate|].
  destruct (h =? 0) eqn:Eh; [simpl; discriminate|].
  intros _. split; apply Z.eqb_neq; assumption.
Qed.

Section SamplingLoop.

Variables (w h : Z) (snakeBody : list Position).
Hypothesis Hw : w <> 0.
Hypothesis Hh : h <> 0.

(** One pass through the loop. *)
Lemma generateFood_loop_step (fuel : nat) (r : RandStream) :
  Food.generateFood_loop (S fuel) w h snakeBody r =
  if find_in snakeBody (sample w h r 0)
  then Food.generateFood_loop fuel w h snakeBody (after_draw r)
  else Ok (sample w h r 0, after_draw r).
Proof.
  simpl. unfold bind, rand, int_rem.
  rewrite (proj2 (Z.eqb_neq w 0) Hw), (proj2 (Z.eqb_neq h 0) Hh).
  unfold ret. unfold sample. simpl.
  destruct (find_in snakeBody
              (mkPosition (Z.rem (r 0%nat) w) (Z.rem (r 1%nat) h)));
    reflexivity.
Qed.

(** The loop returns as soon as the fuel reaches past a draw that is
    outside the body. *)
Lemma generateFood_loop_returns (k : nat) :
  forall r fuel,
    ~ In (sample w h r k) snakeBody -> (k < fuel)%nat ->
    exists p r', Food.generateFood_loop fuel w h snakeBody r = Ok (p, r').
Proof.
  induction k as [|k IH]; intros r fuel Hfree Hlt.
  - destruct fuel as [|fuel]; [lia|].
    rewrite generateFood_loop_step.
    apply find_in_not_In in Hfree. rewrite Hfree.
    eexists. eexists. reflexivity.
  - destruct fuel as [|fuel]; [lia|].
    rewrite generateFood_loop_step.
    destruct (find_in snakeBody (sample w h r 0)).
    + apply IH; [|lia]. rewrite sample_after_draw. exact Hfree.
    + eexists. eexists. reflexivity.
Qed.

(** On a stream all of whose draws are inside the body the loop uses up
    any fuel. *)
Lemma generateFood_loop_stuck (fuel : nat) :
  forall r,
    (forall k, In (sample w h r k) snakeBody) ->
    Food.generateFood_loop fuel w h snakeBody r = Err OutOfFuel.
Proof.
  induction fuel as [|fuel IH]; intros r Hall; [reflexivity|].
  rewrite generateFood_loop_step.
  pose proof (Hall 0%nat) as H0. apply find_in_In in H0. rewrite H0.
  apply IH. intros k. rewrite sample_after_draw. apply Hall.
Qed.

End SamplingLoop.

(** What the loop returns is a draw outside the body, and every earlier
    draw was inside. *)
Lemma generateFood_loop_sound (fuel : nat) (w h : Z)
      (snakeBody : list Position) :
  forall r p r',
    Food.generateFood_loop fuel w h snakeBody r = Ok (p, r') ->
    exists k, (k < fuel)%nat /\ p = sample w h r k /\ ~ In p snakeBody /\
              forall j, (j < k)%nat -> In (sample w h r j) snakeBody.
Proof.
  induction fuel as [|fuel IH]; intros r p r' H; [discriminate|].
  destruct (generateFood_loop_div0 _ _ _ _ _ _ _ H) as [Hw Hh].
  rewrite (generateFood_loop_step w h snakeBody Hw Hh fuel r) in H.
  destruct (find_in snakeBody (sample w h r 0)) eqn:E.
  - destruct (IH _ _ _ H) as [k [Hk [Hp [Hfree Hbefore]]]].
    exists (S k). split; [lia|].
    split; [rewrite <- sample_after_draw; exact Hp|].
    split; [exact Hfree|].
    intros [|j] Hj.
    + apply find_in_In. exact E.
    + rewrite <- sample_after_draw. apply Hbefore. lia.
  - injection H as Hp _. exists 0%nat. split; [lia|].
    split; [symmetry; exact Hp|]. split.
    + rewrite <- Hp. apply find_in_not_In. exact E.
    + intros j Hj. lia.
Qed.

(** [generateFood] after its loop: the kind is drawn and the four fields
    are assigned. *)
Lemma generateFood_after_loop (fuel : nat) (w h : Z)
      (snakeBody : list Position) (f : Food) (r : RandStream) :
  Food.generateFood fuel w h snakeBody f r =
  match Food.generateFood_loop fuel w h snakeBody r with
  | Ok (p, r') =>
      Ok (if Z.rem (r' 0%nat) 10 =? 0
          then mkFood p "$"%char LIGHT_YELLOW 50
          else mkFood p "*"%char LIGHT_RED 10,
          fun n => r' (S n))
  | Err e => Err e
  end.
Proof.
  unfold Food.generateFood. unfold bind at 1.
  destruct (Food.generateFood_loop fuel w h snakeBody r) as [[p r']|e];
    [|reflexivity].
  unfold bind, rand, int_rem. simpl.
  destruct (Z.rem (r' 0%nat) 10 =? 0); reflexivity.
Qed.

Lemma generateFood_sound (fuel : nat) (w h : Z) (snakeBody : list Position)
      (f f' : Food) (r r' : RandStream) :
  Food.generateFood fuel w h snakeBody f r = Ok (f', r') ->
  (exists k, (k < fuel)%nat /\ food_position f' = sample w h r k) /\
  ~ In (food_position f') snakeBody /\
  (common_food f' \/ bonus_food f') /\
  w <> 0 /\ h <> 0.
Proof.
  rewrite generateFood_after_loop.
  destruct (Food.generateFood_loop fuel w h snakeBody r) as [[p r1]|e] eqn:E;
    [|discriminate].
  intros H. injection H as Hf _.
  destruct (generateFood_loop_sound _ _ _ _ _ _ _ E) as [k [Hk [Hp [Hfree _]]]].
  destruct (generateFood_loop_div0 _ _ _ _ _ _ _ E) as [Hw Hh].
  assert (Hpos : food_position f' = p).
  { rewrite <- Hf. destruct (Z.rem (r1 0%nat) 10 =? 0); reflexivity. }
  split; [exists k; split; [exact Hk | congruence]|].
  split; [rewrite Hpos; exact Hfree|].
  split; [|split; assumption].
  rewrite <- Hf. destruct (Z.rem (r1 0%nat) 10 =? 0);
    [right | left]; repeat split.
Qed.

Lemma generateFood_returns_iff (w h : Z) (snakeBody : list Position)
      (f : Food) (r : RandStream) :
  generateFood_returns w h snakeBody f r <->
  w <> 0 /\ h <> 0 /\ exists k, ~ In (sample w h r k) snakeBody.
Proof.
  unfold generateFood_returns. split.
  - intros [fuel [f' [r' H]]].
    destruct (generateFood_sound _ _ _ _ _ _ _ _ H)
      as [[k [_ Hk]] [Hfree [_ [Hw Hh]]]].
    split; [exact Hw|]. split; [exact Hh|].
    exists k. rewrite <- Hk. exact Hfree.
  - intros [Hw [Hh [k Hfree]]].
    destruct (generateFood_loop_returns w h snakeBody Hw Hh k r (S k) Hfree)
      as [p [r' Hloop]]; [lia|].
    exists (S k). eexists. eexists.
    rewrite generateFood_after_loop, Hloop. reflexivity.
Qed.

(** A draw from a stream of [rand()] results lies on the board. *)
Lemma sample_valid (w h : Z) (r : RandStream) (k : nat) :
  rand_stream_ok r -> 0 < w -> 0 < h ->
  GameBoard.isValidPosition (mkGameBoard w h) (sample w h r k) = true.
Proof.
  intros Hr Hw Hh. apply isValidPosition_true. unfold sample.
  cbn [pos_x pos_y width height].
  pose proof (Hr (2 * k)%nat) as H1. pose proof (Hr (2 * k + 1)%nat) as H2.
  split; apply Z.rem_bound_pos; lia.
Qed.

Lemma free_cell_board (w h : Z) (snakeBody : list Position) (p : Position) :
  free_cell w h snakeBody p -> 0 < w /\ 0 < h.
Proof.
  intros [Hv _]. apply isValidPosition_true in Hv. simpl in Hv. lia.
Qed.

(** ** Lists of positions *)

Lemma In_removelast {A} (l : list A) (x : A) :
  In x (removelast l) -> In x l.
Proof.
  induction l as [|a l IH]; [intros []|].
  destruct l as [|b l]; [intros []|].
  change (removelast (a :: b :: l)) with (a :: removelast (b :: l)).
  intros [H|H]; [left; exact H | right; apply IH; exact H].
Qed.

Lemma NoDup_removelast {A} (l : list A) : NoDup l -> NoDup (removelast l).
Proof.
  induction l as [|a l IH]; intros H; [constructor|].
  destruct l as [|b l]; [constructor|].
  change (removelast (a :: b :: l)) with (a :: removelast (b :: l)).
  inversion H as [|a' l' Hnotin Hnd]; subst. constructor.
  - intros Hin. apply Hnotin. apply In_removelast. exact Hin.
  - apply IH. exact Hnd.
Qed.

Lemma on_board_removelast (b : GameBoard) (v : list Position) :
  on_board b v -> on_board b (removelast v).
Proof.
  unfold on_board. rewrite !Forall_forall. intros H p Hp.
  apply H. apply In_removelast. exact Hp.
Qed.

Lemma cells_length (w h : nat) : List.length (cells w h) = (w * h)%nat.
Proof.
  unfold cells. rewrite length_map, length_prod, !length_seq. reflexivity.
Qed.

Lemma cells_In (w h : nat) (p : Position) :
  GameBoard.isValidPosition (mkGameBoard (Z.of_nat w) (Z.of_nat h)) p = true ->
  In p (cells w h).
Proof.
  intros H. apply isValidPosition_true in H. simpl in H.
  unfold cells. apply in_map_iff.
  exists (Z.to_nat (pos_x p), Z.to_nat (pos_y p)). split.
  - destruct p as [px py]. simpl in *. rewrite !Z2Nat.id by lia. reflexivity.
  - apply in_prod_iff. rewrite !in_seq. lia.
Qed.

(** A body without repetition that lies on the board has no more segments
    than the board has cells. *)
Lemma body_fits_board (w h : nat) (v : list Position) :
  NoDup v -> on_board (mkGameBoard (Z.of_nat w) (Z.of_nat h)) v ->
  (List.length v <= w * h)%nat.
Proof.
  intros Hnd Hon. rewrite <- cells_length.
  apply NoDup_incl_length; [exact Hnd|].
  intros p Hp. apply cells_In.
  unfold on_board in Hon. rewrite Forall_forall in Hon. apply Hon. exact Hp.
Qed.

(** ** What [move] does to the body *)

Lemma move_stopped (s : Snake) : direction s = STOP -> Snake.move s = Ok s.
Proof. intros H. unfold Snake.move. rewrite H. reflexivity. Qed.

Lemma move_body (s s' : Snake) :
  Snake.move s = Ok s' ->
  direction s <> STOP ->
  exists head,
    body s' = head :: (if growing s then body s else removelast (body s)) /\
    growing s' = false /\ direction s' = direction s /\
    body s <> [].
Proof.
  unfold Snake.move. intros H Hd.
  destruct (Direction_eqb (direction s) STOP) eqn:E.
  { destruct (direction s); simpl in E; congruence. }
  destruct s as [b pb d gr]. simpl in *.
  destruct b as [|head rest]; [discriminate|].
  destruct gr; simpl in H; injection H as <-; simpl;
    eexists; (split; [reflexivity|]); repeat split; discriminate.
Qed.

Lemma move_previousBody (s s' : Snake) :
  Snake.move s = Ok s' ->
  direction s <> STOP ->
  previousBody s' = body s.
Proof.
  unfold Snake.move. intros H Hd.
  destruct (Direction_eqb (direction s) STOP) eqn:E.
  { destruct (direction s); simpl in E; congruence. }
  destruct s as [b pb d gr]. simpl in *.
  destruct b as [|head rest]; [discriminate|].
  destruct gr; simpl in H; injection H as <-; reflexivity.
Qed.

Lemma move_length (s s' : Snake) :
  Snake.move s = Ok s' ->
  Z.of_nat (List.length (body s')) + (if growing s' then 1 else 0)
  = Z.of_nat (List.length (body s)) + (if growing s then 1 else 0) /\
  (List.length (body s) <= List.length (body s'))%nat.
Proof.
  intros H. destruct (Direction_eqb (direction s) STOP) eqn:E.
  - unfold Snake.move in H. rewrite E in H. injection H as <-.
    split; [reflexivity | lia].
  - assert (Hd : direction s <> STOP)
      by (intros Hd; rewrite Hd in E; discriminate).
    destruct (move_body s s' H Hd) as [head [Hb [Hg [_ Hne]]]].
    rewrite Hb, Hg. destruct (growing s); simpl List.length.
    + lia.
    + rewrite removelast_length.
      destruct (body s); [congruence|]. simpl List.length. lia.
Qed.

(** ** The stream stays a stream of [rand()] results *)

Lemma after_draw_ok (r : RandStream) :
  rand_stream_ok r -> rand_stream_ok (after_draw r).
Proof. intros H n. apply H. Qed.

Lemma generateFood_loop_stream (fuel : nat) (w h : Z)
      (snakeBody : list Position) :
  forall r p r',
    Food.generateFood_loop fuel w h snakeBody r = Ok (p, r') ->
    rand_stream_ok r -> rand_stream_ok r'.
Proof.
  induction fuel as [|fuel IH]; intros r p r' H Hr; [discriminate|].
  destruct (generateFood_loop_div0 _ _ _ _ _ _ _ H) as [Hw Hh].
  rewrite (generateFood_loop_step w h snakeBody Hw Hh fuel r) in H.
  destruct (find_in snakeBody (sample w h r 0)).
  - apply (IH _ _ _ H). apply after_draw_ok. exact Hr.
  - injection H as _ <-. apply after_draw_ok. exact Hr.
Qed.

Lemma generateFood_stream (fuel : nat) (w h : Z) (snakeBody : list Position)
      (f f' : Food) (r r' : RandStream) :
  Food.generateFood fuel w h snakeBody f r = Ok (f', r') ->
  rand_stream_ok r -> rand_stream_ok r'.
Proof.
  rewrite generateFood_after_loop.
  destruct (Food.generateFood_loop fuel w h snakeBody r) as [[p r1]|e] eqn:E;
    [|discriminate].
  intros H Hr. injection H as _ <-.
  pose proof (generateFood_loop_stream _ _ _ _ _ _ _ E Hr) as H1.
  intros n. apply H1.
Qed.

(** The food [generateFood] places lies on the board (of positive size)
    and outside the body it was given. *)
Lemma generateFood_placed (fuel : nat) (w h : Z) (snakeBody : list Position)
      (f f' : Food) (r r' : RandStream) :
  rand_stream_ok r -> 0 < w -> 0 < h ->
  Food.generateFood fuel w h snakeBody f r = Ok (f', r') ->
  GameBoard.isValidPosition (mkGameBoard w h) (food_position f') = true /\
  ~ In (food_position f') snakeBody.
Proof.
  intros Hr Hw Hh H.
  destruct (generateFood_sound _ _ _ _ _ _ _ _ H) as [[k [_ Hk]] [Hfree _]].
  split; [|exact Hfree]. rewrite Hk. apply sample_valid; assumption.
Qed.

(** ** The invariant *)

Lemma kind_value (f : Food) :
  common_food f \/ bonus_food f -> food_value f = 10 \/ food_value f = 50.
Proof.
  intros [[_ [_ H]]|[_ [_ H]]]; [left | right]; exact H.
Qed.

Lemma initial_body_alive (b : GameBoard) :
  b = mkGameBoard 30 20 ->
  NoDup (body Snake.new) /\ on_board b (body Snake.new).
Proof.
  intros ->. split.
  - simpl. repeat constructor; simpl; intuition discriminate.
  - unfold on_board. simpl. repeat constructor.
Qed.

Lemma new_inv (fuel : nat) (r0 : RandStream) (g : Game) (r : RandStream) :
  rand_stream_ok r0 ->
  Game.new fuel r0 = Ok (g, r) ->
  game_inv g /\ rand_stream_ok r /\ gameOver g = false /\
  snake g = Snake.new.
Proof.
  intros Hr H. unfold Game.new in H. cbv zeta in H. unfold bind in H.
  destruct (Food.generateFood fuel _ _ _ _ r0) as [[f r1]|e] eqn:E;
    [|discriminate].
  unfold ret in H. injection H as <- <-.
  pose proof (generateFood_stream _ _ _ _ _ _ _ _ E Hr) as Hr1.
  destruct (generateFood_sound _ _ _ _ _ _ _ _ E) as [_ [_ [Hval _]]].
  pose proof (fun Hw Hh => generateFood_placed _ _ _ _ _ _ _ _ Hr Hw Hh E)
    as Hplaced. simpl in Hplaced.
  destruct Hplaced as [Hvalid Hfree]; [lia | lia |].
  split; [|split; [exact Hr1 | split; reflexivity]].
  unfold game_inv. simpl.
  split; [reflexivity|]. split; [lia|]. split; [exact Hval|].
  split; [lia|]. intros _. unfold alive_inv. simpl.
  destruct (initial_body_alive (mkGameBoard 30 20) eq_refl) as [Hnd Hon].
  split; [exact Hnd|]. split; [exact Hon|]. split; [exact Hvalid|exact Hfree].
Qed.

Lemma restart_inv (fuel : nat) (g : Game) (r : RandStream)
      (g' : Game) (r' : RandStream) :
  board g = mkGameBoard 30 20 ->
  rand_stream_ok r ->
  Game.restart fuel g r = Ok (g', r') ->
  game_inv g' /\ rand_stream_ok r' /\ gameOver g' = false /\
  snake g' = Snake.reset (snake g) /\ score g' = 0 /\ paused g' = false /\
  gameSpeed g' = 150 /\ currentLevel g' = "Level 1"%string.
Proof.
  intros Hb Hr H. unfold Game.restart in H. cbv zeta in H. unfold bind in H.
  destruct (Food.generateFood fuel _ _ _ _ r) as [[f r1]|e] eqn:E;
    [|discriminate].
  unfold ret in H. injection H as <- <-.
  unfold GameBoard.getWidth, GameBoard.getHeight, Snake.getBody in E.
  simpl in E. rewrite Hb in E. simpl in E.
  pose proof (generateFood_stream _ _ _ _ _ _ _ _ E Hr) as Hr1.
  destruct (generateFood_sound _ _ _ _ _ _ _ _ E) as [_ [_ [Hval _]]].
  pose proof (fun Hw Hh => generateFood_placed _ _ _ _ _ _ _ _ Hr Hw Hh E)
    as Hplaced. simpl in Hplaced.
  destruct Hplaced as [Hvalid Hfree]; [lia | lia |].
  split; [|split; [exact Hr1 | repeat split]].
  unfold game_inv. simpl.
  split; [exact Hb|]. split; [lia|]. split; [exact Hval|].
  split; [lia|]. intros _. unfold alive_inv. simpl. rewrite Hb.
  destruct (initial_body_alive (mkGameBoard 30 20) eq_refl) as [Hnd Hon].
  split; [exact Hnd|]. split; [exact Hon|]. split; [exact Hvalid|exact Hfree].
Qed.

Lemma processInput_frame (kb : Keyboard) (g : Game) :
  body (snake (Game.processInput kb g)) = body (snake g) /\
  growing (snake (Game.processInput kb g)) = growing (snake g) /\
  food (Game.processInput kb g) = food g /\
  board (Game.processInput kb g) = board g /\
  score (Game.processInput kb g) = score g /\
  gameOver (Game.processInput kb g) = gameOver g.
Proof.
  assert (Hset : forall dir,
    body (Snake.setDirection dir (snake g)) = body (snake g) /\
    growing (Snake.setDirection dir (snake g)) = growing (snake g)).
  { intros dir. unfold Snake.setDirection.
    match goal with |- context [if ?c then _ else _] => destruct c end;
      split; reflexivity. }
  unfold Game.processInput. destruct kb as [|key next].
  - repeat split.
  - repeat match goal with
           | |- context [if ?c then _ else _] => destruct c
           end;
      simpl; repeat split; apply Hset.
Qed.

Lemma processInput_inv (kb : Keyboard) (g : Game) :
  game_inv g -> game_inv (Game.processInput kb g).
Proof.
  destruct (processInput_frame kb g) as [Hb [Hg [Hf [Hbd [Hs Ho]]]]].
  unfold game_inv, alive_inv. rewrite Hb, Hg, Hf, Hbd, Hs, Ho. tauto.
Qed.

Lemma update_idle (fuel : nat) (g : Game) (r : RandStream) :
  gameOver g = true \/ paused g = true -> Game.update fuel g r = Ok (g, r).
Proof.
  intros [H|H]; unfold Game.update; rewrite H;
    [reflexivity | rewrite orb_true_r; reflexivity].
Qed.

Lemma getHead_In (s : Snake) :
  body s <> [] -> In (Snake.getHead s) (body s).
Proof.
  unfold Snake.getHead. destruct (body s); [congruence|]. intros _. left.
  reflexivity.
Qed.

(** After a move that passed the wall check and the self-collision check
    the body is again without repetition and on the board; the food is
    outside it unless the head is on the food, and then the snake did move
    and no growth is pending. *)
Lemma moved_alive (g : Game) (s' : Snake) :
  game_inv g -> gameOver g = false ->
  Snake.move (snake g) = Ok s' ->
  GameBoard.isValidPosition (board g) (Snake.getHead s') = true ->
  Snake.checkSelfCollision s' = false ->
  NoDup (body s') /\ on_board (board g) (body s') /\
  (Position_eqb (Snake.getHead s') (food_position (food g)) = false ->
   ~ In (food_position (food g)) (body s')) /\
  (Position_eqb (Snake.getHead s') (food_position (food g)) = true ->
   growing s' = false /\ direction s' <> STOP).
Proof.
  intros [Hboard [Hlen [_ [_ Halive]]]] Hover Hmove Hvalid Hcol.
  destruct (Halive Hover) as [Hnd [Hon [_ Hfood]]].
  assert (Hne : body (snake g) <> []).
  { destruct (body (snake g)); [simpl in Hlen; lia | discriminate]. }
  destruct (Direction_eqb (direction (snake g)) STOP) eqn:Ed.
  - unfold Snake.move in Hmove. rewrite Ed in Hmove. injection Hmove as <-.
    split; [exact Hnd|]. split; [exact Hon|]. split; [intros _; exact Hfood|].
    intros Heq. apply Position_eqb_eq in Heq. exfalso. apply Hfood.
    rewrite <- Heq. apply getHead_In. exact Hne.
  - assert (Hd : direction (snake g) <> STOP)
      by (intros Hd; rewrite Hd in Ed; discriminate).
    destruct (move_body _ _ Hmove Hd) as [head [Hb [Hg [Hd' _]]]].
    assert (Hhead : Snake.getHead s' = head)
      by (unfold Snake.getHead; rewrite Hb; reflexivity).
    rewrite Hhead in *.
    assert (Hnotin : ~ In head (if growing (snake g) then body (snake g)
                                else removelast (body (snake g)))).
    { intros Hin. apply (checkSelfCollision_spec s' _ _ Hb) in Hin.
      congruence. }
    rewrite Hb.
    assert (Hsub : forall p,
               In p (if growing (snake g) then body (snake g)
                     else removelast (body (snake g))) ->
               In p (body (snake g))).
    { intros p. destruct (growing (snake g)); [auto | apply In_removelast]. }
    split; [|split; [|split]].
    + constructor; [exact Hnotin|].
      destruct (growing (snake g)); [exact Hnd | apply NoDup_removelast, Hnd].
    + constructor; [exact Hvalid|].
      destruct (growing (snake g));
        [exact Hon | apply on_board_removelast, Hon].
    + intros Hneq. apply Position_eqb_neq in Hneq.
      intros [Hin|Hin]; [congruence|]. apply Hfood, Hsub, Hin.
    + intros _. split; [exact Hg | congruence].
Qed.

Lemma update_inv (fuel : nat) (g : Game) (r : RandStream)
      (g' : Game) (r' : RandStream) :
  game_inv g -> rand_stream_ok r ->
  Game.update fuel g r = Ok (g', r') ->
  game_inv g' /\ rand_stream_ok r'.
Proof.
  intros Hinv Hr H.
  destruct (gameOver g) eqn:Hover.
  { rewrite update_idle in H by (left; exact Hover).
    injection H as <- <-. split; assumption. }
  destruct (paused g) eqn:Hpaused.
  { rewrite update_idle in H by (right; exact Hpaused).
    injection H as <- <-. split; assumption. }
  pose proof Hinv as [Hboard [Hlen [Hval [Hscore Halive]]]].
  pose proof (kind_value _ Hval) as Hv.
  destruct (move_defined (snake g)) as [s' [Hmove [_ Hne']]].
  { destruct (body (snake g)); [simpl in Hlen; lia | discriminate]. }
  rewrite (update_running fuel g r s' (conj Hover Hpaused) Hmove) in H.
  cbv zeta in H.
  destruct (move_length _ _ Hmove) as [Hml Hge].
  assert (Hlen' : (3 <= List.length (body s'))%nat) by lia.
  assert (Hdead : game_inv
            (set_gameOver true
               (Game.updateGameSpeed (set_snake s' (set_foodEaten false g))))).
  { unfold game_inv. game_fields.
    split; [exact Hboard|]. split; [exact Hlen'|]. split; [exact Hval|].
    split; [lia | discriminate]. }
  destruct (GameBoard.isValidPosition (board g) (Snake.getHead s')) eqn:Hvalid;
    simpl negb in H; cbv iota in H;
    [|injection H as <- <-; split; assumption].
  destruct (Snake.checkSelfCollision s') eqn:Hcol;
    [injection H as <- <-; split; assumption|].
  destruct (moved_alive g s' Hinv Hover Hmove Hvalid Hcol)
    as [Hnd [Hon [Hfood Hgrow]]].
  destruct (Halive Hover) as [_ [_ [Hfvalid _]]].
  destruct (Position_eqb (Snake.getHead s') (food_position (food g))) eqn:Heat.
  - destruct (Food.generateFood fuel (width (board g)) (height (board g))
                                (body s') (food g) r) as [[f r1]|e] eqn:E;
      [|discriminate].
    injection H as <- <-.
    rewrite Hboard in E. simpl in E.
    pose proof (generateFood_stream _ _ _ _ _ _ _ _ E Hr) as Hr1.
    destruct (generateFood_sound _ _ _ _ _ _ _ _ E) as [_ [_ [Hval' _]]].
    pose proof (fun Hw Hh => generateFood_placed _ _ _ _ _ _ _ _ Hr Hw Hh E)
      as Hplaced.
    destruct Hplaced as [Hvalid' Hfree']; [lia | lia |].
    split; [|exact Hr1].
    assert (Hfit : (List.length (body s') <= 30 * 20)%nat).
    { apply body_fits_board; [exact Hnd|].
      rewrite Hboard in Hon. exact Hon. }
    rewrite (proj1 (Hgrow eq_refl)) in Hml.
    assert (Hadd : Int.add (score g) (food_value (food g))
                   = score g + food_value (food g)).
    { unfold Int.add. apply wrap_id.
      unfold Int.in_range, Int.min_int, Int.max_int. lia. }
    unfold game_inv, alive_inv. game_fields. rewrite Hadd.
    split; [exact Hboard|]. split; [exact Hlen'|]. split; [exact Hval'|].
    split; [lia|]. intros _.
    split; [exact Hnd|]. split; [exact Hon|].
    rewrite Hboard. split; [exact Hvalid' | exact Hfree'].
  - injection H as <- <-. split; [|exact Hr].
    unfold game_inv, alive_inv. game_fields.
    split; [exact Hboard|]. split; [exact Hlen'|]. split; [exact Hval|].
    split; [lia|]. intros _.
    split; [exact Hnd|]. split; [exact Hon|].
    split; [exact Hfvalid | apply Hfood; reflexivity].
Qed.

Lemma saveHighScore_inv (g : Game) :
  game_inv g -> game_inv (Game.saveHighScore g).
Proof.
  unfold Game.saveHighScore. destruct (score g >? highScore g); auto.
Qed.

Lemma handleGameOver_inv (fuel : nat) (choice : Z) (g : Game)
      (r : RandStream) (g' : Game) (r' : RandStream) :
  game_inv g -> rand_stream_ok r ->
  Game.handleGameOver fuel choice g r = Ok (g', r') ->
  game_inv g' /\ rand_stream_ok r'.
Proof.
  intros Hinv Hr H. unfold Game.handleGameOver in H.
  destruct (negb (gameOver g)).
  { injection H as <- <-. split; assumption. }
  cbv zeta in H.
  pose proof (saveHighScore_inv g Hinv) as Hinv1.
  destruct (Int.to_char (tolower (Int.to_char choice)) =? 114).
  - destruct Hinv1 as [Hboard _].
    destruct (restart_inv _ _ _ _ _ Hboard Hr H) as [Hinv' [Hr' _]].
    split; assumption.
  - destruct (Int.to_char (tolower (Int.to_char choice)) =? 113);
      injection H as <- <-; split; assumption.
Qed.

Lemma run_iteration_inv (fuel : nat) (kb : Keyboard) (choice : Z) (g : Game)
      (r : RandStream) (g' : Game) (r' : RandStream) :
  game_inv g -> rand_stream_ok r ->
  Game.run_iteration fuel kb choice g r = Ok (g', r') ->
  game_inv g' /\ rand_stream_ok r'.
Proof.
  intros Hinv Hr H. unfold Game.run_iteration in H. cbv zeta in H.
  unfold bind in H.
  destruct (Game.update fuel (Game.processInput kb g) r)
    as [[g1 r1]|e] eqn:E; [|discriminate].
  destruct (update_inv _ _ _ _ _ (processInput_inv kb g Hinv) Hr E)
    as [Hinv1 Hr1].
  destruct (gameOver g1).
  - apply (handleGameOver_inv _ _ _ _ _ _ Hinv1 Hr1 H).
  - injection H as <- <-. split; assumption.
Qed.

(** The invariant holds in every state of the run. *)
Lemma reachable_inv (g : Game) (r : RandStream) :
  reachable g r -> game_inv g /\ rand_stream_ok r.
Proof.
  induction 1 as [fuel r0 g r Hr0 Hnew
                 | fuel kb choice g r g' r' Hreach IH Hrun Hiter].
  - destruct (new_inv _ _ _ _ Hr0 Hnew) as [Hinv [Hr _]]. split; assumption.
  - destruct IH as [Hinv Hr].
    apply (run_iteration_inv _ _ _ _ _ _ _ Hinv Hr Hiter).
Qed.

Lemma update_needs_move (fuel : nat) (g : Game) (r : RandStream)
      (g' : Game) (r' : RandStream) :
  running g -> Game.update fuel g r = Ok (g', r') ->
  exists s', Snake.move (snake g) = Ok s'.
Proof.
  intros [Hover Hpaused] H. unfold Game.update in H.
  rewrite Hover, Hpaused in H. simpl orb in H. cbv iota zeta in H.
  unfold bind at 1 in H. unfold lift in H.
  change (snake (set_foodEaten false g)) with (snake g) in H.
  destruct (Snake.move (snake g)) as [s'|e]; [|discriminate].
  exists s'. reflexivity.
Qed.

(** ** C3: where [generateFood] puts the food *)

(** C3. Let the stream hold results of [rand()] and let the board have a
    cell the body leaves free.  Then whatever [generateFood] returns is a
    food on the board and outside the body it was given, and it does
    return once some draw falls outside the body.  The same holds at its
    three callers: in the game the constructor builds, in the game after a
    tick that ate the food (the body being the moved one), and in the game
    after [restart]. *)
Theorem C3_food_off_the_body (w h : Z) (snakeBody : list Position)
        (f : Food) (r : RandStream) :
  rand_stream_ok r ->
  (exists p, free_cell w h snakeBody p) ->
  (forall fuel f' r',
      Food.generateFood fuel w h snakeBody f r = Ok (f', r') ->
      GameBoard.isValidPosition (mkGameBoard w h) (food_position f') = true /\
      ~ In (food_position f') snakeBody) /\
  ((exists k, ~ In (sample w h r k) snakeBody) ->
   generateFood_returns w h snakeBody f r) /\
  (forall fuel g r',
      Game.new fuel r = Ok (g, r') ->
      GameBoard.isValidPosition (board g) (food_position (food g)) = true /\
      ~ In (food_position (food g)) (body (snake g))) /\
  (forall fuel g g' r',
      board g = mkGameBoard w h -> running g ->
      Game.update fuel g r = Ok (g', r') -> foodEaten g' = true ->
      GameBoard.isValidPosition (board g') (food_position (food g')) = true /\
      ~ In (food_position (food g')) (body (snake g'))) /\
  (forall fuel g g' r',
      board g = mkGameBoard w h ->
      Game.restart fuel g r = Ok (g', r') ->
      GameBoard.isValidPosition (board g') (food_position (food g')) = true /\
      ~ In (food_position (food g')) (body (snake g'))).
Proof.
  intros Hr [p0 Hp0].
  destruct (free_cell_board _ _ _ _ Hp0) as [Hw Hh].
  split; [|split; [|split; [|split]]].
  - intros fuel f' r' H. apply (generateFood_placed _ _ _ _ _ _ _ _ Hr Hw Hh H).
  - intros Hk. apply generateFood_returns_iff.
    split; [lia|]. split; [lia | exact Hk].
  - intros fuel g r' H.
    destruct (new_inv _ _ _ _ Hr H) as [[_ [_ [_ [_ Halive]]]] [_ [Hover _]]].
    destruct (Halive Hover) as [_ [_ [Hv Hf]]]. split; assumption.
  - intros fuel g g' r' Hb Hrun H Heaten.
    destruct (update_needs_move _ _ _ _ _ Hrun H) as [s' Hmove].
    rewrite (update_running fuel g r s' Hrun Hmove) in H. cbv zeta in H.
    destruct (negb (GameBoard.isValidPosition (board g) (Snake.getHead s'))).
    { injection H as <- _. discriminate Heaten. }
    destruct (Snake.checkSelfCollision s').
    { injection H as <- _. discriminate Heaten. }
    destruct (Position_eqb (Snake.getHead s') (food_position (food g)));
      [|injection H as <- _; discriminate Heaten].
    destruct (Food.generateFood fuel (width (board g)) (height (board g))
                                (body s') (food g) r) as [[f1 r1]|e] eqn:E;
      [|discriminate].
    injection H as <- _. game_fields. rewrite Hb in *. simpl in E.
    apply (generateFood_placed _ _ _ _ _ _ _ _ Hr Hw Hh E).
  - intros fuel g g' r' Hb H.
    unfold Game.restart in H. cbv zeta in H. unfold bind in H.
    destruct (Food.generateFood fuel _ _ _ _ r) as [[f1 r1]|e] eqn:E;
      [|discriminate].
    unfold ret in H. injection H as <- _.
    unfold GameBoard.getWidth, GameBoard.getHeight, Snake.getBody in E.
    game_fields. simpl in E. rewrite Hb in *. simpl in E.
    apply (generateFood_placed _ _ _ _ _ _ _ _ Hr Hw Hh E).
Qed.

Lemma rand_zero_ok : rand_stream_ok rand_zero.
Proof. intros n. unfold rand_zero, Int.max_int. lia. Defined.

Lemma rand_one_ok : rand_stream_ok rand_one.
Proof. intros n. unfold rand_one, Int.max_int. lia. Defined.

(** C3 on the default board and the initial body: the call itself and the
    constructor on the stream of zeros, [restart] on the same stream, and
    the tick that eats on the stream of ones. *)
Lemma C3_food_off_the_body_witness :
  let f' := mkFood (mkPosition 0 0) "$"%char LIGHT_YELLOW 50 in
  rand_stream_ok rand_zero /\ rand_stream_ok rand_one /\
  (exists p, free_cell 30 20 (body Snake.new) p) /\
  (Food.generateFood 1 30 20 (body Snake.new) Food.new rand_zero
   = Ok (f', rand_zero) /\
   GameBoard.isValidPosition (mkGameBoard 30 20) (food_position f') = true /\
   ~ In (food_position f') (body Snake.new)) /\
  ((exists k, ~ In (sample 30 20 rand_zero k) (body Snake.new)) /\
   generateFood_returns 30 20 (body Snake.new) Food.new rand_zero) /\
  (Game.new 1 rand_zero = Ok (initial_game, rand_zero) /\
   ~ In (food_position (food initial_game)) (body (snake initial_game))) /\
  (board before_food = mkGameBoard 30 20 /\ running before_food /\
   Game.update 1 before_food rand_one = Ok (after_meal, rand_one) /\
   foodEaten after_meal = true /\
   ~ In (food_position (food after_meal)) (body (snake after_meal))) /\
  (board at_right_wall = mkGameBoard 30 20 /\
   Game.restart 1 at_right_wall rand_zero = Ok (restarted_game, rand_zero) /\
   ~ In (food_position (food restarted_game)) (body (snake restarted_game))).
Proof.
  intros f'.
  assert (Hfree : exists p, free_cell 30 20 (body Snake.new) p).
  { exists (mkPosition 0 0). split; [reflexivity|].
    simpl. intros [H|[H|[H|[]]]]; discriminate H. }
  assert (Hcall : Food.generateFood 1 30 20 (body Snake.new) Food.new rand_zero
                  = Ok (f', rand_zero)) by reflexivity.
  assert (Hk : exists k, ~ In (sample 30 20 rand_zero k) (body Snake.new)).
  { exists 0%nat. simpl. intros [H|[H|[H|[]]]]; discriminate H. }
  assert (Hnew : Game.new 1 rand_zero = Ok (initial_game, rand_zero))
    by reflexivity.
  assert (Hboard : board before_food = mkGameBoard 30 20) by reflexivity.
  assert (Hrun : running before_food) by (split; reflexivity).
  assert (Hupdate : Game.update 1 before_food rand_one
                    = Ok (after_meal, rand_one)) by reflexivity.
  assert (Heaten : foodEaten after_meal = true) by reflexivity.
  assert (Hboard' : board at_right_wall = mkGameBoard 30 20) by reflexivity.
  assert (Hrestart : Game.restart 1 at_right_wall rand_zero
                     = Ok (restarted_game, rand_zero)) by reflexivity.
  pose proof (C3_food_off_the_body 30 20 (body Snake.new) Food.new rand_zero
                rand_zero_ok Hfree)
    as [Hplaced [Hreturns [Hplaced_new [_ Hplaced_restart]]]].
  pose proof (C3_food_off_the_body 30 20 (body Snake.new) Food.new rand_one
                rand_one_ok Hfree)
    as [_ [_ [_ [Hplaced_update _]]]].
  split; [exact rand_zero_ok|]. split; [exact rand_one_ok|].
  split; [exact Hfree|].
  split; [split; [exact Hcall | exact (Hplaced _ _ _ Hcall)]|].
  split; [split; [exact Hk | exact (Hreturns Hk)]|].
  split; [split; [exact Hnew | exact (proj2 (Hplaced_new _ _ _ Hnew))]|].
  split.
  - split; [exact Hboard|]. split; [exact Hrun|]. split; [exact Hupdate|].
    split; [exact Heaten|].
    exact (proj2 (Hplaced_update _ _ _ _ Hboard Hrun Hupdate Heaten)).
  - split; [exact Hboard'|]. split; [exact Hrestart|].
    exact (proj2 (Hplaced_restart _ _ _ _ Hboard' Hrestart)).
Defined.

(** ** C9: the sampling loop finishes *)

(** C9.  [generateFood] samples positions until one falls outside the
    body.  On every call for which a free cell exists it returns, the
    draws being random positions of the board: whatever cell is free, the
    stream of draws comes to it ([draws_every_cell], which the draws of a
    uniform source satisfy with probability 1).  The premise on the body
    is the one that matters for the code: the call returns exactly when
    some draw falls outside the body, and if no draw ever does, as on a
    board the body fills, the loop is still running after any number of
    passes. *)
Theorem C9_generateFood_returns (w h : Z) (snakeBody : list Position)
        (f : Food) (r : RandStream) :
  ((exists p, free_cell w h snakeBody p) ->
   draws_every_cell w h r ->
   generateFood_returns w h snakeBody f r) /\
  (generateFood_returns w h snakeBody f r <->
   w <> 0 /\ h <> 0 /\ exists k, ~ In (sample w h r k) snakeBody) /\
  (w <> 0 -> h <> 0 ->
   (forall k, In (sample w h r k) snakeBody) ->
   forall fuel, Food.generateFood fuel w h snakeBody f r = Err OutOfFuel).
Proof.
  split; [|split].
  - intros [p [Hvalid Hfree]] Hall.
    pose proof (free_cell_board w h snakeBody p (conj Hvalid Hfree))
      as [Hw Hh].
    apply generateFood_returns_iff.
    split; [lia|]. split; [lia|].
    destruct (Hall p Hvalid) as [k Hk]. exists k. rewrite Hk. exact Hfree.
  - apply generateFood_returns_iff.
  - intros Hw Hh Hall fuel. rewrite generateFood_after_loop.
    rewrite (generateFood_loop_stuck w h snakeBody Hw Hh fuel r Hall).
    reflexivity.
Qed.

(** C9 on a board of two cells, one of them taken, with a stream that
    visits both; and on the default board with a stream stuck on a taken
    cell. *)
Lemma C9_generateFood_returns_witness :
  let snakeBody := [mkPosition 0 0; mkPosition 1 0; mkPosition 2 0] in
  ((exists p, free_cell 2 1 [mkPosition 0 0] p) /\
   draws_every_cell 2 1 rand_sweep /\
   generateFood_returns 2 1 [mkPosition 0 0] Food.new rand_sweep) /\
  (30 <> 0 /\ 20 <> 0 /\
   (forall k, In (sample 30 20 rand_zero k) snakeBody) /\
   forall fuel,
     Food.generateFood fuel 30 20 snakeBody Food.new rand_zero
     = Err OutOfFuel).
Proof.
  intros snakeBody.
  assert (Hfree : exists p, free_cell 2 1 [mkPosition 0 0] p).
  { exists (mkPosition 1 0). split; [reflexivity|].
    simpl. intros [E|[]]. discriminate E. }
  assert (Hall : draws_every_cell 2 1 rand_sweep).
  { intros [px py] Hp. apply isValidPosition_true in Hp. simpl in Hp.
    assert (Hy : py = 0) by lia.
    assert (Hx : px = 0 \/ px = 1) by lia.
    subst py. destruct Hx as [-> | ->]; [exists 0%nat | exists 1%nat];
      reflexivity. }
  assert (Hw : 30 <> 0) by discriminate.
  assert (Hh : 20 <> 0) by discriminate.
  assert (Hstuck : forall k, In (sample 30 20 rand_zero k) snakeBody)
    by (intros k; left; reflexivity).
  split.
  - split; [exact Hfree|]. split; [exact Hall|].
    exact (proj1 (C9_generateFood_returns 2 1 [mkPosition 0 0] Food.new
                                          rand_sweep) Hfree Hall).
  - split; [exact Hw|]. split; [exact Hh|]. split; [exact Hstuck|].
    exact (proj2 (proj2 (C9_generateFood_returns 30 20 snakeBody Food.new
                                                 rand_zero)) Hw Hh Hstuck).
Defined.

(** ** C7: the body in the states of the run *)

(** A move that passes the self-collision check leaves no position twice
    in the body. *)
Lemma moved_NoDup (g : Game) (s' : Snake) :
  game_inv g -> gameOver g = false ->
  Snake.move (snake g) = Ok s' ->
  Snake.checkSelfCollision s' = false ->
  NoDup (body s').
Proof.
  intros [_ [_ [_ [_ Halive]]]] Hover Hmove Hcol.
  destruct (Halive Hover) as [Hnd _].
  destruct (Direction_eqb (direction (snake g)) STOP) eqn:Ed.
  - unfold Snake.move in Hmove. rewrite Ed in Hmove. injection Hmove as <-.
    exact Hnd.
  - assert (Hd : direction (snake g) <> STOP)
      by (intros Hd; rewrite Hd in Ed; discriminate).
    destruct (move_body _ _ Hmove Hd) as [head [Hb _]].
    rewrite Hb. constructor.
    + intros Hin. apply (checkSelfCollision_spec s' _ _ Hb) in Hin.
      congruence.
    + destruct (growing (snake g)); [exact Hnd | apply NoDup_removelast, Hnd].
Qed.

Lemma at_tick_inv (g : Game) (r : RandStream) :
  at_tick g r -> game_inv g /\ rand_stream_ok r.
Proof.
  intros [g0 [kb [Hreach [_ ->]]]].
  destruct (reachable_inv g0 r Hreach) as [Hinv Hr].
  split; [apply processInput_inv; exact Hinv | exact Hr].
Qed.

(** C7. In every state of the run in which the game is not over the body
    has a head, which is its first element, and no position occurs in it
    twice.  A new snake and a reset one have exactly three segments, and
    so have the games the constructor and [restart] return.  A tick of the
    run in the RUNNING phase whose move leaves a position twice in the body
    is caught by [checkSelfCollision] and returns with [gameOver] set. *)
Theorem C7_body_without_repetition (g : Game) (r : RandStream) :
  (reachable g r -> gameOver g = false ->
   body (snake g) <> [] /\
   nth_error (body (snake g)) 0 = Some (Snake.getHead (snake g)) /\
   NoDup (body (snake g))) /\
  List.length (body Snake.new) = 3%nat /\
  (forall s, List.length (body (Snake.reset s)) = 3%nat) /\
  (forall fuel r0 g0 r1,
      Game.new fuel r0 = Ok (g0, r1) ->
      List.length (body (snake g0)) = 3%nat) /\
  (forall fuel g0 r0 g1 r1,
      Game.restart fuel g0 r0 = Ok (g1, r1) ->
      List.length (body (snake g1)) = 3%nat) /\
  (at_tick g r -> running g ->
   forall s', Snake.move (snake g) = Ok s' -> ~ NoDup (body s') ->
   Snake.checkSelfCollision s' = true /\
   forall fuel, exists g',
       Game.update fuel g r = Ok (g', r) /\ gameOver g' = true).
Proof.
  split; [|split; [|split; [|split; [|split]]]].
  - intros Hreach Hover.
    destruct (reachable_inv g r Hreach) as [[_ [Hlen [_ [_ Halive]]]] _].
    destruct (Halive Hover) as [Hnd _].
    unfold Snake.getHead.
    destruct (body (snake g)) as [|head rest]; [simpl in Hlen; lia|].
    split; [discriminate|]. split; [reflexivity | exact Hnd].
  - reflexivity.
  - intros s. reflexivity.
  - intros fuel r0 g0 r1 H. unfold Game.new in H. cbv zeta in H.
    unfold bind in H.
    destruct (Food.generateFood fuel _ _ _ _ r0) as [[f1 r2]|e];
      [|discriminate].
    unfold ret in H. injection H as <- _. reflexivity.
  - intros fuel g0 r0 g1 r1 H. unfold Game.restart in H. cbv zeta in H.
    unfold bind in H.
    destruct (Food.generateFood fuel _ _ _ _ r0) as [[f1 r2]|e];
      [|discriminate].
    unfold ret in H. injection H as <- _. reflexivity.
  - intros Htick Hrun s' Hmove Hdup.
    destruct (at_tick_inv g r Htick) as [Hinv _].
    assert (Hcol : Snake.checkSelfCollision s' = true).
    { destruct (Snake.checkSelfCollision s') eqn:Hcol; [reflexivity|].
      exfalso. apply Hdup.
      apply (moved_NoDup g s' Hinv (proj1 Hrun) Hmove Hcol). }
    split; [exact Hcol|]. intros fuel.
    rewrite (update_running fuel g r s' Hrun Hmove). cbv zeta.
    rewrite Hcol.
    destruct (negb (GameBoard.isValidPosition (board g) (Snake.getHead s')));
      eexists; split; reflexivity.
Qed.

Lemma initial_game_reachable : reachable initial_game rand_zero.
Proof. exact (reach_new 1 rand_zero initial_game rand_zero rand_zero_ok eq_refl). Defined.

(** C7 at the constructed game, at a restart, and at the tick after the
    player's first key is LEFT: the head moves onto the second segment. *)
Lemma C7_body_without_repetition_witness :
  let g := Game.processInput (Pressed 97 0) initial_game in
  let s' := mkSnake [mkPosition 9 10; mkPosition 10 10; mkPosition 9 10]
                    [mkPosition 10 10; mkPosition 9 10; mkPosition 8 10]
                    LEFT false in
  (reachable initial_game rand_zero /\ gameOver initial_game = false /\
   NoDup (body (snake initial_game))) /\
  (Game.new 1 rand_zero = Ok (initial_game, rand_zero) /\
   List.length (body (snake initial_game)) = 3%nat) /\
  (Game.restart 1 at_right_wall rand_zero = Ok (restarted_game, rand_zero) /\
   List.length (body (snake restarted_game)) = 3%nat) /\
  (at_tick g rand_zero /\ running g /\ Snake.move (snake g) = Ok s' /\
   ~ NoDup (body s') /\
   Snake.checkSelfCollision s' = true /\
   exists g', Game.update 0 g rand_zero = Ok (g', rand_zero) /\
              gameOver g' = true).
Proof.
  intros g s'.
  assert (Hover : gameOver initial_game = false) by reflexivity.
  assert (Hnew : Game.new 1 rand_zero = Ok (initial_game, rand_zero))
    by reflexivity.
  assert (Hrestart : Game.restart 1 at_right_wall rand_zero
                     = Ok (restarted_game, rand_zero)) by reflexivity.
  assert (Htick : at_tick g rand_zero).
  { exists initial_game, (Pressed 97 0).
    split; [exact initial_game_reachable|]. split; reflexivity. }
  assert (Hrun : running g) by (split; reflexivity).
  assert (Hmove : Snake.move (snake g) = Ok s') by reflexivity.
  assert (Hdup : ~ NoDup (body s')).
  { intros H. apply NoDup_cons_iff in H. apply (proj1 H).
    right. left. reflexivity. }
  pose proof (C7_body_without_repetition initial_game rand_zero)
    as [Hbody [_ [_ [Hnew3 [Hrestart3 _]]]]].
  pose proof (C7_body_without_repetition g rand_zero)
    as [_ [_ [_ [_ [_ Hcaught]]]]].
  split; [|split; [|split]].
  - split; [exact initial_game_reachable|]. split; [exact Hover|].
    exact (proj2 (proj2 (Hbody initial_game_reachable Hover))).
  - split; [exact Hnew|]. exact (Hnew3 _ _ _ _ Hnew).
  - split; [exact Hrestart|]. exact (Hrestart3 _ _ _ _ _ Hrestart).
  - split; [exact Htick|]. split; [exact Hrun|]. split; [exact Hmove|].
    split; [exact Hdup|].
    destruct (Hcaught Htick Hrun s' Hmove Hdup) as [Hcol Hend].
    split; [exact Hcol | exact (Hend 0%nat)].
Defined.

(** ** C4: eating *)

(** A head that is on the food has passed the wall check and the
    self-collision check. *)
Lemma head_on_food_passes (g : Game) (s' : Snake) :
  game_inv g -> gameOver g = false ->
  Snake.move (snake g) = Ok s' ->
  Snake.getHead s' = food_position (food g) ->
  GameBoard.isValidPosition (board g) (Snake.getHead s') = true /\
  Snake.checkSelfCollision s' = false /\
  Position_eqb (Snake.getHead s') (food_position (food g)) = true.
Proof.
  intros Hinv Hover Hmove Hhead.
  pose proof Hinv as [_ [Hlen [_ [_ Halive]]]].
  destruct (Halive Hover) as [_ [_ [Hfvalid Hfood]]].
  split; [rewrite Hhead; exact Hfvalid|].
  split; [|apply Position_eqb_eq; exact Hhead].
  destruct (Direction_eqb (direction (snake g)) STOP) eqn:Ed.
  - unfold Snake.move in Hmove. rewrite Ed in Hmove. injection Hmove as <-.
    exfalso. apply Hfood. rewrite <- Hhead. apply getHead_In.
    destruct (body (snake g)); [simpl in Hlen; lia | discriminate].
  - assert (Hd : direction (snake g) <> STOP)
      by (intros Hd; rewrite Hd in Ed; discriminate).
    destruct (move_body _ _ Hmove Hd) as [head [Hb _]].
    destruct (Snake.checkSelfCollision s') eqn:Hcol; [|reflexivity].
    apply (checkSelfCollision_spec s' _ _ Hb) in Hcol.
    exfalso. apply Hfood. rewrite <- Hhead.
    unfold Snake.getHead. rewrite Hb.
    destruct (growing (snake g)); [exact Hcol | apply In_removelast, Hcol].
Qed.

(** In a game that is not over the score is far from the end of the [int]
    range: adding a food's value does not wrap. *)
Lemma score_add_exact (g : Game) (s' : Snake) :
  game_inv g -> gameOver g = false ->
  Snake.move (snake g) = Ok s' ->
  NoDup (body s') -> on_board (board g) (body s') ->
  Int.add (score g) (food_value (food g)) = score g + food_value (food g).
Proof.
  intros [Hboard [Hlen [Hval [Hscore _]]]] Hover Hmove Hnd Hon.
  pose proof (kind_value _ Hval) as Hv.
  destruct (move_length _ _ Hmove) as [Hml _].
  assert (Hfit : (List.length (body s') <= 30 * 20)%nat).
  { apply body_fits_board; [exact Hnd|]. rewrite Hboard in Hon. exact Hon. }
  unfold Int.add. apply wrap_id.
  unfold Int.in_range, Int.min_int, Int.max_int.
  destruct (growing s'), (growing (snake g)); lia.
Qed.

(** C4. Take a tick of the run in the RUNNING phase after whose move the
    head is on the food.  The food is common and worth 10, or a bonus and
    worth 50.  Whatever the tick
    returns, the score has grown by exactly that value, the game is not
    over, growth is pending, so that the next [move] returns a body one
    segment longer, and the new food is on the board and outside the moved
    body.  The tick does return once a draw falls outside the moved body.
    In the scenario (length 3, head (10,10), facing RIGHT, food (11,10))
    the head is at (11,10) after the tick, the score has gone from 0 to
    10, the length is still 3, and 4 after the next [move]. *)
Theorem C4_eating_the_food (g : Game) (r : RandStream) (s' : Snake) :
  at_tick g r -> running g ->
  Snake.move (snake g) = Ok s' ->
  Snake.getHead s' = food_position (food g) ->
  (common_food (food g) \/ bonus_food (food g)) /\
  (forall fuel g' r',
      Game.update fuel g r = Ok (g', r') ->
      score g' = score g + food_value (food g) /\
      gameOver g' = false /\
      snake g' = Snake.grow s' /\
      growing (snake g') = true /\
      (exists s'',
          Snake.move (snake g') = Ok s'' /\
          List.length (body s'') = S (List.length (body (snake g')))) /\
      GameBoard.isValidPosition (board g') (food_position (food g')) = true /\
      ~ In (food_position (food g')) (body (snake g'))) /\
  ((exists k, ~ In (sample 30 20 r k) (body s')) ->
   exists fuel g' r', Game.update fuel g r = Ok (g', r')) /\
  (forall fuel r0 g1 r1,
      Game.update fuel before_food r0 = Ok (g1, r1) ->
      Snake.getHead (snake g1) = mkPosition 11 10 /\
      score g1 = 10 /\
      List.length (body (snake g1)) = 3%nat /\
      exists s2, Snake.move (snake g1) = Ok s2 /\
                 List.length (body s2) = 4%nat).
Proof.
  intros Htick Hrun Hmove Hhead.
  destruct (at_tick_inv g r Htick) as [Hinv Hr].
  pose proof Hinv as [Hboard [Hlen [Hval _]]].
  destruct (head_on_food_passes g s' Hinv (proj1 Hrun) Hmove Hhead)
    as [Hvalid [Hcol Heat]].
  destruct (moved_alive g s' Hinv (proj1 Hrun) Hmove Hvalid Hcol)
    as [Hnd [Hon [_ Hgrow]]].
  destruct (Hgrow Heat) as [Hg Hd].
  split; [exact Hval|]. split; [|split].
  - intros fuel g' r' H.
    rewrite (update_running fuel g r s' Hrun Hmove) in H. cbv zeta in H.
    rewrite Hvalid, Hcol, Heat in H. simpl negb in H. cbv iota in H.
    destruct (Food.generateFood fuel (width (board g)) (height (board g))
                                (body s') (food g) r) as [[f1 r1]|e] eqn:E;
      [|discriminate].
    injection H as <- _. game_fields.
    rewrite (score_add_exact g s' Hinv (proj1 Hrun) Hmove Hnd Hon).
    rewrite Hboard in E. simpl in E.
    pose proof (fun Hw Hh => generateFood_placed _ _ _ _ _ _ _ _ Hr Hw Hh E)
      as Hplaced.
    destruct Hplaced as [Hvalid' Hfree']; [lia | lia |].
    split; [reflexivity|]. split; [exact (proj1 Hrun)|].
    split; [reflexivity|]. split; [reflexivity|].
    split; [|rewrite Hboard; split; assumption].
    assert (Hne : body (set_growing true s') <> []).
    { simpl. intros Hnil. apply (f_equal (@List.length Position)) in Hnil.
      destruct (move_length _ _ Hmove) as [_ Hge]. simpl in Hnil. lia. }
    destruct (move_defined (set_growing true s') Hne) as [s'' [Hm _]].
    exists s''. split; [exact Hm|].
    destruct (move_body _ _ Hm Hd) as [head [Hb _]].
    rewrite Hb. reflexivity.
  - intros Hk.
    assert (Hret : generateFood_returns 30 20 (body s') (food g) r).
    { apply generateFood_returns_iff. split; [lia|]. split; [lia|exact Hk]. }
    destruct Hret as [fuel [f1 [r1 E]]].
    exists fuel. eexists. eexists.
    rewrite (update_running fuel g r s' Hrun Hmove). cbv zeta.
    rewrite Hvalid, Hcol, Heat. simpl negb. cbv iota.
    rewrite Hboard. simpl width. simpl height. rewrite E. reflexivity.
  - intros fuel r0 g1 r1 H.
    rewrite (update_running fuel before_food r0 fed_snake
               (conj eq_refl eq_refl) eq_refl) in H. cbv zeta in H.
    change (GameBoard.isValidPosition (board before_food)
                                      (Snake.getHead fed_snake)) with true in H.
    change (Snake.checkSelfCollision fed_snake) with false in H.
    change (Position_eqb (Snake.getHead fed_snake)
                         (food_position (food before_food))) with true in H.
    simpl negb in H. cbv iota in H.
    destruct (Food.generateFood fuel _ _ _ _ r0) as [[f1 r2]|e];
      [|discriminate].
    injection H as <- _.
    split; [reflexivity|]. split; [reflexivity|]. split; [reflexivity|].
    eexists. split; reflexivity.
Qed.

Lemma rand_meal_ok : rand_stream_ok rand_meal.
Proof.
  intros [|[|n]]; unfold rand_meal, Int.max_int; lia.
Defined.

Lemma before_food_at_tick : at_tick before_food rand_one.
Proof.
  exists meal_game, (Pressed 100 0).
  split; [|split; reflexivity].
  exact (reach_new 1 rand_meal meal_game rand_one rand_meal_ok eq_refl).
Defined.

(** C4 in the scenario, reached by starting the game on [rand_meal] and
    pressing [d]. *)
Lemma C4_eating_the_food_witness :
  at_tick before_food rand_one /\ running before_food /\
  Snake.move (snake before_food) = Ok fed_snake /\
  Snake.getHead fed_snake = food_position (food before_food) /\
  (common_food (food before_food) \/ bonus_food (food before_food)) /\
  (exists k, ~ In (sample 30 20 rand_one k) (body fed_snake)) /\
  (exists fuel g' r', Game.update fuel before_food rand_one = Ok (g', r')) /\
  Game.update 1 before_food rand_one = Ok (after_meal, rand_one) /\
  score after_meal = score before_food + food_value (food before_food) /\
  growing (snake after_meal) = true /\
  ~ In (food_position (food after_meal)) (body (snake after_meal)) /\
  Snake.getHead (snake after_meal) = mkPosition 11 10 /\
  score after_meal = 10 /\
  List.length (body (snake after_meal)) = 3%nat /\
  exists s2, Snake.move (snake after_meal) = Ok s2 /\
             List.length (body s2) = 4%nat.
Proof.
  assert (Hrun : running before_food) by (split; reflexivity).
  assert (Hmove : Snake.move (snake before_food) = Ok fed_snake)
    by reflexivity.
  assert (Hhead : Snake.getHead fed_snake = food_position (food before_food))
    by reflexivity.
  assert (Hk : exists k, ~ In (sample 30 20 rand_one k) (body fed_snake)).
  { exists 0%nat. simpl. intros [E|[E|[E|[]]]]; discriminate E. }
  assert (Hupdate : Game.update 1 before_food rand_one
                    = Ok (after_meal, rand_one)) by reflexivity.
  pose proof (C4_eating_the_food before_food rand_one fed_snake
                before_food_at_tick Hrun Hmove Hhead)
    as [Hkind [Heaten [Hreturns Hscenario]]].
  destruct (Heaten _ _ _ Hupdate)
    as [Hscore [_ [_ [Hgrowing [_ [_ Hfree]]]]]].
  destruct (Hscenario _ _ _ _ Hupdate) as [Hat [Hten [Hthree Hfour]]].
  split; [exact before_food_at_tick|]. split; [exact Hrun|].
  split; [exact Hmove|]. split; [exact Hhead|]. split; [exact Hkind|].
  split; [exact Hk|]. split; [exact (Hreturns Hk)|].
  split; [exact Hupdate|]. split; [exact Hscore|].
  split; [exact Hgrowing|]. split; [exact Hfree|]. split; [exact Hat|].
  split; [exact Hten|]. split; [exact Hthree | exact Hfour].
Defined.

(** ** C1: [Snake::move] *)

(** Whenever the run calls [move] on a game that is not over, the snake
    has a head and the head is on the board, far from the rim of the
    [int] range. *)
Lemma tick_head_inner (g : Game) (r : RandStream) :
  at_tick g r -> gameOver g = false ->
  exists head rest, body (snake g) = head :: rest /\ inner head.
Proof.
  intros Htick Hover.
  destruct (at_tick_inv g r Htick) as [[Hboard [Hlen [_ [_ Halive]]]] _].
  destruct (Halive Hover) as [_ [Hon _]].
  destruct (body (snake g)) as [|head rest]; [simpl in Hlen; lia|].
  exists head, rest. split; [reflexivity|].
  inversion Hon as [|p v Hvalid _]; subst.
  rewrite Hboard in Hvalid. apply isValidPosition_true in Hvalid.
  simpl in Hvalid. unfold inner, Int.min_int, Int.max_int. lia.
Qed.

(** C1. [move] (the spec's [advance()]) leaves a stopped snake as it is.
    On a moving snake the new head is put at the front of the body; without
    pending growth the last segment is dropped and the length stays, with
    pending growth the whole old body follows, the length grows by exactly
    one, and the flag is false after the call.  The new head is the old
    head translated by the direction's unit vector (UP: y-1, DOWN: y+1,
    LEFT: x-1, RIGHT: x+1) unless the old head is on the rim of the [int]
    range, and every snake the run moves has a head that is not. *)
Theorem C1_move_advances (s : Snake) :
  (direction s = STOP -> Snake.move s = Ok s) /\
  (forall head rest,
      direction s <> STOP -> body s = head :: rest ->
      exists s',
        Snake.move s = Ok s' /\
        growing s' = false /\
        direction s' = direction s /\
        previousBody s' = body s /\
        (growing s = false ->
         body s' = Snake.getHead s' :: removelast (body s) /\
         List.length (body s') = List.length (body s)) /\
        (growing s = true ->
         body s' = Snake.getHead s' :: body s /\
         List.length (body s') = S (List.length (body s))) /\
        (inner head -> Snake.getHead s' = translate (direction s) head)) /\
  (forall g r,
      at_tick g r -> gameOver g = false -> snake g = s ->
      exists head rest, body s = head :: rest /\ inner head).
Proof.
  split; [|split].
  - apply move_stopped.
  - intros head rest Hd Hb.
    assert (Hne : body s <> []) by (rewrite Hb; discriminate).
    destruct (move_defined s Hne) as [s' [Hmove _]].
    destruct (move_body s s' Hmove Hd) as [head' [Hb' [Hg [Hd' _]]]].
    assert (Hhead : Snake.getHead s' = head')
      by (unfold Snake.getHead; rewrite Hb'; reflexivity).
    exists s'. split; [exact Hmove|]. split; [exact Hg|].
    split; [exact Hd'|]. split; [|split; [|split]].
    + apply (move_previousBody s s' Hmove Hd).
    + intros Hgr. rewrite Hgr in Hb'. rewrite Hhead. split; [exact Hb'|].
      rewrite Hb'. simpl. rewrite removelast_length, Hb. reflexivity.
    + intros Hgr. rewrite Hgr in Hb'. rewrite Hhead. split; [exact Hb'|].
      rewrite Hb'. reflexivity.
    + intros Hin. rewrite (move_moving s head rest Hd Hb Hin) in Hmove.
      injection Hmove as <-. reflexivity.
  - intros g r Htick Hover <-. apply (tick_head_inner g r Htick Hover).
Qed.

(** C1 at the new snake, which does not move, and at the snake of the
    started game steered to the right: the head goes from (10,10) to
    (11,10) and the segment at (8,10) is dropped. *)
Lemma C1_move_advances_witness :
  let g := Game.processInput (Pressed 100 0) initial_game in
  let s := Snake.setDirection RIGHT Snake.new in
  (direction Snake.new = STOP /\ Snake.move Snake.new = Ok Snake.new) /\
  (at_tick g rand_zero /\ gameOver g = false /\ snake g = s /\
   exists head rest, body s = head :: rest /\ inner head) /\
  direction s <> STOP /\
  body s = mkPosition 10 10 :: [mkPosition 9 10; mkPosition 8 10] /\
  inner (mkPosition 10 10) /\
  growing s = false /\
  exists s',
    Snake.move s = Ok s' /\
    Snake.getHead s' = mkPosition 11 10 /\
    body s' = [mkPosition 11 10; mkPosition 10 10; mkPosition 9 10].
Proof.
  intros g s.
  assert (Hstop : direction Snake.new = STOP) by reflexivity.
  assert (Htick : at_tick g rand_zero).
  { exists initial_game, (Pressed 100 0).
    split; [exact initial_game_reachable|]. split; reflexivity. }
  assert (Hover : gameOver g = false) by reflexivity.
  assert (Hs : snake g = s) by reflexivity.
  assert (Hd : direction s <> STOP) by (simpl; discriminate).
  assert (Hb : body s = mkPosition 10 10 :: [mkPosition 9 10; mkPosition 8 10])
    by reflexivity.
  assert (Hin : inner (mkPosition 10 10))
    by (unfold inner, Int.min_int, Int.max_int; simpl; lia).
  assert (Hg : growing s = false) by reflexivity.
  split; [split; [exact Hstop|]|].
  { exact (proj1 (C1_move_advances Snake.new) Hstop). }
  split; [split; [exact Htick|]; split; [exact Hover|]; split; [exact Hs|]|].
  { exact (proj2 (proj2 (C1_move_advances s)) g rand_zero Htick Hover Hs). }
  split; [exact Hd|]. split; [exact Hb|]. split; [exact Hin|].
  split; [exact Hg|].
  destruct (proj1 (proj2 (C1_move_advances s)) _ _ Hd Hb)
    as [s' [Hmove [_ [_ [_ [Hkeep [_ Hhead]]]]]]].
  exists s'. split; [exact Hmove|].
  pose proof (Hhead Hin) as Hh. simpl in Hh.
  split; [exact Hh|].
  destruct (Hkeep Hg) as [Hbody _]. rewrite Hh in Hbody. exact Hbody.
Defined.

(** * Further properties *)

(** ** [Snake::checkSelfCollision] *)

(** X1. [checkSelfCollision] answers true exactly when the body has a head
    and the head's position occurs again among the other segments. *)
Theorem X1_checkSelfCollision_iff (s : Snake) :
  Snake.checkSelfCollision s = true <->
  exists head rest, body s = head :: rest /\ In head rest.
Proof.
  destruct (body s) as [|head rest] eqn:Hb.
  - unfold Snake.checkSelfCollision. rewrite Hb. simpl. split.
    + discriminate.
    + intros [head [rest [H _]]]. discriminate H.
  - rewrite (checkSelfCollision_spec s head rest Hb). split.
    + intros Hin. exists head, rest. split; [reflexivity | exact Hin].
    + intros [head' [rest' [H Hin]]]. injection H as <- <-. exact Hin.
Qed.

(** ** Keys *)

Lemma processInput_letter (d : Direction) (next : Z) (g : Game) :
  d <> STOP ->
  Game.processInput (Pressed (letter_key d) next) g
  = set_snake (Snake.setDirection d (snake g)) g.
Proof. destruct d; intros H; try reflexivity. congruence. Qed.

Lemma processInput_arrow (d : Direction) (prefix : Z) (g : Game) :
  d <> STOP -> prefix = 0 \/ prefix = 224 ->
  Game.processInput (Pressed prefix (arrow_code d)) g
  = set_snake (Snake.setDirection d (snake g)) g.
Proof.
  intros H [-> | ->]; destruct d; try reflexivity; congruence.
Qed.

Lemma processInput_p (next : Z) (g : Game) :
  Game.processInput (Pressed 112 next) g = set_paused (negb (paused g)) g.
Proof. reflexivity. Qed.

Lemma setDirection_accepts (dir : Direction) (s : Snake) :
  direction s = STOP \/ dir <> opposite (direction s) ->
  Snake.setDirection dir s = set_direction dir s.
Proof.
  destruct s as [b pb d gr]. unfold Snake.setDirection. simpl.
  intros [-> | H]; [reflexivity|].
  destruct d, dir; simpl in *; try reflexivity; congruence.
Qed.

(** ** Reversing through a turn *)

(** X2. The guard of [setDirection] compares the request with the current
    direction only, and [processInput] steers also while the game is
    paused.  So on a paused game whose snake (of three segments or more)
    has its second segment right behind the head, a turn key, then the key
    of the opposite direction, then [p] leave the snake heading backwards
    with its body unmoved, and the tick that follows ends the game. *)
Theorem X2_reversal_through_a_turn (g : Game) (head neck : Position)
        (rest : list Position) (fuel : nat) (r : RandStream) :
  let d := direction (snake g) in
  let g1 := Game.processInput (Pressed (letter_key (perpendicular d)) 0) g in
  let g2 := Game.processInput (Pressed (letter_key (opposite d)) 0) g1 in
  let g3 := Game.processInput (Pressed 112 0) g2 in
  d <> STOP -> gameOver g = false -> paused g = true ->
  body (snake g) = head :: neck :: rest -> rest <> [] ->
  neck = translate (opposite d) head -> inner head ->
  Game.update fuel g1 r = Ok (g1, r) /\
  Game.update fuel g2 r = Ok (g2, r) /\
  direction (snake g3) = opposite d /\
  body (snake g3) = body (snake g) /\
  paused g3 = false /\
  exists g', Game.update fuel g3 r = Ok (g', r) /\ gameOver g' = true.
Proof.
  intros d g1 g2 g3 Hd Hover Hpaused Hb Hrest Hneck Hin.
  assert (Hperp : perpendicular d <> STOP) by (destruct d; simpl; congruence).
  assert (Hopp : opposite d <> STOP) by (destruct d; simpl; congruence).
  assert (E1 : g1 = set_snake (set_direction (perpendicular d) (snake g)) g).
  { unfold g1. rewrite (processInput_letter _ 0 g Hperp).
    rewrite setDirection_accepts; [reflexivity|].
    right. fold d. destruct d; simpl; congruence. }
  assert (E2 : g2 = set_snake (set_direction (opposite d) (snake g)) g).
  { unfold g2. rewrite (processInput_letter _ 0 g1 Hopp). rewrite E1.
    rewrite setDirection_accepts; [reflexivity|].
    right. simpl. destruct d; simpl; congruence. }
  assert (E3 : g3 = set_paused false
                      (set_snake (set_direction (opposite d) (snake g)) g)).
  { unfold g3. rewrite processInput_p, E2. simpl paused. rewrite Hpaused.
    reflexivity. }
  split; [apply update_idle; right; rewrite E1; exact Hpaused|].
  split; [apply update_idle; right; rewrite E2; exact Hpaused|].
  rewrite E3. split; [reflexivity|]. split; [reflexivity|].
  split; [reflexivity|].
  set (s3 := set_direction (opposite d) (snake g)).
  assert (Hmove : Snake.move s3
                  = Ok (mkSnake (neck :: (if growing (snake g)
                                          then body (snake g)
                                          else removelast (body (snake g))))
                                (body (snake g)) (opposite d) false)).
  { rewrite (move_moving s3 head (neck :: rest) Hopp Hb Hin).
    unfold s3. simpl. rewrite Hneck. reflexivity. }
  assert (Hcol : Snake.checkSelfCollision
                   (mkSnake (neck :: (if growing (snake g)
                                      then body (snake g)
                                      else removelast (body (snake g))))
                            (body (snake g)) (opposite d) false) = true).
  { apply (checkSelfCollision_spec
             (mkSnake (neck :: (if growing (snake g)
                                then body (snake g)
                                else removelast (body (snake g))))
                      (body (snake g)) (opposite d) false)
             neck
             (if growing (snake g) then body (snake g)
              else removelast (body (snake g))) eq_refl).
    rewrite Hb. destruct (growing (snake g)).
    - right. left. reflexivity.
    - destruct rest as [|q rest']; [congruence|].
      right. left. reflexivity. }
  assert (Hrun : running (set_paused false (set_snake s3 g)))
    by (split; [exact Hover | reflexivity]).
  rewrite (update_running fuel _ r _ Hrun Hmove). cbv zeta. rewrite Hcol.
  destruct (negb _); eexists; split; reflexivity.
Qed.

(** X2 on the snake of [before_food] while paused: [w], [a], [p]. *)
Lemma X2_reversal_through_a_turn_witness :
  let g := set_paused true before_food in
  let g3 := Game.processInput (Pressed 112 0)
              (Game.processInput (Pressed 97 0)
                 (Game.processInput (Pressed 119 0) g)) in
  direction (snake g) <> STOP /\ gameOver g = false /\ paused g = true /\
  body (snake g) = mkPosition 10 10 :: mkPosition 9 10 :: [mkPosition 8 10] /\
  [mkPosition 8 10] <> [] /\
  mkPosition 9 10 = translate (opposite (direction (snake g)))
                              (mkPosition 10 10) /\
  inner (mkPosition 10 10) /\
  direction (snake g3) = LEFT /\
  exists g', Game.update 0 g3 rand_zero = Ok (g', rand_zero) /\
             gameOver g' = true.
Proof.
  intros g g3.
  assert (H1 : direction (snake g) <> STOP) by (simpl; discriminate).
  assert (H2 : gameOver g = false) by reflexivity.
  assert (H3 : paused g = true) by reflexivity.
  assert (H4 : body (snake g)
               = mkPosition 10 10 :: mkPosition 9 10 :: [mkPosition 8 10])
    by reflexivity.
  assert (H5 : [mkPosition 8 10] <> []) by discriminate.
  assert (H6 : mkPosition 9 10 = translate (opposite (direction (snake g)))
                                           (mkPosition 10 10))
    by reflexivity.
  assert (H7 : inner (mkPosition 10 10))
    by (unfold inner, Int.min_int, Int.max_int; simpl; lia).
  pose proof (X2_reversal_through_a_turn g _ _ _ 0%nat rand_zero
                H1 H2 H3 H4 H5 H6 H7) as [_ [_ [Hdir [_ [_ Hend]]]]].
  split; [exact H1|]. split; [exact H2|]. split; [exact H3|].
  split; [exact H4|]. split; [exact H5|]. split; [exact H6|].
  split; [exact H7|]. split; [exact Hdir | exact Hend].
Defined.

(** ** [Food::generateFood]: which draw is taken *)

Lemma generateFood_loop_first_free (w h : Z) (snakeBody : list Position) :
  w <> 0 -> h <> 0 ->
  forall k r fuel,
    (forall j, (j < k)%nat -> In (sample w h r j) snakeBody) ->
    ~ In (sample w h r k) snakeBody ->
    (k < fuel)%nat ->
    exists r',
      Food.generateFood_loop fuel w h snakeBody r = Ok (sample w h r k, r') /\
      forall n, r' n = r (2 * k + 2 + n)%nat.
Proof.
  intros Hw Hh. induction k as [|k IH]; intros r fuel Hbefore Hfree Hlt.
  - destruct fuel as [|fuel]; [lia|].
    rewrite (generateFood_loop_step w h snakeBody Hw Hh).
    apply find_in_not_In in Hfree. rewrite Hfree.
    exists (after_draw r). split; [reflexivity|]. intros n. reflexivity.
  - destruct fuel as [|fuel]; [lia|].
    rewrite (generateFood_loop_step w h snakeBody Hw Hh).
    assert (H0 : find_in snakeBody (sample w h r 0) = true)
      by (apply find_in_In, Hbefore; lia).
    rewrite H0.
    destruct (IH (after_draw r) fuel) as [r' [Hloop Hr']].
    + intros j Hj. rewrite sample_after_draw. apply Hbefore. lia.
    + rewrite sample_after_draw. exact Hfree.
    + lia.
    + exists r'. rewrite sample_after_draw in Hloop. split; [exact Hloop|].
      intros n. rewrite Hr'. unfold after_draw. f_equal. lia.
Qed.

(** X3. [generateFood] puts the food on the first draw of the stream that
    falls outside the body, whatever the food was before; the next value of
    the stream decides the kind (a bonus when it is a multiple of 10), and
    the call has then used exactly 2k+3 values, [k] being the number of
    rejected draws. *)
Theorem X3_food_on_first_free_draw (w h : Z) (snakeBody : list Position)
        (f : Food) (r : RandStream) (k fuel : nat) :
  w <> 0 -> h <> 0 ->
  (forall j, (j < k)%nat -> In (sample w h r j) snakeBody) ->
  ~ In (sample w h r k) snakeBody ->
  (k < fuel)%nat ->
  exists r',
    Food.generateFood fuel w h snakeBody f r
    = Ok (food_of_draw (sample w h r k) (r (2 * k + 2)%nat), r') /\
    forall n, r' n = r (2 * k + 3 + n)%nat.
Proof.
  intros Hw Hh Hbefore Hfree Hlt.
  destruct (generateFood_loop_first_free w h snakeBody Hw Hh k r fuel
              Hbefore Hfree Hlt) as [r1 [Hloop Hr1]].
  rewrite generateFood_after_loop, Hloop.
  exists (fun n => r1 (S n)). split.
  - unfold food_of_draw. rewrite Hr1.
    replace (2 * k + 2 + 0)%nat with (2 * k + 2)%nat by lia.
    destruct (Z.rem (r (2 * k + 2)%nat) 10 =? 0); reflexivity.
  - intros n. rewrite Hr1. f_equal. lia.
Qed.

(** X3 on the stream 0, 0, 5, 7, 20, ...: the first draw (0,0) is on the
    body, the second (5,7) is free, and 20 makes the food a bonus. *)
Lemma X3_food_on_first_free_draw_witness :
  let r : RandStream :=
    fun n => match n with
             | 2%nat => 5 | 3%nat => 7 | 4%nat => 20 | _ => 0
             end in
  let snakeBody := [mkPosition 0 0; mkPosition 1 0; mkPosition 2 0] in
  30 <> 0 /\ 20 <> 0 /\
  (forall j, (j < 1)%nat -> In (sample 30 20 r j) snakeBody) /\
  ~ In (sample 30 20 r 1) snakeBody /\ (1 < 2)%nat /\
  exists r',
    Food.generateFood 2 30 20 snakeBody Food.new r
    = Ok (mkFood (mkPosition 5 7) "$"%char LIGHT_YELLOW 50, r') /\
    forall n, r' n = r (2 * 1 + 3 + n)%nat.
Proof.
  intros r snakeBody.
  assert (Hw : 30 <> 0) by discriminate.
  assert (Hh : 20 <> 0) by discriminate.
  assert (Hbefore : forall j, (j < 1)%nat -> In (sample 30 20 r j) snakeBody).
  { intros j Hj. assert (j = 0%nat) as -> by lia. left. reflexivity. }
  assert (Hfree : ~ In (sample 30 20 r 1) snakeBody).
  { simpl. intros [E|[E|[E|[]]]]; discriminate E. }
  assert (Hlt : (1 < 2)%nat) by lia.
  split; [exact Hw|]. split; [exact Hh|]. split; [exact Hbefore|].
  split; [exact Hfree|]. split; [exact Hlt|].
  exact (X3_food_on_first_free_draw 30 20 snakeBody Food.new r 1 2
           Hw Hh Hbefore Hfree Hlt).
Defined.

(** ** [Game::processInput]: what a key does *)

Lemma tolower_idempotent (key : Z) : tolower (tolower key) = tolower key.
Proof.
  unfold tolower.
  destruct (Z.leb_spec 65 key) as [H1|H1], (Z.leb_spec key 90) as [H2|H2];
    simpl.
  - destruct (Z.leb_spec 65 (key + 32)), (Z.leb_spec (key + 32) 90); simpl;
      try reflexivity; lia.
  - destruct (Z.leb_spec 65 key), (Z.leb_spec key 90); simpl;
      try reflexivity; lia.
  - destruct (Z.leb_spec 65 key), (Z.leb_spec key 90); simpl;
      try reflexivity; lia.
  - destruct (Z.leb_spec 65 key), (Z.leb_spec key 90); simpl;
      try reflexivity; lia.
Qed.

Lemma tolower_prefix (key : Z) :
  ((tolower key =? 0) || (tolower key =? 224))
  = ((key =? 0) || (key =? 224)).
Proof.
  unfold tolower.
  destruct (Z.leb_spec 65 key) as [H1|H1], (Z.leb_spec key 90) as [H2|H2];
    simpl; try reflexivity.
  destruct (Z.eqb_spec (key + 32) 0), (Z.eqb_spec (key + 32) 224),
           (Z.eqb_spec key 0), (Z.eqb_spec key 224); simpl;
    try reflexivity; lia.
Qed.

Lemma processInput_cases (kb : Keyboard) (g : Game) :
  Game.processInput kb g = g \/
  (exists d, d <> STOP /\
             Game.processInput kb g
             = set_snake (Snake.setDirection d (snake g)) g) \/
  Game.processInput kb g = set_paused (negb (paused g)) g \/
  Game.processInput kb g = set_gameRunning false g.
Proof.
  destruct kb as [|key next]; [left; reflexivity|].
  unfold Game.processInput.
  repeat match goal with
         | |- context [if ?c then _ else _] => destruct c
         end;
    try (left; reflexivity);
    try (right; right; left; reflexivity);
    try (right; right; right; reflexivity);
    right; left;
    [ exists UP | exists DOWN | exists LEFT | exists RIGHT
    | exists UP | exists DOWN | exists LEFT | exists RIGHT ];
    (split; [discriminate | reflexivity]).
Qed.

(** X4. Every key does one of four things to the game and nothing else:
    nothing, one [setDirection] with UP, DOWN, LEFT or RIGHT, a toggle of
    [paused], or clearing [gameRunning]; neither [paused] nor [gameOver] is
    consulted.  Letter keys act the same in upper and lower case, each
    arrow key acts as its letter key, and [p] pressed twice gives the game
    back as it was. *)
Theorem X4_processInput_keys (key next : Z) (g : Game) :
  (Game.processInput (Pressed key next) g = g \/
   (exists d, d <> STOP /\
              Game.processInput (Pressed key next) g
              = set_snake (Snake.setDirection d (snake g)) g) \/
   Game.processInput (Pressed key next) g = set_paused (negb (paused g)) g \/
   Game.processInput (Pressed key next) g = set_gameRunning false g) /\
  Game.processInput (Pressed (tolower key) next) g
  = Game.processInput (Pressed key next) g /\
  (forall d prefix,
      d <> STOP -> prefix = 0 \/ prefix = 224 ->
      Game.processInput (Pressed prefix (arrow_code d)) g
      = Game.processInput (Pressed (letter_key d) next) g) /\
  Game.processInput (Pressed 112 next)
                    (Game.processInput (Pressed 112 next) g) = g.
Proof.
  split; [|split; [|split]].
  - apply processInput_cases.
  - unfold Game.processInput. rewrite tolower_prefix.
    destruct ((key =? 0) || (key =? 224)); [reflexivity|].
    cbv zeta. rewrite tolower_idempotent. reflexivity.
  - intros d prefix Hd Hp.
    rewrite (processInput_arrow d prefix g Hd Hp).
    rewrite (processInput_letter d next g Hd). reflexivity.
  - rewrite !processInput_p. destruct g. simpl. rewrite negb_involutive.
    reflexivity.
Qed.

(** X4 at the up arrow and at [W]. *)
Lemma X4_processInput_keys_witness :
  UP <> STOP /\ (224 = 0 \/ 224 = 224) /\
  Game.processInput (Pressed 224 (arrow_code UP)) before_food
  = Game.processInput (Pressed (letter_key UP) 0) before_food /\
  Game.processInput (Pressed 87 0) before_food
  = Game.processInput (Pressed 119 0) before_food.
Proof.
  assert (H1 : UP <> STOP) by discriminate.
  assert (H2 : 224 = 0 \/ 224 = 224) by (right; reflexivity).
  split; [exact H1|]. split; [exact H2|]. split.
  - exact (proj1 (proj2 (proj2 (X4_processInput_keys 0 0 before_food)))
                 UP 224 H1 H2).
  - symmetry.
    exact (proj1 (proj2 (X4_processInput_keys 87 0 before_food))).
Defined.

(** ** [Game::handleGameOver], [saveHighScore] and [restart] *)

Lemma saveHighScore_max (g : Game) :
  Game.saveHighScore g = set_highScore (Z.max (score g) (highScore g)) g.
Proof.
  unfold Game.saveHighScore.
  destruct (Z.gtb_spec (score g) (highScore g)) as [H|H].
  - rewrite Z.max_l by lia. reflexivity.
  - rewrite Z.max_r by lia. destruct g. reflexivity.
Qed.

(** [handleGameOver] on a game that is over. *)
Lemma handleGameOver_over (fuel : nat) (choice : Z) (g : Game)
      (r : RandStream) :
  gameOver g = true ->
  Game.handleGameOver fuel choice g r =
  if choice_of choice =? 114 then Game.restart fuel (Game.saveHighScore g) r
  else if choice_of choice =? 113
       then Ok (set_gameRunning false (Game.saveHighScore g), r)
       else Ok (Game.saveHighScore g, r).
Proof.
  intros Hover. unfold Game.handleGameOver, choice_of. rewrite Hover.
  simpl negb. cbv iota zeta.
  destruct (Int.to_char (tolower (Int.to_char choice)) =? 114);
    [reflexivity|].
  destruct (Int.to_char (tolower (Int.to_char choice)) =? 113); reflexivity.
Qed.

(** The key is judged as a [char]: modulo 256, and after lowering. *)
Lemma to_char_mod (z k : Z) : Int.to_char (z + 256 * k) = Int.to_char z.
Proof.
  unfold Int.to_char.
  replace (z + 256 * k + 128) with (z + 128 + k * 256) by lia.
  rewrite Z.mod_add by lia. reflexivity.
Qed.

Lemma to_char_id (z : Z) : -128 <= z <= 127 -> Int.to_char z = z.
Proof.
  intros Hz. unfold Int.to_char. rewrite Z.mod_small by lia. lia.
Qed.

Lemma choice_of_mod (key k : Z) : choice_of (key + 256 * k) = choice_of key.
Proof. unfold choice_of. rewrite to_char_mod. reflexivity. Qed.

Lemma choice_of_key (key : Z) : 0 <= key <= 127 -> choice_of key = tolower key.
Proof.
  intros Hk. unfold choice_of. rewrite (to_char_id key) by lia.
  apply to_char_id. unfold tolower.
  destruct ((65 <=? key) && (key <=? 90)) eqn:E; [|lia].
  apply andb_true_iff in E. destruct E as [E1 E2].
  apply Z.leb_le in E1, E2. lia.
Qed.

(** X5. [handleGameOver] does nothing unless the game is over.  When it
    is, the high score first becomes the larger of score and high score;
    then the key decides, as the [char] the function keeps it in (the key
    code modulo 256, lowered; for the codes 0 to 127 the lowered code
    itself): [r] or [R] restarts: score 0, not over, not paused, speed
    150, level 1, the snake reset to its three segments and STOP, a new
    food off that body, with the high score, the board and [gameRunning]
    kept; [q] or [Q] clears [gameRunning]; any other key leaves the game
    over. *)
Theorem X5_handleGameOver_outcomes (fuel : nat) (choice : Z) (g : Game)
        (r : RandStream) :
  (gameOver g = false -> Game.handleGameOver fuel choice g r = Ok (g, r)) /\
  (gameOver g = true -> choice_of choice = 113 ->
   Game.handleGameOver fuel choice g r
   = Ok (set_gameRunning false
           (set_highScore (Z.max (score g) (highScore g)) g), r)) /\
  (gameOver g = true -> choice_of choice <> 114 -> choice_of choice <> 113 ->
   Game.handleGameOver fuel choice g r
   = Ok (set_highScore (Z.max (score g) (highScore g)) g, r)) /\
  (gameOver g = true -> choice_of choice = 114 ->
   forall g' r',
     Game.handleGameOver fuel choice g r = Ok (g', r') ->
     score g' = 0 /\ gameOver g' = false /\ paused g' = false /\
     gameSpeed g' = 150 /\ currentLevel g' = "Level 1"%string /\
     snake g' = Snake.reset (snake g) /\
     highScore g' = Z.max (score g) (highScore g) /\
     gameRunning g' = gameRunning g /\ board g' = board g /\
     ~ In (food_position (food g')) (body (snake g'))) /\
  (gameOver g = true -> choice_of choice = 114 ->
   width (board g) <> 0 -> height (board g) <> 0 ->
   (exists k, ~ In (sample (width (board g)) (height (board g)) r k)
                   (body Snake.new)) ->
   exists fuel' g' r', Game.handleGameOver fuel' choice g r = Ok (g', r')) /\
  (forall k,
      Game.handleGameOver fuel (choice + 256 * k) g r
      = Game.handleGameOver fuel choice g r) /\
  (0 <= choice <= 127 -> choice_of choice = tolower choice) /\
  (choice_of choice = 114 <->
   exists k, choice = 114 + 256 * k \/ choice = 82 + 256 * k) /\
  (choice_of choice = 113 <->
   exists k, choice = 113 + 256 * k \/ choice = 81 + 256 * k).
Proof.
  assert (Hdecide : forall c : Z,
             (choice_of choice = c + 32 <->
              exists k, choice = c + 32 + 256 * k \/ choice = c + 256 * k)
             \/ ~ (65 <= c <= 90)).
  { intros c.
    destruct (Z_le_dec 65 c) as [Hc1|Hc1]; [|right; lia].
    destruct (Z_le_dec c 90) as [Hc2|Hc2]; [|right; lia].
    left. unfold choice_of, Int.to_char.
    pose proof (Z.mod_pos_bound (choice + 128) 256 ltac:(lia)) as Hm.
    pose proof (Z.div_mod (choice + 128) 256 ltac:(lia)) as Hdm.
    set (m := (choice + 128) mod 256) in *.
    set (q := (choice + 128) / 256) in *.
    unfold tolower.
    destruct ((65 <=? m - 128) && (m - 128 <=? 90)) eqn:E.
    - apply andb_true_iff in E. destruct E as [E1 E2].
      apply Z.leb_le in E1, E2.
      rewrite (Z.mod_small (m - 128 + 32 + 128) 256) by lia.
      split.
      + intros H. exists q. right. lia.
      + intros [k [H|H]].
        * exfalso. assert (m = c + 32 + 128 + 256 * (k - q)) by lia. lia.
        * assert (m = c + 128 + 256 * (k - q)) by lia.
          assert (k - q = 0) by lia. lia.
    - rewrite (Z.mod_small (m - 128 + 128) 256) by lia.
      assert (Hout : ~ (65 <= m - 128 <= 90)).
      { intros [H1 H2]. apply Z.leb_le in H1, H2.
        rewrite H1, H2 in E. discriminate E. }
      split.
      + intros H. exists q. left. lia.
      + intros [k [H|H]].
        * assert (m = c + 32 + 128 + 256 * (k - q)) by lia.
          assert (k - q = 0) by lia. lia.
        * exfalso. assert (m = c + 128 + 256 * (k - q)) by lia.
          assert (k - q = 0) by lia. lia. }
  split; [|split; [|split; [|split; [|split; [|split; [|split; [|split]]]]]]].
  - intros Hover. unfold Game.handleGameOver. rewrite Hover. reflexivity.
  - intros Hover Hq. rewrite (handleGameOver_over fuel choice g r Hover).
    rewrite Hq. simpl. rewrite saveHighScore_max. reflexivity.
  - intros Hover Hr Hq. rewrite (handleGameOver_over fuel choice g r Hover).
    rewrite (proj2 (Z.eqb_neq _ _) Hr), (proj2 (Z.eqb_neq _ _) Hq).
    rewrite saveHighScore_max. reflexivity.
  - intros Hover Hr g' r' H.
    rewrite (handleGameOver_over fuel choice g r Hover) in H.
    rewrite Hr in H. simpl in H. rewrite saveHighScore_max in H.
    unfold Game.restart in H. cbv zeta in H. unfold bind in H.
    destruct (Food.generateFood fuel _ _ _ _ r) as [[f1 r1]|e] eqn:E;
      [|discriminate].
    unfold ret in H. injection H as <- _.
    destruct (generateFood_sound _ _ _ _ _ _ _ _ E) as [_ [Hfree _]].
    repeat (split; [reflexivity|]). exact Hfree.
  - intros Hover Hr Hw Hh Hk.
    assert (Hret : generateFood_returns (width (board g)) (height (board g))
                     (body Snake.new)
                     (food (set_highScore (Z.max (score g) (highScore g)) g))
                     r).
    { apply generateFood_returns_iff. split; [exact Hw|].
      split; [exact Hh | exact Hk]. }
    destruct Hret as [fuel' [f1 [r1 E]]].
    exists fuel'. eexists. eexists.
    rewrite (handleGameOver_over fuel' choice g r Hover).
    rewrite Hr. simpl. rewrite saveHighScore_max.
    unfold Game.restart. cbv zeta. unfold bind.
    unfold GameBoard.getWidth, GameBoard.getHeight, Snake.getBody. simpl.
    simpl in E. rewrite E. reflexivity.
  - intros k. unfold Game.handleGameOver. rewrite to_char_mod. reflexivity.
  - apply choice_of_key.
  - destruct (Hdecide 82) as [H|H]; [exact H | lia].
  - destruct (Hdecide 81) as [H|H]; [exact H | lia].
Qed.

(** X5 on the game lost at the right wall with 120 points: [R] restarts
    it, [q] ends the run, [x] changes the high score only; and the key
    code 370, which is [r] as a [char], restarts it too. *)
Lemma X5_handleGameOver_outcomes_witness :
  let g := set_gameOver true (set_score 120 at_right_wall) in
  gameOver g = true /\ gameOver at_right_wall = false /\
  choice_of 82 = 114 /\ choice_of 113 = 113 /\
  choice_of 120 <> 114 /\ choice_of 120 <> 113 /\ choice_of 370 = 114 /\
  width (board g) <> 0 /\ height (board g) <> 0 /\
  (exists k, ~ In (sample (width (board g)) (height (board g)) rand_zero k)
                  (body Snake.new)) /\
  Game.handleGameOver 0 82 at_right_wall rand_zero
  = Ok (at_right_wall, rand_zero) /\
  Game.handleGameOver 0 113 g rand_zero
  = Ok (set_gameRunning false (set_highScore 120 g), rand_zero) /\
  Game.handleGameOver 0 120 g rand_zero
  = Ok (set_highScore 120 g, rand_zero) /\
  (exists fuel' g' r',
      Game.handleGameOver fuel' 82 g rand_zero = Ok (g', r') /\
      score g' = 0 /\ highScore g' = 120 /\ gameOver g' = false) /\
  exists fuel' g' r',
    Game.handleGameOver fuel' 370 g rand_zero = Ok (g', r') /\
    score g' = 0 /\ highScore g' = 120 /\ gameOver g' = false.
Proof.
  intros g.
  assert (H1 : gameOver g = true) by reflexivity.
  assert (H2 : gameOver at_right_wall = false) by reflexivity.
  assert (H3 : choice_of 82 = 114) by reflexivity.
  assert (H4 : choice_of 113 = 113) by reflexivity.
  assert (H5 : choice_of 120 <> 114) by discriminate.
  assert (H6 : choice_of 120 <> 113) by discriminate.
  assert (H3' : choice_of 370 = 114) by reflexivity.
  assert (H7 : width (board g) <> 0) by discriminate.
  assert (H8 : height (board g) <> 0) by discriminate.
  assert (H9 : exists k,
             ~ In (sample (width (board g)) (height (board g)) rand_zero k)
                  (body Snake.new)).
  { exists 0%nat. simpl. intros [E|[E|[E|[]]]]; discriminate E. }
  split; [exact H1|]. split; [exact H2|]. split; [exact H3|].
  split; [exact H4|]. split; [exact H5|]. split; [exact H6|].
  split; [exact H3'|].
  split; [exact H7|]. split; [exact H8|]. split; [exact H9|].
  split.
  { exact (proj1 (X5_handleGameOver_outcomes 0 82 at_right_wall rand_zero)
                 H2). }
  split.
  { exact (proj1 (proj2 (X5_handleGameOver_outcomes 0 113 g rand_zero))
                 H1 H4). }
  split.
  { exact (proj1 (proj2 (proj2
             (X5_handleGameOver_outcomes 0 120 g rand_zero))) H1 H5 H6). }
  split.
  - destruct (proj1 (proj2 (proj2 (proj2 (proj2
                (X5_handleGameOver_outcomes 0 82 g rand_zero)))))
                H1 H3 H7 H8 H9) as [fuel' [g' [r' Hret]]].
    exists fuel', g', r'. split; [exact Hret|].
    destruct (proj1 (proj2 (proj2 (proj2
                (X5_handleGameOver_outcomes fuel' 82 g rand_zero))))
                H1 H3 g' r' Hret)
      as [Hs [Ho [_ [_ [_ [_ [Hh _]]]]]]].
    split; [exact Hs|]. split; [exact Hh | exact Ho].
  - destruct (proj1 (proj2 (proj2 (proj2 (proj2
                (X5_handleGameOver_outcomes 0 370 g rand_zero)))))
                H1 H3' H7 H8 H9) as [fuel' [g' [r' Hret]]].
    exists fuel', g', r'. split; [exact Hret|].
    destruct (proj1 (proj2 (proj2 (proj2
                (X5_handleGameOver_outcomes fuel' 370 g rand_zero))))
                H1 H3' g' r' Hret)
      as [Hs [Ho [_ [_ [_ [_ [Hh _]]]]]]].
    split; [exact Hs|]. split; [exact Hh | exact Ho].
Defined.

(** ** The second invariant of the run *)

Lemma adjacentb_translate (d : Direction) (p : Position) :
  d <> STOP -> adjacentb (translate d p) p = true.
Proof.
  intros Hd. unfold adjacentb. apply Z.eqb_eq.
  destruct d; simpl; try congruence; lia.
Qed.

Lemma chainb_cons (p q : Position) (v : list Position) :
  chainb (p :: q :: v) = adjacentb p q && chainb (q :: v).
Proof. reflexivity. Qed.

Lemma chainb_removelast (v : list Position) :
  chainb v = true -> chainb (removelast v) = true.
Proof.
  induction v as [|p v IH]; [reflexivity|].
  destruct v as [|q v]; [reflexivity|].
  rewrite chainb_cons. intros H. apply andb_true_iff in H as [Ha Hc].
  change (removelast (p :: q :: v)) with (p :: removelast (q :: v)).
  specialize (IH Hc).
  destruct v as [|q' v]; [reflexivity|].
  change (removelast (q :: q' :: v)) with (q :: removelast (q' :: v)) in *.
  rewrite chainb_cons, Ha, IH. reflexivity.
Qed.

(** A move of a game that is not over keeps the body a chain. *)
Lemma moved_chain (g : Game) (s' : Snake) :
  game_inv g -> gameOver g = false ->
  chainb (body (snake g)) = true ->
  Snake.move (snake g) = Ok s' ->
  chainb (body s') = true.
Proof.
  intros [Hboard [Hlen [_ [_ Halive]]]] Hover Hchain Hmove.
  destruct (Halive Hover) as [_ [Hon _]].
  destruct (Direction_eqb (direction (snake g)) STOP) eqn:Ed.
  { unfold Snake.move in Hmove. rewrite Ed in Hmove. injection Hmove as <-.
    exact Hchain. }
  assert (Hd : direction (snake g) <> STOP)
    by (intros Hd; rewrite Hd in Ed; discriminate).
  destruct (body (snake g)) as [|head rest] eqn:Hb; [simpl in Hlen; lia|].
  assert (Hin : inner head).
  { inversion Hon as [|p v Hvalid _]; subst.
    rewrite Hboard in Hvalid. apply isValidPosition_true in Hvalid.
    simpl in Hvalid. unfold inner, Int.min_int, Int.max_int. lia. }
  rewrite (move_moving (snake g) head rest Hd Hb Hin) in Hmove.
  injection Hmove as <-. simpl body. rewrite Hb.
  destruct (growing (snake g)).
  - rewrite chainb_cons, adjacentb_translate by exact Hd. exact Hchain.
  - destruct rest as [|q rest]; [reflexivity|].
    change (removelast (head :: q :: rest))
      with (head :: removelast (q :: rest)).
    rewrite chainb_cons, adjacentb_translate by exact Hd.
    apply (chainb_removelast (head :: q :: rest) Hchain).
Qed.

Lemma updateGameSpeed_bounds (g : Game) :
  0 <= score g <= Int.max_int ->
  50 <= gameSpeed (Game.updateGameSpeed g) <= 185.
Proof.
  intros H. rewrite (updateGameSpeed_spec g H). simpl.
  unfold tickIntervalMs_spec, level_spec.
  assert (0 <= score g / 100) by (apply Z.div_pos; lia). lia.
Qed.

Lemma new_run_inv (fuel : nat) (r0 : RandStream) (g : Game) (r : RandStream) :
  Game.new fuel r0 = Ok (g, r) -> run_inv g.
Proof.
  intros H. unfold Game.new in H. cbv zeta in H. unfold bind in H.
  destruct (Food.generateFood fuel _ _ _ _ r0) as [[f r1]|e];
    [|discriminate].
  unfold ret in H. injection H as <- _.
  unfold run_inv. simpl.
  split; [reflexivity|]. split; [lia|]. split; [apply Z.divide_0_r|].
  split; [lia|]. split; [lia|]. split; [lia | apply Z.divide_0_r].
Qed.

Lemma restart_run_inv (fuel : nat) (g : Game) (r : RandStream)
      (g' : Game) (r' : RandStream) :
  0 <= highScore g -> (10 | highScore g) ->
  Game.restart fuel g r = Ok (g', r') -> run_inv g'.
Proof.
  intros Hh Hd H. unfold Game.restart in H. cbv zeta in H. unfold bind in H.
  destruct (Food.generateFood fuel _ _ _ _ r) as [[f r1]|e];
    [|discriminate].
  unfold ret in H. injection H as <- _.
  unfold run_inv. simpl.
  split; [reflexivity|]. split; [lia|]. split; [apply Z.divide_0_r|].
  split; [lia|]. split; [lia|]. split; assumption.
Qed.

Lemma processInput_run_inv (kb : Keyboard) (g : Game) :
  run_inv g -> run_inv (Game.processInput kb g).
Proof.
  intros H.
  destruct (processInput_cases kb g) as [E|[[d [_ E]]|[E|E]]]; rewrite E;
    try exact H.
  unfold run_inv. simpl.
  assert (Hset : body (Snake.setDirection d (snake g)) = body (snake g) /\
                 growing (Snake.setDirection d (snake g)) = growing (snake g)).
  { unfold Snake.setDirection.
    match goal with |- context [if ?c then _ else _] => destruct c end;
      split; reflexivity. }
  destruct Hset as [-> ->]. exact H.
Qed.

Lemma update_run_inv (fuel : nat) (g : Game) (r : RandStream)
      (g' : Game) (r' : RandStream) :
  game_inv g -> run_inv g ->
  Game.update fuel g r = Ok (g', r') ->
  run_inv g' /\ highScore g' = highScore g /\
  (score g' = score g \/ score g' = score g + 10 \/ score g' = score g + 50) /\
  (List.length (body (snake g)) <= List.length (body (snake g'))
   <= S (List.length (body (snake g))))%nat.
Proof.
  intros Hinv Hrinv H.
  assert (Hidle : gameOver g = true \/ paused g = true ->
                  run_inv g' /\ highScore g' = highScore g /\
                  (score g' = score g \/ score g' = score g + 10 \/
                   score g' = score g + 50) /\
                  (List.length (body (snake g))
                   <= List.length (body (snake g'))
                   <= S (List.length (body (snake g))))%nat).
  { intros Hi. rewrite (update_idle fuel g r Hi) in H. injection H as <- _.
    split; [exact Hrinv|]. split; [reflexivity|]. split; [left; reflexivity|].
    lia. }
  destruct (gameOver g) eqn:Hover; [apply Hidle; left; reflexivity|].
  destruct (paused g) eqn:Hpaused; [apply Hidle; right; reflexivity|].
  clear Hidle.
  pose proof Hinv as [Hboard [Hlen [Hkind [Hscore Halive]]]].
  pose proof (kind_value _ Hkind) as Hv.
  destruct Hrinv as [Hchain [Hlen601 [Hdiv [Hlow [Hspeed [Hhigh Hhdiv]]]]]].
  destruct (Halive Hover) as [Hnd0 [Hon0 _]].
  assert (Hfit0 : (List.length (body (snake g)) <= 30 * 20)%nat).
  { apply body_fits_board; [exact Hnd0|]. rewrite Hboard in Hon0.
    exact Hon0. }
  destruct (update_needs_move fuel g r g' r' (conj Hover Hpaused) H)
    as [s' Hmove].
  rewrite (update_running fuel g r s' (conj Hover Hpaused) Hmove) in H.
  cbv zeta in H.
  destruct (move_length _ _ Hmove) as [Hml Hge].
  pose proof (moved_chain g s' Hinv Hover Hchain Hmove) as Hchain'.
  assert (Hsp : 50 <= gameSpeed (Game.updateGameSpeed
                                   (set_snake s' (set_foodEaten false g)))
                <= 185).
  { apply updateGameSpeed_bounds. simpl score.
    unfold Int.max_int. destruct (growing (snake g)); lia. }
  assert (Hle : (List.length (body s') <= S (List.length (body (snake g))))%nat)
    by (destruct (growing s'), (growing (snake g)); lia).
  assert (Hplain : run_inv (Game.updateGameSpeed
                              (set_snake s' (set_foodEaten false g)))).
  { unfold run_inv. game_fields. split; [exact Hchain'|]. split; [lia|].
    split; [exact Hdiv|]. split; [lia|].
    split; [exact Hsp|]. split; assumption. }
  assert (Hdead : run_inv (set_gameOver true
                             (Game.updateGameSpeed
                                (set_snake s' (set_foodEaten false g))))).
  { exact Hplain. }
  destruct (GameBoard.isValidPosition (board g) (Snake.getHead s')) eqn:Hvalid;
    simpl negb in H; cbv iota in H;
    [|injection H as <- _; split; [exact Hdead|]; split; [reflexivity|];
      split; [left; reflexivity | simpl; lia]].
  destruct (Snake.checkSelfCollision s') eqn:Hcol;
    [injection H as <- _; split; [exact Hdead|]; split; [reflexivity|];
     split; [left; reflexivity | simpl; lia]|].
  destruct (moved_alive g s' Hinv Hover Hmove Hvalid Hcol)
    as [Hnd [Hon [_ Hgrow]]].
  destruct (Position_eqb (Snake.getHead s') (food_position (food g))) eqn:Heat;
    [|injection H as <- _; split; [exact Hplain|]; split; [reflexivity|];
      split; [left; reflexivity | simpl; lia]].
  destruct (Food.generateFood fuel (width (board g)) (height (board g))
                              (body s') (food g) r) as [[f1 r1]|e];
    [|discriminate].
  injection H as <- _.
  destruct (Hgrow eq_refl) as [Hg' _]. rewrite Hg' in Hml.
  pose proof (score_add_exact g s' Hinv Hover Hmove Hnd Hon) as Hadd.
  split; [|split; [reflexivity|]; split; [|simpl; lia]].
  - unfold run_inv. game_fields. rewrite Hadd.
    split; [exact Hchain'|]. split; [lia|].
    split.
    { apply Z.divide_add_r; [exact Hdiv|].
      destruct Hv as [-> | ->]; [exists 1 | exists 5]; reflexivity. }
    split; [lia|]. split; [exact Hsp|]. split; assumption.
  - game_fields. rewrite Hadd. destruct Hv as [-> | ->]; auto.
Qed.

Lemma saveHighScore_run_inv (g : Game) :
  run_inv g -> 0 <= score g ->
  run_inv (Game.saveHighScore g) /\ score g <= highScore (Game.saveHighScore g).
Proof.
  intros [Hchain [Hlen [Hdiv [Hlow [Hspeed [Hhigh Hhdiv]]]]]] Hs.
  rewrite saveHighScore_max. unfold run_inv. simpl.
  split; [|lia].
  split; [exact Hchain|]. split; [exact Hlen|]. split; [exact Hdiv|].
  split; [exact Hlow|]. split; [exact Hspeed|]. split; [lia|].
  destruct (Z.max_spec (score g) (highScore g)) as [[_ ->]|[_ ->]];
    assumption.
Qed.

Lemma handleGameOver_run_inv (fuel : nat) (choice : Z) (g : Game)
      (r : RandStream) (g' : Game) (r' : RandStream) :
  run_inv g -> 0 <= score g ->
  Game.handleGameOver fuel choice g r = Ok (g', r') ->
  run_inv g' /\ highScore g <= highScore g' /\
  (gameOver g = true -> gameOver g' = true -> score g' <= highScore g') /\
  (gameOver g = true -> gameOver g' = false ->
   choice_of choice = 114 /\ score g' = 0 /\
   snake g' = Snake.reset (snake g)).
Proof.
  intros Hrinv Hs H.
  destruct (gameOver g) eqn:Hover.
  2:{ unfold Game.handleGameOver in H. rewrite Hover in H.
      injection H as <- _. split; [exact Hrinv|]. split; [lia|].
      split; discriminate. }
  rewrite (handleGameOver_over fuel choice g r Hover) in H.
  destruct (saveHighScore_run_inv g Hrinv Hs) as [Hrinv1 Hle].
  assert (Hmono : highScore g <= highScore (Game.saveHighScore g))
    by (rewrite saveHighScore_max; simpl; lia).
  assert (Hover1 : gameOver (Game.saveHighScore g) = true)
    by (rewrite saveHighScore_max; exact Hover).
  assert (Hscore1 : score (Game.saveHighScore g) = score g)
    by (rewrite saveHighScore_max; reflexivity).
  assert (Hsnake1 : snake (Game.saveHighScore g) = snake g)
    by (rewrite saveHighScore_max; reflexivity).
  destruct (Z.eqb_spec (choice_of choice) 114) as [Hr|Hr].
  - pose proof Hrinv1 as [_ [_ [_ [_ [_ [Hh Hhd]]]]]].
    pose proof (restart_run_inv _ _ _ _ _ Hh Hhd H) as Hrinv'.
    unfold Game.restart in H. cbv zeta in H. unfold bind in H.
    destruct (Food.generateFood fuel _ _ _ _ r) as [[f1 r1]|e];
      [|discriminate].
    unfold ret in H. injection H as <- _.
    split; [exact Hrinv'|]. split; [exact Hmono|].
    split; [discriminate|]. intros _ _.
    split; [exact Hr|]. split; [reflexivity|]. simpl. rewrite Hsnake1.
    reflexivity.
  - destruct (choice_of choice =? 113); injection H as <- _.
    + split; [exact Hrinv1|]. split; [exact Hmono|].
      split; [intros _ _; simpl; lia|].
      simpl. rewrite Hover1. discriminate.
    + split; [exact Hrinv1|]. split; [exact Hmono|].
      split; [intros _ _; lia|]. rewrite Hover1. discriminate.
Qed.

(** One pass through the loop keeps both invariants, never lowers the high
    score, and leaves a game that is over only with its score committed. *)
Lemma run_iteration_run_inv (fuel : nat) (kb : Keyboard) (choice : Z)
      (g : Game) (r : RandStream) (g' : Game) (r' : RandStream) :
  game_inv g -> rand_stream_ok r -> run_inv g ->
  Game.run_iteration fuel kb choice g r = Ok (g', r') ->
  run_inv g' /\ highScore g <= highScore g' /\
  (gameOver g' = true -> score g' <= highScore g').
Proof.
  intros Hinv Hr Hrinv H. unfold Game.run_iteration in H. cbv zeta in H.
  unfold bind in H.
  destruct (Game.update fuel (Game.processInput kb g) r)
    as [[g1 r1]|e] eqn:E; [|discriminate].
  pose proof (processInput_inv kb g Hinv) as Hinv0.
  pose proof (processInput_run_inv kb g Hrinv) as Hrinv0.
  destruct (update_run_inv _ _ _ _ _ Hinv0 Hrinv0 E) as [Hrinv1 [Hh1 _]].
  destruct (update_inv _ _ _ _ _ Hinv0 Hr E) as [Hinv1 _].
  assert (Hh0 : highScore (Game.processInput kb g) = highScore g).
  { destruct (processInput_cases kb g) as [E0|[[d [_ E0]]|[E0|E0]]];
      rewrite E0; reflexivity. }
  destruct (gameOver g1) eqn:Hover1.
  - assert (Hs1 : 0 <= score g1) by (destruct Hinv1 as [_ [_ [_ [Hs _]]]]; lia).
    destruct (handleGameOver_run_inv _ _ _ _ _ _ Hrinv1 Hs1 H)
      as [Hrinv' [Hmono [Hcommitted _]]].
    split; [exact Hrinv'|]. split; [lia|]. intros Hover'.
    apply Hcommitted; [exact Hover1 | exact Hover'].
  - injection H as <- _. split; [exact Hrinv1|]. split; [lia|].
    rewrite Hover1. discriminate.
Qed.

Lemma reachable_run_inv (g : Game) (r : RandStream) :
  reachable g r ->
  run_inv g /\ (gameOver g = true -> score g <= highScore g).
Proof.
  induction 1 as [fuel r0 g r Hr0 Hnew
                 | fuel kb choice g r g' r' Hreach IH Hrun Hiter].
  - split; [apply (new_run_inv _ _ _ _ Hnew)|].
    destruct (new_inv _ _ _ _ Hr0 Hnew) as [_ [_ [Hover _]]].
    rewrite Hover. discriminate.
  - destruct IH as [Hrinv _].
    destruct (reachable_inv g r Hreach) as [Hinv Hr].
    destruct (run_iteration_run_inv _ _ _ _ _ _ _ Hinv Hr Hrinv Hiter)
      as [Hrinv' [_ Hc]].
    split; assumption.
Qed.

(** ** The high score *)

(** X6. The high score changes only when a lost game is handled: in every
    state at the top of the loop of [run] it is a non-negative multiple of
    10, and when the game is over it is at least the score; no pass through
    the loop lowers it, also not a restart. *)
Theorem X6_high_score_kept (g : Game) (r : RandStream) :
  reachable g r ->
  0 <= highScore g /\ (10 | highScore g) /\
  (gameOver g = true -> score g <= highScore g) /\
  (forall fuel kb choice g' r',
      Game.run_iteration fuel kb choice g r = Ok (g', r') ->
      highScore g <= highScore g') /\
  (forall fuel kb g' r',
      Game.update fuel (Game.processInput kb g) r = Ok (g', r') ->
      highScore g' = highScore g).
Proof.
  intros Hreach.
  destruct (reachable_run_inv g r Hreach) as [Hrinv Hc].
  destruct (reachable_inv g r Hreach) as [Hinv Hr].
  pose proof Hrinv as [_ [_ [_ [_ [_ [Hh Hhd]]]]]].
  split; [exact Hh|]. split; [exact Hhd|]. split; [exact Hc|]. split.
  - intros fuel kb choice g' r' H.
    apply (run_iteration_run_inv _ _ _ _ _ _ _ Hinv Hr Hrinv H).
  - intros fuel kb g' r' H.
    destruct (update_run_inv _ _ _ _ _ (processInput_inv kb g Hinv)
                (processInput_run_inv kb g Hrinv) H) as [_ [Hsame _]].
    rewrite Hsame.
    destruct (processInput_cases kb g) as [E0|[[d [_ E0]]|[E0|E0]]];
      rewrite E0; reflexivity.
Qed.

(** X6 at the constructed game and at a first pass through the loop with
    no key pressed. *)
Lemma X6_high_score_kept_witness :
  reachable initial_game rand_zero /\
  0 <= highScore initial_game /\
  exists g' r',
    Game.run_iteration 0 NoKey 0 initial_game rand_zero = Ok (g', r') /\
    highScore initial_game <= highScore g'.
Proof.
  split; [exact initial_game_reachable|].
  pose proof (X6_high_score_kept initial_game rand_zero
                initial_game_reachable) as [H0 [_ [_ [Hmono _]]]].
  split; [exact H0|].
  eexists. eexists.
  assert (Hiter : Game.run_iteration 0 NoKey 0 initial_game rand_zero
                  = Ok (Game.updateGameSpeed initial_game, rand_zero))
    by reflexivity.
  split; [exact Hiter|]. exact (Hmono _ _ _ _ _ Hiter).
Defined.

Lemma at_tick_run_inv (g : Game) (r : RandStream) :
  at_tick g r -> run_inv g.
Proof.
  intros [g0 [kb [Hreach [_ ->]]]].
  apply processInput_run_inv. apply (reachable_run_inv g0 r Hreach).
Qed.

(** ** The shape of the body, the score and the speed *)

(** X7. In every state at the top of the loop of [run], over or not, each
    segment of the body shares a side with the next one, and the body has
    between 3 and 601 segments, at most 600 while the game is not over. *)
Theorem X7_body_is_a_chain (g : Game) (r : RandStream) :
  reachable g r ->
  chainb (body (snake g)) = true /\
  (3 <= List.length (body (snake g)) <= 601)%nat /\
  (gameOver g = false -> (List.length (body (snake g)) <= 600)%nat).
Proof.
  intros Hreach.
  destruct (reachable_run_inv g r Hreach) as [[Hchain [Hlen _]] _].
  destruct (reachable_inv g r Hreach) as [[Hboard [Hlen3 [_ [_ Halive]]]] _].
  split; [exact Hchain|]. split; [lia|]. intros Hover.
  destruct (Halive Hover) as [Hnd [Hon _]].
  rewrite Hboard in Hon. apply (body_fits_board 30 20 _ Hnd Hon).
Qed.

(** X7 at the constructed game. *)
Lemma X7_body_is_a_chain_witness :
  reachable initial_game rand_zero /\
  chainb (body (snake initial_game)) = true.
Proof.
  split; [exact initial_game_reachable|].
  exact (proj1 (X7_body_is_a_chain initial_game rand_zero
                  initial_game_reachable)).
Defined.

(** X8. In every state at the top of the loop of [run] the score is a
    multiple of 10; every segment beyond the third, and a pending growth,
    stands for at least 10 and at most 50 points, so that the score is at
    most 29950; and the speed is between 50 and 185. *)
Theorem X8_score_and_speed_bounds (g : Game) (r : RandStream) :
  reachable g r ->
  let grown := Z.of_nat (List.length (body (snake g))) - 3
               + (if growing (snake g) then 1 else 0) in
  (10 | score g) /\
  10 * grown <= score g <= 50 * grown /\
  0 <= score g <= 29950 /\
  50 <= gameSpeed g <= 185.
Proof.
  intros Hreach grown.
  destruct (reachable_run_inv g r Hreach)
    as [[_ [Hlen [Hdiv [Hlow [Hspeed _]]]]] _].
  destruct (reachable_inv g r Hreach) as [[_ [_ [_ [Hscore _]]]] _].
  split; [exact Hdiv|]. split; [unfold grown; lia|].
  split; [|exact Hspeed].
  destruct (growing (snake g)); lia.
Qed.

(** X8 at the constructed game. *)
Lemma X8_score_and_speed_bounds_witness :
  reachable initial_game rand_zero /\
  (10 | score initial_game) /\
  50 <= gameSpeed initial_game <= 185.
Proof.
  split; [exact initial_game_reachable|].
  pose proof (X8_score_and_speed_bounds initial_game rand_zero
                initial_game_reachable) as [Hd [_ [_ Hs]]].
  split; [exact Hd | exact Hs].
Defined.

(** ** What one tick changes *)

(** X9. A tick of the run leaves the score as it is or adds 10 or 50 to
    it, leaves the length as it is or adds one segment, and does not touch
    the high score; on a game that is over or paused it changes nothing and
    draws no random number. *)
Theorem X9_tick_changes (g : Game) (r : RandStream) (fuel : nat)
        (g' : Game) (r' : RandStream) :
  at_tick g r ->
  Game.update fuel g r = Ok (g', r') ->
  (score g' = score g \/ score g' = score g + 10 \/ score g' = score g + 50) /\
  (List.length (body (snake g)) <= List.length (body (snake g'))
   <= S (List.length (body (snake g))))%nat /\
  highScore g' = highScore g /\
  (gameOver g = true \/ paused g = true -> g' = g /\ r' = r).
Proof.
  intros Htick H.
  destruct (at_tick_inv g r Htick) as [Hinv _].
  pose proof (at_tick_run_inv g r Htick) as Hrinv.
  destruct (update_run_inv _ _ _ _ _ Hinv Hrinv H) as [_ [Hh [Hs Hl]]].
  split; [exact Hs|]. split; [exact Hl|]. split; [exact Hh|].
  intros Hidle. rewrite (update_idle fuel g r Hidle) in H.
  injection H as <- <-. split; reflexivity.
Qed.

(** X9 at the tick of the meal scenario. *)
Lemma X9_tick_changes_witness :
  at_tick before_food rand_one /\
  Game.update 1 before_food rand_one = Ok (after_meal, rand_one) /\
  (score after_meal = score before_food \/
   score after_meal = score before_food + 10 \/
   score after_meal = score before_food + 50) /\
  highScore after_meal = highScore before_food.
Proof.
  assert (Hupdate : Game.update 1 before_food rand_one
                    = Ok (after_meal, rand_one)) by reflexivity.
  pose proof (X9_tick_changes before_food rand_one 1 after_meal rand_one
                before_food_at_tick Hupdate) as [Hs [_ [Hh _]]].
  split; [exact before_food_at_tick|]. split; [exact Hupdate|].
  split; [exact Hs | exact Hh].
Defined.

(** X10. After every tick in the RUNNING phase the speed and the level
    shown are those of the score the tick started with: [update] calls
    [updateGameSpeed] before it adds the value of an eaten food, so after a
    meal they lag one tick behind the score.  A new game sleeps 150 ms,
    which is not the 185 ms of level 1 it gets with its first tick. *)
Theorem X10_speed_follows_old_score (g : Game) (r : RandStream)
        (fuel : nat) (g' : Game) (r' : RandStream) :
  at_tick g r -> running g ->
  Game.update fuel g r = Ok (g', r') ->
  gameSpeed g' = tickIntervalMs_spec (score g) /\
  currentLevel g'
  = ("Level " ++ to_string (level_spec (score g)))%string /\
  (forall fuel0 r0 g0 r1,
      Game.new fuel0 r0 = Ok (g0, r1) ->
      gameSpeed g0 = 150 /\ tickIntervalMs_spec (score g0) = 185).
Proof.
  intros Htick Hrun H.
  destruct (at_tick_inv g r Htick) as [Hinv _].
  pose proof (at_tick_run_inv g r Htick) as [_ [Hlen _]].
  destruct Hinv as [_ [_ [_ [Hscore _]]]].
  assert (Hrange : 0 <= score g <= Int.max_int).
  { unfold Int.max_int. destruct (growing (snake g)); lia. }
  destruct (update_needs_move fuel g r g' r' Hrun H) as [s' Hmove].
  rewrite (update_running fuel g r s' Hrun Hmove) in H. cbv zeta in H.
  assert (Hspec : Game.updateGameSpeed (set_snake s' (set_foodEaten false g))
                  = set_currentLevel
                      ("Level " ++ to_string (level_spec (score g)))%string
                      (set_gameSpeed (tickIntervalMs_spec (score g))
                         (set_snake s' (set_foodEaten false g)))).
  { apply (updateGameSpeed_spec (set_snake s' (set_foodEaten false g))).
    exact Hrange. }
  rewrite Hspec in H.
  split; [|split].
  - destruct (negb _); [injection H as <- _; reflexivity|].
    destruct (Snake.checkSelfCollision s'); [injection H as <- _; reflexivity|].
    destruct (Position_eqb _ _); [|injection H as <- _; reflexivity].
    destruct (Food.generateFood _ _ _ _ _ _) as [[f1 r1]|e]; [|discriminate].
    injection H as <- _. reflexivity.
  - destruct (negb _); [injection H as <- _; reflexivity|].
    destruct (Snake.checkSelfCollision s'); [injection H as <- _; reflexivity|].
    destruct (Position_eqb _ _); [|injection H as <- _; reflexivity].
    destruct (Food.generateFood _ _ _ _ _ _) as [[f1 r1]|e]; [|discriminate].
    injection H as <- _. reflexivity.
  - intros fuel0 r0 g0 r1 Hnew. unfold Game.new in Hnew. cbv zeta in Hnew.
    unfold bind in Hnew.
    destruct (Food.generateFood fuel0 _ _ _ _ r0) as [[f r2]|e];
      [|discriminate].
    unfold ret in Hnew. injection Hnew as <- _. split; reflexivity.
Qed.

(** X10 at the tick of the meal scenario: the score is 10 afterwards, the
    speed that of score 0. *)
Lemma X10_speed_follows_old_score_witness :
  at_tick before_food rand_one /\ running before_food /\
  Game.update 1 before_food rand_one = Ok (after_meal, rand_one) /\
  score after_meal = 10 /\
  gameSpeed after_meal = tickIntervalMs_spec 0 /\
  Game.new 1 rand_zero = Ok (initial_game, rand_zero) /\
  gameSpeed initial_game = 150.
Proof.
  assert (Hrun : running before_food) by (split; reflexivity).
  assert (Hupdate : Game.update 1 before_food rand_one
                    = Ok (after_meal, rand_one)) by reflexivity.
  assert (Hnew : Game.new 1 rand_zero = Ok (initial_game, rand_zero))
    by reflexivity.
  pose proof (X10_speed_follows_old_score before_food rand_one 1 after_meal
                rand_one before_food_at_tick Hrun Hupdate)
    as [Hspeed [_ Hfirst]].
  split; [exact before_food_at_tick|]. split; [exact Hrun|].
  split; [exact Hupdate|]. split; [reflexivity|]. split; [exact Hspeed|].
  split; [exact Hnew|]. exact (proj1 (Hfirst _ _ _ _ Hnew)).
Defined.

(** ** Before the first key, and the first key *)

Lemma NoDup_no_collision (s : Snake) :
  NoDup (body s) -> Snake.checkSelfCollision s = false.
Proof.
  intros Hnd. destruct (Snake.checkSelfCollision s) eqn:E; [|reflexivity].
  destruct (body s) as [|head rest] eqn:Hb.
  - unfold Snake.checkSelfCollision in E. rewrite Hb in E. discriminate E.
  - apply (checkSelfCollision_spec s head rest Hb) in E.
    apply NoDup_cons_iff in Hnd. tauto.
Qed.

(** X11. While the snake is stopped, a tick in the RUNNING phase sets the
    speed and the level and nothing else of the simulation: the snake, the
    food, the score and the random stream stay, and the game is not over.
    So a new or restarted game waits for its first key. *)
Theorem X11_stopped_snake_waits (g : Game) (r : RandStream) (fuel : nat) :
  at_tick g r -> running g -> direction (snake g) = STOP ->
  Game.update fuel g r
  = Ok (Game.updateGameSpeed (set_foodEaten false g), r) /\
  snake (Game.updateGameSpeed (set_foodEaten false g)) = snake g /\
  food (Game.updateGameSpeed (set_foodEaten false g)) = food g /\
  score (Game.updateGameSpeed (set_foodEaten false g)) = score g /\
  gameOver (Game.updateGameSpeed (set_foodEaten false g)) = false.
Proof.
  intros Htick Hrun Hstop.
  destruct (at_tick_inv g r Htick) as [Hinv _].
  pose proof Hinv as [_ [Hlen [_ [_ Halive]]]].
  destruct (Halive (proj1 Hrun)) as [Hnd [Hon [_ Hfood]]].
  assert (Hne : body (snake g) <> []).
  { destruct (body (snake g)); [simpl in Hlen; lia | discriminate]. }
  pose proof (getHead_In (snake g) Hne) as Hhead.
  assert (Hvalid : GameBoard.isValidPosition (board g) (Snake.getHead (snake g))
                   = true).
  { unfold on_board in Hon. rewrite Forall_forall in Hon. apply Hon, Hhead. }
  assert (Hneq : Position_eqb (Snake.getHead (snake g))
                              (food_position (food g)) = false).
  { apply Position_eqb_neq. intros E. apply Hfood. rewrite <- E. exact Hhead. }
  rewrite (update_running fuel g r (snake g) Hrun (move_stopped _ Hstop)).
  cbv zeta. rewrite Hvalid, (NoDup_no_collision _ Hnd), Hneq. simpl negb.
  cbv iota.
  split; [destruct g; reflexivity|].
  split; [reflexivity|]. split; [reflexivity|]. split; [reflexivity|].
  exact (proj1 Hrun).
Qed.

(** X11 at the constructed game. *)
Lemma X11_stopped_snake_waits_witness :
  at_tick initial_game rand_zero /\ running initial_game /\
  direction (snake initial_game) = STOP /\
  Game.update 0 initial_game rand_zero
  = Ok (Game.updateGameSpeed (set_foodEaten false initial_game), rand_zero).
Proof.
  assert (Htick : at_tick initial_game rand_zero).
  { exists initial_game, NoKey.
    split; [exact initial_game_reachable|]. split; reflexivity. }
  assert (Hrun : running initial_game) by (split; reflexivity).
  assert (Hstop : direction (snake initial_game) = STOP) by reflexivity.
  split; [exact Htick|]. split; [exact Hrun|]. split; [exact Hstop|].
  exact (proj1 (X11_stopped_snake_waits initial_game rand_zero 0
                  Htick Hrun Hstop)).
Defined.

(** X12. A new or reset snake lies with its head at (10,10) and its body
    to the left.  If the first key is LEFT ([a] or the left arrow), the
    stopped snake accepts it and the next tick in the RUNNING phase moves
    the head onto the second segment: the game is over at once, on any
    board.  After UP, DOWN or RIGHT as the first key the tick of a game of
    the run leaves the game going, with the head one cell further. *)
Theorem X12_first_key (g : Game) (r : RandStream) (fuel : nat) :
  snake g = Snake.new -> running g ->
  (exists g',
      Game.update fuel (Game.processInput (Pressed (letter_key LEFT) 0) g) r
      = Ok (g', r) /\
      gameOver g' = true /\ Snake.checkSelfCollision (snake g') = true) /\
  (forall d g' r',
      at_tick g r -> d = UP \/ d = DOWN \/ d = RIGHT ->
      Game.update fuel (Game.processInput (Pressed (letter_key d) 0) g) r
      = Ok (g', r') ->
      gameOver g' = false /\
      Snake.getHead (snake g') = translate d (mkPosition 10 10) /\
      List.length (body (snake g')) = 3%nat) /\
  (forall s, Snake.reset s = Snake.new).
Proof.
  intros Hsnake [Hover Hpaused].
  split; [|split].
  - rewrite (processInput_letter LEFT 0 g) by discriminate.
    rewrite Hsnake.
    assert (Hrun : running (set_snake (Snake.setDirection LEFT Snake.new) g))
      by (split; assumption).
    rewrite (update_running fuel _ r
               (mkSnake [mkPosition 9 10; mkPosition 10 10; mkPosition 9 10]
                        [mkPosition 10 10; mkPosition 9 10; mkPosition 8 10]
                        LEFT false) Hrun eq_refl).
    cbv zeta.
    change (Snake.checkSelfCollision
              (mkSnake [mkPosition 9 10; mkPosition 10 10; mkPosition 9 10]
                       [mkPosition 10 10; mkPosition 9 10; mkPosition 8 10]
                       LEFT false)) with true.
    destruct (negb _); eexists; (split; [reflexivity|]); split; reflexivity.
  - intros d g' r' Htick Hd H.
    destruct (at_tick_inv g r Htick) as [Hinv _].
    pose proof Hinv as [Hboard [_ [_ [_ Halive]]]].
    destruct (Halive Hover) as [_ [_ [_ Hfood]]].
    rewrite Hsnake in Hfood.
    assert (Hdn : d <> STOP) by (destruct Hd as [->|[->| ->]]; discriminate).
    rewrite (processInput_letter d 0 g Hdn) in H. rewrite Hsnake in H.
    set (s1 := mkSnake (translate d (mkPosition 10 10)
                          :: [mkPosition 10 10; mkPosition 9 10])
                       [mkPosition 10 10; mkPosition 9 10; mkPosition 8 10]
                       d false).
    assert (Hmove : Snake.move (Snake.setDirection d Snake.new) = Ok s1)
      by (destruct Hd as [->|[->| ->]]; reflexivity).
    assert (Hrun : running (set_snake (Snake.setDirection d Snake.new) g))
      by (split; assumption).
    rewrite (update_running fuel _ r s1 Hrun Hmove) in H. cbv zeta in H.
    simpl board in H. rewrite Hboard in H.
    assert (Hvalid : GameBoard.isValidPosition (mkGameBoard 30 20)
                                               (Snake.getHead s1) = true)
      by (destruct Hd as [->|[->| ->]]; reflexivity).
    assert (Hcol : Snake.checkSelfCollision s1 = false)
      by (destruct Hd as [->|[->| ->]]; reflexivity).
    rewrite Hvalid, Hcol in H. simpl negb in H. cbv iota in H.
    destruct (Position_eqb _ _).
    + destruct (Food.generateFood _ _ _ _ _ _) as [[f1 r1]|e];
        [|discriminate].
      injection H as <- _. split; [exact Hover|]. split; reflexivity.
    + injection H as <- _. split; [exact Hover|]. split; reflexivity.
  - intros s. reflexivity.
Qed.

(** X12 at the constructed game: [a] ends it, [w] moves the head to
    (10,9). *)
Lemma X12_first_key_witness :
  snake initial_game = Snake.new /\ running initial_game /\
  at_tick initial_game rand_zero /\ (UP = UP \/ UP = DOWN \/ UP = RIGHT) /\
  (exists g',
      Game.update 0 (Game.processInput (Pressed 97 0) initial_game) rand_zero
      = Ok (g', rand_zero) /\ gameOver g' = true) /\
  exists g' r',
    Game.update 0 (Game.processInput (Pressed 119 0) initial_game) rand_zero
    = Ok (g', r') /\
    gameOver g' = false /\ Snake.getHead (snake g') = mkPosition 10 9.
Proof.
  assert (Hsnake : snake initial_game = Snake.new) by reflexivity.
  assert (Hrun : running initial_game) by (split; reflexivity).
  assert (Htick : at_tick initial_game rand_zero).
  { exists initial_game, NoKey.
    split; [exact initial_game_reachable|]. split; reflexivity. }
  assert (Hd : UP = UP \/ UP = DOWN \/ UP = RIGHT) by (left; reflexivity).
  pose proof (X12_first_key initial_game rand_zero 0 Hsnake Hrun)
    as [[g' [Hleft [Hover _]]] [Hother _]].
  split; [exact Hsnake|]. split; [exact Hrun|]. split; [exact Htick|].
  split; [exact Hd|]. split.
  - exists g'. split; [exact Hleft | exact Hover].
  - eexists. eexists.
    assert (Hup : Game.update 0 (Game.processInput (Pressed 119 0)
                                                   initial_game) rand_zero
                  = Ok (Game.updateGameSpeed
                          (set_snake
                             (mkSnake [mkPosition 10 9; mkPosition 10 10;
                                       mkPosition 9 10]
                                      [mkPosition 10 10; mkPosition 9 10;
                                       mkPosition 8 10] UP false)
                             (set_foodEaten false initial_game)),
                        rand_zero)) by reflexivity.
    split; [exact Hup|].
    destruct (Hother UP _ _ Htick Hd Hup) as [Ho [Hh _]].
    split; [exact Ho | exact Hh].
Defined.

(** * Drawing *)

(** ** Painting *)

Lemma paint_app (a b : list TermOp) (sc : Screen) :
  paint (a ++ b) sc = paint b (paint a sc).
Proof.
  revert sc. induction a as [|op a IH]; intros sc; [reflexivity|].
  simpl. apply IH.
Qed.

(** A loop that writes character [c] on the cells of the positions that
    pass [f]: afterwards a cell holds [c] if the loop came by, and what it
    held before otherwise. *)
Lemma paint_cell_loop (f : Position -> bool) (c : ascii)
      (l : list Position) :
  forall sc x y,
    cell (paint (flat_map
                   (fun q => if f q
                             then [Gotoxy (Int.add (pos_x q) 1)
                                          (Int.add (pos_y q) 4);
                                   PutChar c]
                             else []) l) sc) x y
    = if existsb (fun q => f q && ((Int.add (pos_x q) 1 =? x)
                                   && (Int.add (pos_y q) 4 =? y))) l
      then c else cell sc x y.
Proof.
  induction l as [|q l IH]; intros sc x y; [reflexivity|].
  simpl flat_map. rewrite paint_app, IH. simpl existsb.
  destruct (f q); simpl.
  - rewrite (Z.eqb_sym x), (Z.eqb_sym y).
    destruct (existsb _ l);
      destruct ((Int.add (pos_x q) 1 =? x) && (Int.add (pos_y q) 4 =? y));
      reflexivity.
  - reflexivity.
Qed.

Lemma existsb_find_in (f : Position -> bool) (l : list Position)
      (p : Position) :
  existsb (fun q => f q && Position_eqb q p) l = find_in l p && f p.
Proof.
  induction l as [|q l IH]; [reflexivity|].
  simpl. rewrite IH.
  destruct (Position_eqb q p) eqn:E.
  - apply Position_eqb_eq in E. subst q.
    destruct (f p); simpl; [reflexivity|].
    rewrite andb_false_r. reflexivity.
  - rewrite andb_false_r. reflexivity.
Qed.

(** On a board whose frame fits [int], the cell of a position of the
    board is computed without wrap-around, so different positions have
    different cells, all of them inside the frame. *)
Lemma cell_of_valid (b : GameBoard) (q : Position) :
  drawable b -> GameBoard.isValidPosition b q = true ->
  Int.add (pos_x q) 1 = pos_x q + 1 /\ Int.add (pos_y q) 4 = pos_y q + 4 /\
  1 <= pos_x q + 1 <= width b /\ 4 <= pos_y q + 4 <= height b + 3.
Proof.
  intros [Hw Hh] Hq. apply isValidPosition_true in Hq.
  unfold Int.add, Int.max_int in *.
  rewrite !wrap_id by (unfold Int.in_range, Int.min_int, Int.max_int; lia).
  lia.
Qed.

Lemma existsb_cells_valid (b : GameBoard) (f : Position -> bool)
      (l : list Position) (p : Position) :
  drawable b -> GameBoard.isValidPosition b p = true ->
  existsb (fun q => (f q && GameBoard.isValidPosition b q)
                    && ((Int.add (pos_x q) 1 =? pos_x p + 1)
                        && (Int.add (pos_y q) 4 =? pos_y p + 4))) l
  = find_in l p && f p.
Proof.
  intros Hb Hp.
  rewrite <- (existsb_find_in f l p).
  induction l as [|q l IH]; [reflexivity|].
  simpl. rewrite IH. f_equal.
  destruct (f q); [|reflexivity]. simpl.
  destruct (GameBoard.isValidPosition b q) eqn:Hq; simpl.
  - destruct (cell_of_valid b q Hb Hq) as [-> [-> _]].
    unfold Position_eqb.
    destruct (Z.eqb_spec (pos_x q + 1) (pos_x p + 1)),
             (Z.eqb_spec (pos_y q + 4) (pos_y p + 4)),
             (Z.eqb_spec (pos_x q) (pos_x p)),
             (Z.eqb_spec (pos_y q) (pos_y p)); simpl; try reflexivity; lia.
  - symmetry. apply Position_eqb_neq. intros ->. congruence.
Qed.

Lemma existsb_cells_outside (b : GameBoard) (f : Position -> bool)
      (l : list Position) (x y : Z) :
  drawable b ->
  ~ (1 <= x <= width b /\ 4 <= y <= height b + 3) ->
  existsb (fun q => (f q && GameBoard.isValidPosition b q)
                    && ((Int.add (pos_x q) 1 =? x)
                        && (Int.add (pos_y q) 4 =? y))) l = false.
Proof.
  intros Hb Hout. induction l as [|q l IH]; [reflexivity|].
  simpl. rewrite IH, orb_false_r.
  destruct (f q); [|reflexivity]. simpl.
  destruct (GameBoard.isValidPosition b q) eqn:Hq; [|reflexivity]. simpl.
  destruct (cell_of_valid b q Hb Hq) as [-> [-> [Hx Hy]]].
  destruct (Z.eqb_spec (pos_x q + 1) x), (Z.eqb_spec (pos_y q + 4) y);
    simpl; try reflexivity. exfalso. apply Hout. lia.
Qed.

(** The three parts of [drawSnake] as loops of that shape. *)
Lemma drawSnake_erase_loop (b : GameBoard) (s : Snake) :
  Draw.drawSnake_erase b s
  = flat_map (fun q => if negb (find_in (body s) q)
                          && GameBoard.isValidPosition b q
                       then [Gotoxy (Int.add (pos_x q) 1)
                                    (Int.add (pos_y q) 4);
                             PutChar " "]
                       else []) (previousBody s).
Proof.
  unfold Draw.drawSnake_erase, Snake.getBody. apply flat_map_ext. intros q.
  destruct (negb (find_in (body s) q)); reflexivity.
Qed.

Lemma drawSnake_segments_loop (b : GameBoard) (s : Snake) :
  Draw.drawSnake_segments b s
  = flat_map (fun q => if true && GameBoard.isValidPosition b q
                       then [Gotoxy (Int.add (pos_x q) 1)
                                    (Int.add (pos_y q) 4);
                             PutChar "o"]
                       else []) (tl (body s)).
Proof. reflexivity. Qed.

(** The cell after [drawSnake], for every cell of the console. *)
Lemma cell_after_drawSnake (b : GameBoard) (s : Snake) (sc : Screen)
      (x y : Z) :
  cell (paint (Draw.drawSnake b s) sc) x y =
  if existsb (fun q => (true && GameBoard.isValidPosition b q)
                       && ((Int.add (pos_x q) 1 =? x)
                           && (Int.add (pos_y q) 4 =? y))) (tl (body s))
  then "o"%char
  else
    let erased :=
      if existsb (fun q => (negb (find_in (body s) q)
                            && GameBoard.isValidPosition b q)
                           && ((Int.add (pos_x q) 1 =? x)
                               && (Int.add (pos_y q) 4 =? y)))
                 (previousBody s)
      then " "%char else cell sc x y in
    match body s with
    | [] => erased
    | head :: _ =>
        if GameBoard.isValidPosition b head
           && ((Int.add (pos_x head) 1 =? x) && (Int.add (pos_y head) 4 =? y))
        then Draw.head_glyph (direction s)
        else erased
    end.
Proof.
  unfold Draw.drawSnake. rewrite !paint_app.
  rewrite drawSnake_segments_loop, paint_cell_loop.
  destruct (existsb _ (tl (body s))); [reflexivity|].
  simpl paint at 1. cbv zeta.
  unfold Draw.drawSnake_head, Snake.getBody, Snake.getDirection.
  destruct (body s) as [|head rest] eqn:Hb.
  - simpl paint at 1. rewrite drawSnake_erase_loop, paint_cell_loop.
    rewrite Hb. reflexivity.
  - destruct (GameBoard.isValidPosition b head); simpl.
    + rewrite (Z.eqb_sym x), (Z.eqb_sym y).
      destruct ((Int.add (pos_x head) 1 =? x) && (Int.add (pos_y head) 4 =? y));
        [reflexivity|].
      rewrite drawSnake_erase_loop, paint_cell_loop. rewrite Hb. reflexivity.
    + rewrite drawSnake_erase_loop, paint_cell_loop. rewrite Hb. reflexivity.
Qed.

Lemma head_cell_cond (b : GameBoard) (head p : Position) :
  drawable b -> GameBoard.isValidPosition b p = true ->
  GameBoard.isValidPosition b head
  && ((Int.add (pos_x head) 1 =? pos_x p + 1)
      && (Int.add (pos_y head) 4 =? pos_y p + 4))
  = Position_eqb head p.
Proof.
  intros Hb Hp.
  destruct (GameBoard.isValidPosition b head) eqn:Hh; simpl.
  - destruct (cell_of_valid b head Hb Hh) as [-> [-> _]].
    unfold Position_eqb.
    destruct (Z.eqb_spec (pos_x head + 1) (pos_x p + 1)),
             (Z.eqb_spec (pos_y head + 4) (pos_y p + 4)),
             (Z.eqb_spec (pos_x head) (pos_x p)),
             (Z.eqb_spec (pos_y head) (pos_y p)); simpl; try reflexivity; lia.
  - symmetry. apply Position_eqb_neq. intros ->. congruence.
Qed.

(** What [drawSnake] leaves in the cell of a position of the board. *)
Lemma shown_after_drawSnake (b : GameBoard) (s : Snake) (sc : Screen)
      (p : Position) :
  drawable b -> GameBoard.isValidPosition b p = true ->
  shown (paint (Draw.drawSnake b s) sc) p =
  if find_in (tl (body s)) p then "o"%char
  else
    let erased :=
      if find_in (previousBody s) p && negb (find_in (body s) p)
      then " "%char else shown sc p in
    match body s with
    | [] => erased
    | head :: _ =>
        if Position_eqb head p then Draw.head_glyph (direction s) else erased
    end.
Proof.
  intros Hb Hp. unfold shown. rewrite cell_after_drawSnake.
  rewrite (existsb_cells_valid b (fun _ => true) _ p Hb Hp).
  rewrite (existsb_cells_valid b (fun q => negb (find_in (body s) q)) _ p
             Hb Hp).
  rewrite andb_true_r. cbv zeta.
  destruct (find_in (tl (body s)) p); [reflexivity|].
  destruct (body s) as [|head rest]; [reflexivity|].
  rewrite (head_cell_cond b head p Hb Hp). reflexivity.
Qed.

Lemma head_glyph_is_glyph (d : Direction) :
  snake_glyph (Draw.head_glyph d) = true.
Proof. destruct d; reflexivity. Qed.

(** ** [GameBoard::drawSnake] *)

(** X13. After [drawSnake], on a board whose frame fits [int], the cell
    of a position of the board shows: [o] if the position is a segment
    behind the head; the glyph of the direction if it is the head only; a
    blank if the snake was there in the previous frame and is not now; and
    what it showed before otherwise.  Cells outside the frame of the board
    are never touched.  So a cell of the board shows a snake glyph after
    the call exactly when the snake is there, provided that no glyph was
    left outside the previous and the present body. *)
Theorem X13_drawSnake_shows_the_body (b : GameBoard) (s : Snake)
        (sc : Screen) :
  drawable b ->
  let sc' := paint (Draw.drawSnake b s) sc in
  (forall p,
      GameBoard.isValidPosition b p = true ->
      (In p (tl (body s)) -> shown sc' p = "o"%char) /\
      (hd_error (body s) = Some p -> ~ In p (tl (body s)) ->
       shown sc' p = Draw.head_glyph (direction s)) /\
      (~ In p (body s) -> In p (previousBody s) -> shown sc' p = " "%char) /\
      (~ In p (body s) -> ~ In p (previousBody s) ->
       shown sc' p = shown sc p)) /\
  (forall x y,
      ~ (1 <= x <= width b /\ 4 <= y <= height b + 3) ->
      cell sc' x y = cell sc x y) /\
  ((forall p, GameBoard.isValidPosition b p = true ->
              snake_glyph (shown sc p) = true ->
              In p (body s) \/ In p (previousBody s)) ->
   forall p, GameBoard.isValidPosition b p = true ->
             (snake_glyph (shown sc' p) = true <-> In p (body s))).
Proof.
  intros Hb sc'.
  assert (Hcases : forall p,
    GameBoard.isValidPosition b p = true ->
    (In p (tl (body s)) -> shown sc' p = "o"%char) /\
    (hd_error (body s) = Some p -> ~ In p (tl (body s)) ->
     shown sc' p = Draw.head_glyph (direction s)) /\
    (~ In p (body s) -> In p (previousBody s) -> shown sc' p = " "%char) /\
    (~ In p (body s) -> ~ In p (previousBody s) ->
     shown sc' p = shown sc p)).
  { intros p Hp. unfold sc'. rewrite (shown_after_drawSnake b s sc p Hb Hp).
    cbv zeta.
    split; [|split; [|split]].
    - intros Hin. apply find_in_In in Hin. rewrite Hin. reflexivity.
    - intros Hhd Hnot. apply find_in_not_In in Hnot. rewrite Hnot.
      destruct (body s) as [|head rest]; [discriminate|].
      injection Hhd as ->. rewrite Position_eqb_refl. reflexivity.
    - intros Hnot Hprev.
      assert (Hnt : ~ In p (tl (body s))).
      { intros Hin. apply Hnot. destruct (body s); [exact Hin|].
        right. exact Hin. }
      apply find_in_not_In in Hnt. rewrite Hnt.
      apply find_in_In in Hprev. rewrite Hprev.
      pose proof Hnot as Hnot'. apply find_in_not_In in Hnot'.
      rewrite Hnot'. simpl.
      destruct (body s) as [|head rest]; [reflexivity|].
      destruct (Position_eqb head p) eqn:E; [|reflexivity].
      apply Position_eqb_eq in E. exfalso. apply Hnot. left. exact E.
    - intros Hnot Hprev.
      assert (Hnt : ~ In p (tl (body s))).
      { intros Hin. apply Hnot. destruct (body s); [exact Hin|].
        right. exact Hin. }
      apply find_in_not_In in Hnt. rewrite Hnt.
      apply find_in_not_In in Hprev. rewrite Hprev. simpl.
      destruct (body s) as [|head rest]; [reflexivity|].
      destruct (Position_eqb head p) eqn:E; [|reflexivity].
      apply Position_eqb_eq in E. exfalso. apply Hnot. left. exact E. }
  split; [exact Hcases|]. split.
  - intros x y Hout. unfold sc'. rewrite cell_after_drawSnake.
    rewrite (existsb_cells_outside b (fun _ => true) _ x y Hb Hout).
    rewrite (existsb_cells_outside b (fun q => negb (find_in (body s) q))
               _ x y Hb Hout).
    cbv zeta. destruct (body s) as [|head rest]; [reflexivity|].
    destruct (GameBoard.isValidPosition b head) eqn:Hh; [|reflexivity].
    destruct (cell_of_valid b head Hb Hh) as [-> [-> [Hx Hy]]]. simpl.
    destruct (Z.eqb_spec (pos_x head + 1) x), (Z.eqb_spec (pos_y head + 4) y);
      simpl; try reflexivity. exfalso. apply Hout. lia.
  - intros Hclean p Hp.
    destruct (Hcases p Hp) as [Hseg [Hhead [Herased Hkept]]].
    destruct (find_in (body s) p) eqn:Hin.
    + apply find_in_In in Hin. split; [intros _; exact Hin|]. intros _.
      destruct (find_in (tl (body s)) p) eqn:Htl.
      * apply find_in_In in Htl. rewrite (Hseg Htl). reflexivity.
      * apply find_in_not_In in Htl.
        rewrite Hhead; [apply head_glyph_is_glyph | | exact Htl].
        destruct (body s) as [|head rest]; [destruct Hin|].
        destruct Hin as [->|Hin]; [reflexivity|]. exfalso. apply Htl, Hin.
    + apply find_in_not_In in Hin. split; [|intros H; contradiction].
      intros Hglyph. exfalso.
      destruct (find_in (previousBody s) p) eqn:Hprev.
      * apply find_in_In in Hprev. rewrite (Herased Hin Hprev) in Hglyph.
        discriminate Hglyph.
      * apply find_in_not_In in Hprev. rewrite (Hkept Hin Hprev) in Hglyph.
        destruct (Hclean p Hp Hglyph); contradiction.
Qed.

(** ** Cells a drawing leaves alone *)

Lemma put_string_cursor (s : string) :
  forall sc,
    cursor_x (put_string s sc) = cursor_x sc + Z.of_nat (String.length s) /\
    cursor_y (put_string s sc) = cursor_y sc.
Proof.
  induction s as [|c s IH]; intros sc.
  - simpl. split; [lia|reflexivity].
  - cbn [put_string String.length]. destruct (IH (put c sc)) as [-> ->].
    cbn [put cursor_x cursor_y]. split; [lia|reflexivity].
Qed.

Lemma get_Some_lt (s : string) :
  forall n c, String.get n s = Some c -> (n < String.length s)%nat.
Proof.
  induction s as [|a s IH]; intros n c H; [discriminate H|].
  destruct n as [|n]; simpl in *; [lia|].
  apply IH in H. lia.
Qed.

(** The cell after a string has been written at the cursor. *)
Lemma put_string_cell (s : string) :
  forall sc x y,
    cell (put_string s sc) x y =
    if (y =? cursor_y sc) && (cursor_x sc <=? x)
    then match String.get (Z.to_nat (x - cursor_x sc)) s with
         | Some c => c
         | None => cell sc x y
         end
    else cell sc x y.
Proof.
  induction s as [|c s IH]; intros sc x y.
  - simpl. destruct (_ && _); reflexivity.
  - cbn [put_string]. rewrite IH. cbn [put cursor_x cursor_y cell].
    destruct (Z.eqb_spec y (cursor_y sc)) as [->|Hy].
    + cbn [andb].
      destruct (Z.leb_spec (cursor_x sc + 1) x) as [H1|H1],
               (Z.leb_spec (cursor_x sc) x) as [H2|H2]; try lia.
      * replace (Z.to_nat (x - cursor_x sc))
          with (S (Z.to_nat (x - (cursor_x sc + 1)))) by lia.
        cbn [String.get].
        destruct (String.get _ s); [reflexivity|].
        destruct (Z.eqb_spec x (cursor_x sc)); [lia|]. reflexivity.
      * assert (x = cursor_x sc) as -> by lia.
        rewrite Z.sub_diag, Z.eqb_refl. reflexivity.
      * destruct (Z.eqb_spec x (cursor_x sc)); [lia|]. reflexivity.
    + cbn [andb]. rewrite andb_false_r. reflexivity.
Qed.

Lemma leaves_cell (ops : list TermOp) :
  forall sc x y,
    leaves x y ops (cursor_x sc) (cursor_y sc) ->
    cell (paint ops sc) x y = cell sc x y.
Proof.
  induction ops as [|op ops IH]; intros sc x y H; [reflexivity|].
  destruct op as [gx gy|c|ch|s|]; cbn [paint paint_op leaves] in *.
  - rewrite IH; [reflexivity | exact H].
  - apply IH, H.
  - destruct H as [Hc H]. rewrite IH by exact H. cbn [put cell].
    destruct (Z.eqb_spec x (cursor_x sc)), (Z.eqb_spec y (cursor_y sc));
      simpl; try reflexivity.
    exfalso. apply Hc. split; assumption.
  - destruct H as [Hc H]. destruct (put_string_cursor s sc) as [Ex Ey].
    rewrite IH by (rewrite Ex, Ey; exact H).
    rewrite put_string_cell.
    destruct (Z.eqb_spec y (cursor_y sc)), (Z.leb_spec (cursor_x sc) x);
      simpl; try reflexivity.
    destruct (String.get _ s) eqn:G; [|reflexivity].
    apply get_Some_lt in G. exfalso. apply Hc. split; [assumption|lia].
  - destruct H.
Qed.

(** A part that begins by placing the cursor can follow any other. *)
Lemma leaves_app (a b : list TermOp) (x y : Z) :
  (forall cx cy, leaves x y b cx cy) ->
  forall cx cy, leaves x y a cx cy -> leaves x y (a ++ b) cx cy.
Proof.
  intros Hb. induction a as [|op a IH]; intros cx cy Ha; [apply Hb|].
  destruct op; cbn [app leaves] in *.
  - apply IH, Ha.
  - apply IH, Ha.
  - destruct Ha as [Hc Ha]. split; [exact Hc | apply IH, Ha].
  - destruct Ha as [Hc Ha]. split; [exact Hc | apply IH, Ha].
  - destruct Ha.
Qed.

(** Text written in another row. *)
Lemma leaves_in_row (a b : list TermOp) (x y cy : Z) :
  Forall in_row a -> y <> cy ->
  (forall cx, leaves x y b cx cy) ->
  forall cx, leaves x y (a ++ b) cx cy.
Proof.
  intros Ha Hy Hb. induction Ha as [|op a Hop _ IH]; intros cx; [apply Hb|].
  destruct op; cbn [app leaves in_row] in *.
  - destruct Hop.
  - apply IH.
  - split; [intros [E _]; exact (Hy E) | apply IH].
  - split; [intros [E _]; exact (Hy E) | apply IH].
  - destruct Hop.
Qed.

Lemma dashes_in_row (n : Z) : Forall in_row (Draw.dashes n).
Proof.
  unfold Draw.dashes. induction (Z.to_nat n) as [|k IH]; simpl.
  - constructor.
  - constructor; [exact I | exact IH].
Qed.

Lemma console_fits_drawable (b : GameBoard) : console_fits b -> drawable b.
Proof.
  unfold console_fits, drawable, Int.max_int.
  intros [Hw0 [Hw [Hh0 Hh]]]. split; lia.
Qed.

Lemma add_small (a k : Z) :
  0 <= a -> 0 <= k -> a + k <= Int.max_int -> Int.add a k = a + k.
Proof.
  intros Ha Hk H. unfold Int.add. apply wrap_id.
  unfold Int.in_range, Int.min_int, Int.max_int in *. lia.
Qed.

Lemma div2_small (a : Z) :
  0 <= a -> a <= Int.max_int -> Int.div a 2 = a / 2.
Proof.
  intros Ha H. unfold Int.div. rewrite Z.quot_div_nonneg by lia.
  apply wrap_id. unfold Int.in_range, Int.min_int, Int.max_int in *.
  split; [apply Z.le_trans with 0; [lia | apply Z.div_pos; lia]|].
  apply Z.le_trans with a; [|lia]. apply Z.div_le_upper_bound; lia.
Qed.

(** [drawBorder] writes around the play area and below the banner. *)
Lemma drawBorder_leaves (b : GameBoard) (d : Drawn) (x y : Z) :
  console_fits b -> play_area b x y \/ banner_rows y ->
  forall cx cy, leaves x y (fst (Draw.drawBorder b d)) cx cy.
Proof.
  intros [Hw0 [Hw [Hh0 Hh]]] Hxy cx cy.
  unfold Draw.drawBorder. destruct (borderDrawn d); [exact I|].
  cbn [fst app leaves String.length].
  assert (Hy3 : y <> 3) by (unfold play_area, banner_rows in Hxy; lia).
  split; [lia|].
  apply leaves_in_row; [apply dashes_in_row | exact Hy3 |]. intros cx1.
  cbn [app leaves String.length]. split; [lia|].
  apply leaves_app.
  - intros cx2 cy2. cbn [leaves String.length].
    rewrite (add_small 4 (height b)) by (unfold Int.max_int in *; lia).
    assert (Hyb : y <> 4 + height b)
      by (unfold play_area, banner_rows in Hxy; lia).
    split; [lia|].
    apply leaves_in_row; [apply dashes_in_row | exact Hyb |]. intros cx3.
    cbn [leaves String.length]. split; [lia | exact I].
  - assert (Hrows : Forall (fun i => 0 <= i < height b)
                           (map Z.of_nat (seq 0 (Z.to_nat (height b))))).
    { apply Forall_forall. intros i Hi. apply in_map_iff in Hi.
      destruct Hi as [k [<- Hk]]. apply in_seq in Hk. lia. }
    rewrite (add_small (width b) 1) by (unfold Int.max_int in *; lia).
    generalize (cx1 + Z.of_nat 1) as cx2. generalize 3 as cy2.
    induction Hrows as [|i l Hi _ IH]; intros cy2 cx2; [exact I|].
    simpl flat_map. cbn [app leaves String.length].
    rewrite (add_small 4 i) by (unfold Int.max_int in *; lia).
    split; [unfold play_area, banner_rows in Hxy; lia|].
    split; [unfold play_area, banner_rows in Hxy; lia|].
    apply IH.
Qed.

(** The statistics and the static part of the panel are written to the
    right of the board. *)
Lemma stat_line_leaves (b : GameBoard) (row : Z) (label value : string)
      (x y : Z) :
  console_fits b -> play_area b x y \/ (banner_rows y /\ 3 <= row) ->
  forall cx cy, leaves x y (Draw.stat_line b row label value) cx cy.
Proof.
  intros [Hw0 [Hw [Hh0 Hh]]] Hxy cx cy.
  unfold Draw.stat_line. cbn [leaves].
  rewrite (add_small (width b) 5) by lia.
  unfold play_area, banner_rows in Hxy.
  split; [lia|]. split; [lia|]. split; [lia | exact I].
Qed.

Lemma header_frame_leaves (b : GameBoard) (x y : Z) :
  console_fits b -> play_area b x y ->
  forall cx cy, leaves x y (Draw.header_frame b) cx cy.
Proof.
  intros [Hw0 [Hw [Hh0 Hh]]] [Hx Hy] cx cy.
  unfold Draw.header_frame.
  rewrite (add_small (width b) 5) by lia.
  cbn [leaves String.length].
  repeat (split; [lia|]). exact I.
Qed.

Lemma displayHeader_leaves (b : GameBoard) (score highScore length : Z)
      (level : string) (d : Drawn) (x y : Z) :
  console_fits b ->
  play_area b x y \/ (banner_rows y /\ headerDrawn d = true) ->
  forall cx cy,
    leaves x y (fst (Draw.displayHeader b score highScore length level d))
           cx cy.
Proof.
  intros Hb Hxy cx cy. unfold Draw.displayHeader. cbn [fst].
  assert (Hstat : forall row label value cx' cy',
             3 <= row ->
             leaves x y (Draw.stat_line b row label value) cx' cy').
  { intros row label value cx' cy' Hrow.
    apply stat_line_leaves; [exact Hb|].
    destruct Hxy as [H|[H _]]; [left; exact H | right; split; [exact H|lia]]. }
  apply leaves_app.
  { intros cx1 cy1. apply leaves_app.
    { intros cx2 cy2. apply leaves_app.
      { intros cx3 cy3. apply leaves_app.
        { intros cx4 cy4. destruct (negb _); [apply Hstat; lia | exact I]. }
        destruct (negb _); [apply Hstat; lia | exact I]. }
      destruct (negb _); [apply Hstat; lia | exact I]. }
    destruct (negb _); [apply Hstat; lia | exact I]. }
  destruct Hxy as [H|[_ H]].
  - destruct (negb (headerDrawn d)); [|exact I].
    apply header_frame_leaves; assumption.
  - rewrite H. exact I.
Qed.

(** ** [Game::render] *)

Lemma render_ops (g : Game) (d : Drawn) :
  fst (Draw.render g d) =
  fst (Draw.drawBorder (board g) d)
  ++ (if foodEaten g then Draw.eraseFood (board g) (oldFoodPos g) else [])
  ++ Draw.drawSnake (board g) (snake g)
  ++ Draw.drawFood (board g) (food g)
  ++ fst (Draw.displayHeader (board g) (score g) (highScore g)
                             (Snake.getLength (snake g)) (currentLevel g)
                             (snd (Draw.drawBorder (board g) d)))
  ++ (if paused g
      then [SetColor LIGHT_YELLOW;
            Gotoxy (Int.sub (Int.div (GameBoard.getWidth (board g)) 2) 3)
                   (Int.add (Int.div (GameBoard.getHeight (board g)) 2) 4);
            PutString "PAUSED"]
      else [])
  ++ (if gameOver g then Draw.showGameOverScreen g else []).
Proof.
  unfold Draw.render.
  destruct (Draw.drawBorder (board g) d) as [o1 d1]. cbn [fst snd].
  destruct (Draw.displayHeader _ _ _ _ _ d1) as [o5 d5]. reflexivity.
Qed.

Lemma render_drawn (g : Game) (d : Drawn) :
  snd (Draw.render g d) =
  snd (Draw.displayHeader (board g) (score g) (highScore g)
                          (Snake.getLength (snake g)) (currentLevel g)
                          (snd (Draw.drawBorder (board g) d))).
Proof.
  unfold Draw.render.
  destruct (Draw.drawBorder (board g) d) as [o1 d1]. cbn [fst snd].
  destruct (Draw.displayHeader _ _ _ _ _ d1) as [o5 d5]. reflexivity.
Qed.

Lemma valid_play_area (b : GameBoard) (p : Position) :
  drawable b -> GameBoard.isValidPosition b p = true ->
  play_area b (pos_x p + 1) (pos_y p + 4).
Proof.
  intros Hb Hp. destruct (cell_of_valid b p Hb Hp) as [_ [_ H]]. exact H.
Qed.

(** One character drawn at a position, if the position is on the board. *)
Lemma shown_after_eraseFood (b : GameBoard) (q : Position) (sc : Screen)
      (p : Position) :
  drawable b -> GameBoard.isValidPosition b p = true ->
  shown (paint (Draw.eraseFood b q) sc) p
  = if Position_eqb q p then " "%char else shown sc p.
Proof.
  intros Hb Hp. pose proof (head_cell_cond b q p Hb Hp) as Hc.
  unfold Draw.eraseFood.
  destruct (GameBoard.isValidPosition b q) eqn:Hq; cbn [andb] in Hc;
    rewrite <- Hc; [|reflexivity].
  unfold shown. cbn [paint paint_op put cell cursor_x cursor_y].
  rewrite (Z.eqb_sym (pos_x p + 1)), (Z.eqb_sym (pos_y p + 4)).
  reflexivity.
Qed.

Lemma shown_after_drawFood (b : GameBoard) (f : Food) (sc : Screen)
      (p : Position) :
  drawable b -> GameBoard.isValidPosition b p = true ->
  shown (paint (Draw.drawFood b f) sc) p
  = if Position_eqb (food_position f) p then food_symbol f else shown sc p.
Proof.
  intros Hb Hp.
  pose proof (head_cell_cond b (food_position f) p Hb Hp) as Hc.
  unfold Draw.drawFood, Food.getPosition. cbv zeta.
  destruct (GameBoard.isValidPosition b (food_position f)) eqn:Hq;
    cbn [andb] in Hc; rewrite <- Hc; [|reflexivity].
  unfold shown. cbn [paint paint_op put cell cursor_x cursor_y].
  rewrite (Z.eqb_sym (pos_x p + 1)), (Z.eqb_sym (pos_y p + 4)).
  reflexivity.
Qed.

(** A board cell after [render], while the game is neither paused nor
    over. *)
Lemma shown_after_render (g : Game) (d : Drawn) (sc : Screen)
      (p : Position) :
  console_fits (board g) ->
  GameBoard.isValidPosition (board g) p = true ->
  paused g = false -> gameOver g = false ->
  shown (paint (fst (Draw.render g d)) sc) p =
  if Position_eqb (food_position (food g)) p then food_symbol (food g)
  else if find_in (tl (body (snake g))) p then "o"%char
  else
    let erased :=
      if find_in (previousBody (snake g)) p
         && negb (find_in (body (snake g)) p)
      then " "%char
      else if foodEaten g && Position_eqb (oldFoodPos g) p then " "%char
           else shown sc p in
    match body (snake g) with
    | [] => erased
    | head :: _ =>
        if Position_eqb head p
        then Draw.head_glyph (direction (snake g)) else erased
    end.
Proof.
  intros Hfit Hp Hpaused Hover.
  pose proof (console_fits_drawable _ Hfit) as Hb.
  pose proof (valid_play_area _ _ Hb Hp) as Harea.
  rewrite render_ops, Hpaused, Hover. rewrite !app_nil_r.
  rewrite !paint_app.
  unfold shown at 1.
  rewrite leaves_cell
    by (apply displayHeader_leaves; [exact Hfit | left; exact Harea]).
  fold (shown (paint (Draw.drawFood (board g) (food g))
                 (paint (Draw.drawSnake (board g) (snake g))
                    (paint (if foodEaten g
                            then Draw.eraseFood (board g) (oldFoodPos g)
                            else [])
                       (paint (fst (Draw.drawBorder (board g) d)) sc)))) p).
  rewrite (shown_after_drawFood _ _ _ _ Hb Hp).
  destruct (Position_eqb (food_position (food g)) p); [reflexivity|].
  rewrite (shown_after_drawSnake _ _ _ _ Hb Hp). cbv zeta.
  assert (Hpre : shown (paint (if foodEaten g
                               then Draw.eraseFood (board g) (oldFoodPos g)
                               else [])
                          (paint (fst (Draw.drawBorder (board g) d)) sc)) p
                 = if foodEaten g && Position_eqb (oldFoodPos g) p
                   then " "%char else shown sc p).
  { assert (Hborder : shown (paint (fst (Draw.drawBorder (board g) d)) sc) p
                      = shown sc p).
    { unfold shown. apply leaves_cell.
      apply drawBorder_leaves; [exact Hfit | left; exact Harea]. }
    destruct (foodEaten g); cbn [andb].
    - rewrite (shown_after_eraseFood _ _ _ _ Hb Hp), Hborder. reflexivity.
    - cbn [paint]. exact Hborder. }
  rewrite Hpre. reflexivity.
Qed.

(** What a tick that leaves the game running keeps of the state before
    it, as far as the drawing goes. *)
Lemma update_alive_frame (fuel : nat) (g : Game) (r : RandStream)
      (g1 : Game) (r1 : RandStream) :
  Game.update fuel g r = Ok (g1, r1) ->
  gameOver g1 = false -> paused g1 = false ->
  board g1 = board g /\
  (previousBody (snake g1) = body (snake g) \/
   body (snake g1) = body (snake g)) /\
  ((foodEaten g1 = false /\ food g1 = food g) \/
   (foodEaten g1 = true /\ oldFoodPos g1 = food_position (food g))).
Proof.
  intros H Hover1 Hpaused1.
  destruct (gameOver g) eqn:Hover.
  { rewrite update_idle in H by (left; exact Hover).
    injection H as <- <-. congruence. }
  destruct (paused g) eqn:Hpaused.
  { rewrite update_idle in H by (right; exact Hpaused).
    injection H as <- <-. congruence. }
  destruct (update_needs_move fuel g r g1 r1 (conj Hover Hpaused) H)
    as [s' Hmove].
  assert (Hbody : previousBody s' = body (snake g) \/
                  body s' = body (snake g)).
  { destruct (Direction_eqb (direction (snake g)) STOP) eqn:Hd.
    - right. assert (Hs : direction (snake g) = STOP)
        by (destruct (direction (snake g)); try discriminate; reflexivity).
      rewrite (move_stopped _ Hs) in Hmove. injection Hmove as <-.
      reflexivity.
    - left. apply move_previousBody; [exact Hmove|].
      intros Hs. rewrite Hs in Hd. discriminate Hd. }
  rewrite (update_running fuel g r s' (conj Hover Hpaused) Hmove) in H.
  cbv zeta in H.
  destruct (negb (GameBoard.isValidPosition (board g) (Snake.getHead s')));
    [injection H as <- <-; discriminate Hover1|].
  destruct (Snake.checkSelfCollision s');
    [injection H as <- <-; discriminate Hover1|].
  destruct (Position_eqb (Snake.getHead s') (food_position (food g))).
  - destruct (Food.generateFood fuel (width (board g)) (height (board g))
                                (body s') (food g) r) as [[f r2]|e];
      [|discriminate].
    injection H as <- <-. game_fields.
    split; [reflexivity|]. split; [exact Hbody|].
    right. split; reflexivity.
  - injection H as <- <-. game_fields.
    split; [reflexivity|]. split; [exact Hbody|].
    left. split; reflexivity.
Qed.

Lemma processInput_previousBody (kb : Keyboard) (g : Game) :
  previousBody (snake (Game.processInput kb g)) = previousBody (snake g).
Proof.
  assert (Hset : forall dir,
    previousBody (Snake.setDirection dir (snake g))
    = previousBody (snake g)).
  { intros dir. unfold Snake.setDirection.
    match goal with |- context [if ?c then _ else _] => destruct c end;
      reflexivity. }
  unfold Game.processInput. destruct kb as [|key next]; [reflexivity|].
  repeat match goal with
         | |- context [if ?c then _ else _] => destruct c
         end;
    simpl; try reflexivity; apply Hset.
Qed.

Lemma console_fits_default : console_fits (mkGameBoard 30 20).
Proof. unfold console_fits, Int.max_int. simpl. lia. Qed.

(** X14. A frame shows the game.  Take a state at the top of the loop of
    [run] and a console that shows nothing on the board but, at most, the
    snake and the food of that state (a cleared console does).  If the
    game is neither over nor paused after [processInput] and [update],
    then after [render] every cell of the board shows the new state: [o]
    on the segments behind the head, the glyph of the direction on the
    head, the symbol of the food on the food, and a blank everywhere
    else. *)
Theorem X14_frame_shows_the_game (g : Game) (r : RandStream) (fuel : nat)
        (kb : Keyboard) (g1 : Game) (r1 : RandStream) (d : Drawn)
        (sc : Screen) :
  reachable g r ->
  tidy sc g ->
  Game.update fuel (Game.processInput kb g) r = Ok (g1, r1) ->
  gameOver g1 = false -> paused g1 = false ->
  screen_shows (paint (fst (Draw.render g1 d)) sc) g1.
Proof.
  intros Hreach Htidy Hupd Hover Hpaused.
  destruct (reachable_inv g r Hreach) as [Hinv Hr].
  pose proof (processInput_inv kb g Hinv) as Hinv'.
  destruct (update_inv fuel _ r g1 r1 Hinv' Hr Hupd) as [Hinv1 _].
  destruct Hinv1 as [Hboard1 [_ [_ [_ Halive1]]]].
  destruct (Halive1 Hover) as [Hnd [_ [_ Hfree]]].
  destruct (update_alive_frame fuel _ r g1 r1 Hupd Hover Hpaused)
    as [Hboard [Hprev Hfood]].
  destruct (processInput_frame kb g) as [Hb [_ [Hf [Hbd _]]]].
  rewrite Hb in Hprev. rewrite Hf in Hfood. rewrite Hbd in Hboard.
  assert (Hfit : console_fits (board g1))
    by (rewrite Hboard1; exact console_fits_default).
  intros p Hp.
  rewrite (shown_after_render g1 d sc p Hfit Hp Hpaused Hover). cbv zeta.
  split; [|split; [|split]].
  - intros Hin.
    assert (Hne : Position_eqb (food_position (food g1)) p = false).
    { apply Position_eqb_neq. intros E. rewrite <- E in Hin. apply Hfree.
      destruct (body (snake g1)); [destruct Hin | right; exact Hin]. }
    rewrite Hne. apply find_in_In in Hin. rewrite Hin. reflexivity.
  - intros Hhd.
    destruct (body (snake g1)) as [|head rest] eqn:Ebody; [discriminate|].
    injection Hhd as ->.
    assert (Hne : Position_eqb (food_position (food g1)) p = false).
    { apply Position_eqb_neq. intros E. apply Hfree. left. symmetry.
      exact E. }
    rewrite Hne. cbn [tl].
    assert (Hnot : find_in rest p = false).
    { apply find_in_not_In. inversion Hnd. assumption. }
    rewrite Hnot, Position_eqb_refl. reflexivity.
  - intros ->. rewrite Position_eqb_refl. reflexivity.
  - intros Hout Hne.
    assert (Hne' : Position_eqb (food_position (food g1)) p = false).
    { apply Position_eqb_neq. intros E. apply Hne. symmetry. exact E. }
    rewrite Hne'.
    assert (Htl : find_in (tl (body (snake g1))) p = false).
    { apply find_in_not_In. intros Hin. apply Hout.
      destruct (body (snake g1)); [destruct Hin | right; exact Hin]. }
    rewrite Htl.
    assert (Hbody : find_in (body (snake g1)) p = false)
      by (apply find_in_not_In; exact Hout).
    rewrite Hbody. cbn [negb]. rewrite andb_true_r.
    assert (Herased :
              (if find_in (previousBody (snake g1)) p then " "%char
               else if foodEaten g1 && Position_eqb (oldFoodPos g1) p
                    then " "%char else shown sc p) = " "%char).
    { destruct (find_in (previousBody (snake g1)) p) eqn:Hpb;
        [reflexivity|].
      destruct (foodEaten g1 && Position_eqb (oldFoodPos g1) p) eqn:Hold;
        [reflexivity|].
      apply Htidy.
      - rewrite <- Hboard. exact Hp.
      - destruct Hprev as [E|E]; rewrite <- E.
        + apply find_in_not_In. exact Hpb.
        + exact Hout.
      - destruct Hfood as [[_ E]|[Heaten E]].
        + rewrite <- E. exact Hne.
        + rewrite Heaten in Hold. cbn [andb] in Hold.
          apply Position_eqb_neq in Hold. rewrite <- E.
          intros E'. apply Hold. symmetry. exact E'. }
    destruct (body (snake g1)) as [|head rest]; [exact Herased|].
    destruct (Position_eqb head p) eqn:Eh; [|exact Herased].
    apply Position_eqb_eq in Eh. exfalso. apply Hout. left. exact Eh.
Qed.

(** ** The banner and the pause text *)

Lemma sub_small (a k : Z) :
  0 <= a <= Int.max_int -> 0 <= k <= Int.max_int -> Int.sub a k = a - k.
Proof.
  intros Ha Hk. unfold Int.sub. apply wrap_id.
  unfold Int.in_range, Int.min_int, Int.max_int in *. lia.
Qed.

Lemma half_bounds (a : Z) : 0 <= a -> 0 <= a / 2 /\ 2 * (a / 2) <= a.
Proof.
  intros Ha. split; [apply Z.div_pos; lia|].
  apply Z.mul_div_le. lia.
Qed.

(** Outside the play area nothing is drawn at a position. *)
Lemma eraseFood_leaves (b : GameBoard) (q : Position) (x y : Z) :
  drawable b -> ~ play_area b x y ->
  forall cx cy, leaves x y (Draw.eraseFood b q) cx cy.
Proof.
  intros Hb Hout cx cy. unfold Draw.eraseFood.
  destruct (GameBoard.isValidPosition b q) eqn:Hq; [|exact I].
  destruct (cell_of_valid b q Hb Hq) as [-> [-> Hin]].
  cbn [leaves]. split; [|exact I].
  intros [-> ->]. apply Hout. exact Hin.
Qed.

Lemma drawFood_leaves (b : GameBoard) (f : Food) (x y : Z) :
  drawable b -> ~ play_area b x y ->
  forall cx cy, leaves x y (Draw.drawFood b f) cx cy.
Proof.
  intros Hb Hout cx cy. unfold Draw.drawFood, Food.getPosition. cbv zeta.
  destruct (GameBoard.isValidPosition b (food_position f)) eqn:Hq;
    [|exact I].
  destruct (cell_of_valid b _ Hb Hq) as [-> [-> Hin]].
  cbn [leaves]. split; [|exact I].
  intros [-> ->]. apply Hout. exact Hin.
Qed.

Lemma cell_drawSnake_outside (b : GameBoard) (s : Snake) (sc : Screen)
      (x y : Z) :
  drawable b -> ~ play_area b x y ->
  cell (paint (Draw.drawSnake b s) sc) x y = cell sc x y.
Proof.
  intros Hb Hout. rewrite cell_after_drawSnake.
  rewrite (existsb_cells_outside b (fun _ => true) _ x y Hb Hout).
  rewrite (existsb_cells_outside b (fun q => negb (find_in (body s) q))
             _ x y Hb Hout).
  cbv zeta. destruct (body s) as [|head rest]; [reflexivity|].
  destruct (GameBoard.isValidPosition b head) eqn:Hh; [|reflexivity].
  destruct (cell_of_valid b head Hb Hh) as [-> [-> [Hx Hy]]]. simpl.
  destruct (Z.eqb_spec (pos_x head + 1) x), (Z.eqb_spec (pos_y head + 4) y);
    simpl; try reflexivity.
  exfalso. apply Hout. unfold play_area. lia.
Qed.

Lemma pause_text_leaves (b : GameBoard) (x y : Z) :
  console_fits b -> banner_rows y ->
  forall cx cy,
    leaves x y
           [SetColor LIGHT_YELLOW;
            Gotoxy (Int.sub (Int.div (GameBoard.getWidth b) 2) 3)
                   (Int.add (Int.div (GameBoard.getHeight b) 2) 4);
            PutString "PAUSED"] cx cy.
Proof.
  intros [Hw0 [Hw [Hh0 Hh]]] Hy cx cy.
  unfold GameBoard.getHeight. pose proof (half_bounds _ Hh0) as Hhalf.
  unfold Int.max_int in *.
  rewrite (div2_small (height b)) by (unfold Int.max_int; lia).
  rewrite (add_small (height b / 2) 4) by (unfold Int.max_int; lia).
  cbn [leaves]. unfold banner_rows in Hy. split; [lia | exact I].
Qed.

Lemma showGameOverScreen_leaves (g : Game) (x y : Z) :
  console_fits (board g) -> 2 <= height (board g) -> banner_rows y ->
  forall cx cy, leaves x y (Draw.showGameOverScreen g) cx cy.
Proof.
  intros [Hw0 [Hw [Hh0 Hh]]] H2 Hy cx cy.
  unfold Draw.showGameOverScreen, GameBoard.getHeight. cbv zeta.
  pose proof (half_bounds _ Hh0) as Hhalf.
  assert (H1 : 1 <= height (board g) / 2)
    by (apply Z.div_le_lower_bound; lia).
  unfold Int.max_int in *.
  rewrite (div2_small (height (board g))) by (unfold Int.max_int; lia).
  rewrite !add_small by (unfold Int.max_int; lia).
  cbn [leaves]. unfold banner_rows in Hy.
  repeat (split; [lia|]). exact I.
Qed.

Lemma drawBorder_headerDrawn (b : GameBoard) (d : Drawn) :
  headerDrawn (snd (Draw.drawBorder b d)) = headerDrawn d.
Proof. unfold Draw.drawBorder. destruct (borderDrawn d); reflexivity. Qed.

Lemma update_board (fuel : nat) (g : Game) (r : RandStream)
      (g1 : Game) (r1 : RandStream) :
  Game.update fuel g r = Ok (g1, r1) -> board g1 = board g.
Proof.
  intros H.
  destruct (gameOver g) eqn:Hover.
  { rewrite update_idle in H by (left; exact Hover).
    injection H as <- <-. reflexivity. }
  destruct (paused g) eqn:Hpaused.
  { rewrite update_idle in H by (right; exact Hpaused).
    injection H as <- <-. reflexivity. }
  destruct (update_needs_move fuel g r g1 r1 (conj Hover Hpaused) H)
    as [s' Hmove].
  rewrite (update_running fuel g r s' (conj Hover Hpaused) Hmove) in H.
  cbv zeta in H.
  destruct (negb (GameBoard.isValidPosition (board g) (Snake.getHead s')));
    [injection H as <- <-; reflexivity|].
  destruct (Snake.checkSelfCollision s');
    [injection H as <- <-; reflexivity|].
  destruct (Position_eqb (Snake.getHead s') (food_position (food g))).
  - destruct (Food.generateFood fuel (width (board g)) (height (board g))
                                (body s') (food g) r) as [[f r2]|e];
      [|discriminate].
    injection H as <- <-. reflexivity.
  - injection H as <- <-. reflexivity.
Qed.

(** [render] never clears the console. *)
Lemma existsb_flat_map_false {A : Type} (f : A -> list TermOp)
      (l : list A) :
  (forall a, existsb is_clear (f a) = false) ->
  existsb is_clear (flat_map f l) = false.
Proof.
  intros Hf. induction l as [|a l IH]; [reflexivity|].
  simpl flat_map. rewrite existsb_app, Hf, IH. reflexivity.
Qed.

Lemma render_no_clear (g : Game) (d : Drawn) :
  existsb is_clear (fst (Draw.render g d)) = false.
Proof.
  rewrite render_ops, !existsb_app.
  assert (Hdashes : forall n, existsb is_clear (Draw.dashes n) = false).
  { intros n. unfold Draw.dashes.
    induction (Z.to_nat n) as [|k IH]; [reflexivity | exact IH]. }
  assert (H1 : existsb is_clear (fst (Draw.drawBorder (board g) d)) = false).
  { unfold Draw.drawBorder. destruct (borderDrawn d); [reflexivity|].
    cbn [fst]. rewrite !existsb_app, !Hdashes.
    rewrite existsb_flat_map_false by (intros i; reflexivity).
    reflexivity. }
  assert (H2 : existsb is_clear
                 (if foodEaten g
                  then Draw.eraseFood (board g) (oldFoodPos g) else [])
               = false).
  { unfold Draw.eraseFood.
    destruct (foodEaten g); [|reflexivity].
    destruct (GameBoard.isValidPosition _ _); reflexivity. }
  assert (H3 : existsb is_clear (Draw.drawSnake (board g) (snake g))
               = false).
  { unfold Draw.drawSnake, Draw.drawSnake_erase, Draw.drawSnake_head,
      Draw.drawSnake_segments.
    rewrite !existsb_app.
    rewrite !existsb_flat_map_false.
    - destruct (Snake.getBody (snake g)) as [|head rest]; [reflexivity|].
      destruct (GameBoard.isValidPosition _ head); reflexivity.
    - intros q. destruct (GameBoard.isValidPosition _ q); reflexivity.
    - intros q. destruct (negb _); [|reflexivity].
      destruct (GameBoard.isValidPosition _ q); reflexivity. }
  assert (H4 : existsb is_clear (Draw.drawFood (board g) (food g)) = false).
  { unfold Draw.drawFood. cbv zeta.
    destruct (GameBoard.isValidPosition _ _); reflexivity. }
  assert (H5 : forall d',
             existsb is_clear
               (fst (Draw.displayHeader (board g) (score g) (highScore g)
                       (Snake.getLength (snake g)) (currentLevel g) d'))
             = false).
  { intros d'. unfold Draw.displayHeader. cbn [fst].
    rewrite !existsb_app.
    repeat match goal with
           | |- context [if negb ?c then _ else _] => destruct (negb c)
           end; reflexivity. }
  rewrite H1, H2, H3, H4, H5.
  destruct (paused g), (gameOver g); reflexivity.
Qed.

Lemma render_headerDrawn (g : Game) (d : Drawn) :
  headerDrawn (snd (Draw.render g d)) = true.
Proof. rewrite render_drawn. reflexivity. Qed.

(** Clearing the console at the end of a drawing blanks every cell. *)
Lemma paint_then_clear (ops : list TermOp) (sc : Screen) (x y : Z) :
  cell (paint (ops ++ [ClearScreen]) sc) x y = " "%char.
Proof. rewrite paint_app. reflexivity. Qed.

Lemma pause_letter_get (i : Z) :
  0 <= i < 6 ->
  String.get (Z.to_nat i) "PAUSED" = Some (pause_letter i).
Proof.
  intros Hi.
  assert (H : i = 0 \/ i = 1 \/ i = 2 \/ i = 3 \/ i = 4 \/ i = 5) by lia.
  destruct H as [->|[->|[->|[->|[->| ->]]]]]; reflexivity.
Qed.

(** The cells [render] writes PAUSED into. *)
Lemma shown_pause_letter (g : Game) (d : Drawn) (sc : Screen) (i : Z) :
  console_fits (board g) ->
  paused g = true -> gameOver g = false ->
  0 <= i < 6 ->
  shown (paint (fst (Draw.render g d)) sc) (pause_cell (board g) i)
  = pause_letter i.
Proof.
  intros [Hw0 [Hw [Hh0 Hh]]] Hpaused Hover Hi.
  rewrite render_ops, Hpaused, Hover, app_nil_r, !paint_app.
  unfold GameBoard.getWidth, GameBoard.getHeight, Int.max_int in *.
  pose proof (half_bounds _ Hw0) as Hwhalf.
  pose proof (half_bounds _ Hh0) as Hhhalf.
  rewrite (div2_small (width (board g))) by (unfold Int.max_int; lia).
  rewrite (div2_small (height (board g))) by (unfold Int.max_int; lia).
  rewrite sub_small by (unfold Int.max_int; lia).
  rewrite add_small by (unfold Int.max_int; lia).
  cbn [paint paint_op]. unfold shown, pause_cell. cbn [pos_x pos_y].
  rewrite put_string_cell. cbn [cursor_x cursor_y].
  rewrite Z.eqb_refl. cbn [andb].
  destruct (Z.leb_spec (width (board g) / 2 - 3)
                       (width (board g) / 2 - 4 + i + 1)); [|lia].
  replace (width (board g) / 2 - 4 + i + 1 - (width (board g) / 2 - 3))
    with i by lia.
  rewrite (pause_letter_get i Hi). reflexivity.
Qed.

(** X16. The text PAUSED is never erased.  While the game is paused,
    [render] writes the six letters into the middle row of the board.  A
    later frame of the running game leaves a letter where it is unless
    the cell belongs to the snake, to the body of the previous frame, to
    the food, or to the food just eaten: nothing in [render] blanks the
    text when the game resumes. *)
Theorem X16_pause_text_stays (g g' : Game) (d d' : Drawn) (sc : Screen)
        (i : Z) :
  console_fits (board g) -> board g' = board g ->
  paused g = true -> gameOver g = false ->
  paused g' = false -> gameOver g' = false ->
  0 <= i < 6 ->
  GameBoard.isValidPosition (board g) (pause_cell (board g) i) = true ->
  ~ In (pause_cell (board g) i) (body (snake g')) ->
  ~ In (pause_cell (board g) i) (previousBody (snake g')) ->
  pause_cell (board g) i <> food_position (food g') ->
  (foodEaten g' = true -> pause_cell (board g) i <> oldFoodPos g') ->
  let sc1 := paint (fst (Draw.render g d)) sc in
  let sc2 := paint (fst (Draw.render g' d')) sc1 in
  shown sc1 (pause_cell (board g) i) = pause_letter i /\
  shown sc2 (pause_cell (board g) i) = pause_letter i.
Proof.
  intros Hfit Hboard Hpaused Hover Hpaused' Hover' Hi Hvalid Hbody Hprev
         Hfood Hold sc1 sc2.
  assert (H1 : shown sc1 (pause_cell (board g) i) = pause_letter i)
    by (apply shown_pause_letter; assumption).
  split; [exact H1|].
  unfold sc2. rewrite shown_after_render;
    [ | rewrite Hboard; exact Hfit | rewrite Hboard; exact Hvalid
      | exact Hpaused' | exact Hover' ].
  cbv zeta.
  assert (E1 : Position_eqb (food_position (food g')) (pause_cell (board g) i)
               = false).
  { apply Position_eqb_neq. intros E. apply Hfood. symmetry. exact E. }
  assert (E2 : find_in (tl (body (snake g'))) (pause_cell (board g) i)
               = false).
  { apply find_in_not_In. intros Hin. apply Hbody.
    destruct (body (snake g')); [destruct Hin | right; exact Hin]. }
  assert (E3 : find_in (previousBody (snake g')) (pause_cell (board g) i)
               = false) by (apply find_in_not_In; exact Hprev).
  assert (E4 : foodEaten g'
               && Position_eqb (oldFoodPos g') (pause_cell (board g) i)
               = false).
  { destruct (foodEaten g'); [|reflexivity]. cbn [andb].
    apply Position_eqb_neq. intros E. apply (Hold eq_refl). symmetry.
    exact E. }
  rewrite E1, E2, E3, E4. cbn [andb].
  destruct (body (snake g')) as [|head rest]; [exact H1|].
  destruct (Position_eqb head (pause_cell (board g) i)) eqn:Eh; [|exact H1].
  apply Position_eqb_eq in Eh. exfalso. apply Hbody. left. exact Eh.
Qed.

(** ** Examples for the drawing *)

Lemma X13_drawSnake_shows_the_body_witness :
  drawable (mkGameBoard 30 20) /\
  shown (paint (Draw.drawSnake (mkGameBoard 30 20) fed_snake) blank_screen)
        (mkPosition 11 10) = ">"%char /\
  shown (paint (Draw.drawSnake (mkGameBoard 30 20) fed_snake) blank_screen)
        (mkPosition 10 10) = "o"%char /\
  shown (paint (Draw.drawSnake (mkGameBoard 30 20) fed_snake) blank_screen)
        (mkPosition 8 10) = " "%char.
Proof.
  assert (Hb : drawable (mkGameBoard 30 20))
    by (unfold drawable, Int.max_int; simpl; lia).
  pose proof (X13_drawSnake_shows_the_body (mkGameBoard 30 20) fed_snake
                                           blank_screen Hb) as [Hcells _].
  split; [exact Hb|].
  destruct (Hcells (mkPosition 11 10) eq_refl) as [_ [Hhead _]].
  destruct (Hcells (mkPosition 10 10) eq_refl) as [Hseg _].
  destruct (Hcells (mkPosition 8 10) eq_refl) as [_ [_ [Herased _]]].
  split; [|split].
  - apply Hhead; [reflexivity|]. apply find_in_not_In. reflexivity.
  - apply Hseg. left. reflexivity.
  - apply Herased.
    + apply find_in_not_In. reflexivity.
    + right. right. left. reflexivity.
Defined.

Lemma X14_frame_shows_the_game_witness :
  reachable initial_game rand_zero /\
  tidy blank_screen initial_game /\
  Game.update 0 (Game.processInput (Pressed 119 0) initial_game) rand_zero
  = Ok (up_game, rand_zero) /\
  gameOver up_game = false /\ paused up_game = false /\
  screen_shows (paint (fst (Draw.render up_game Draw.new)) blank_screen)
               up_game.
Proof.
  assert (Hreach : reachable initial_game rand_zero)
    by exact initial_game_reachable.
  assert (Htidy : tidy blank_screen initial_game)
    by (intros p _ _ _; reflexivity).
  assert (Hupd : Game.update 0 (Game.processInput (Pressed 119 0)
                                                  initial_game) rand_zero
                 = Ok (up_game, rand_zero)) by reflexivity.
  assert (Hover : gameOver up_game = false) by reflexivity.
  assert (Hpaused : paused up_game = false) by reflexivity.
  split; [exact Hreach|]. split; [exact Htidy|]. split; [exact Hupd|].
  split; [exact Hover|]. split; [exact Hpaused|].
  exact (X14_frame_shows_the_game initial_game rand_zero 0 (Pressed 119 0)
           up_game rand_zero Draw.new blank_screen Hreach Htidy Hupd Hover
           Hpaused).
Defined.

Lemma X16_pause_text_stays_witness :
  console_fits (board paused_game) /\
  board resumed_game = board paused_game /\
  paused paused_game = true /\ gameOver paused_game = false /\
  paused resumed_game = false /\ gameOver resumed_game = false /\
  0 <= 5 < 6 /\
  pause_cell (board paused_game) 5 = mkPosition 16 10 /\
  shown (paint (fst (Draw.render resumed_game
                                 (snd (Draw.render paused_game Draw.new))))
               (paint (fst (Draw.render paused_game Draw.new)) blank_screen))
        (mkPosition 16 10) = "D"%char.
Proof.
  assert (Hfit : console_fits (board paused_game))
    by exact console_fits_default.
  assert (Hboard : board resumed_game = board paused_game) by reflexivity.
  assert (Hi : 0 <= 5 < 6) by lia.
  assert (Hcell : pause_cell (board paused_game) 5 = mkPosition 16 10)
    by reflexivity.
  assert (Hbody : ~ In (pause_cell (board paused_game) 5)
                       (body (snake resumed_game)))
    by (apply find_in_not_In; reflexivity).
  assert (Hprev : ~ In (pause_cell (board paused_game) 5)
                       (previousBody (snake resumed_game)))
    by (apply find_in_not_In; reflexivity).
  assert (Hfood : pause_cell (board paused_game) 5
                  <> food_position (food resumed_game))
    by (apply Position_eqb_neq; reflexivity).
  assert (Hold : foodEaten resumed_game = true ->
                 pause_cell (board paused_game) 5 <> oldFoodPos resumed_game)
    by (intros _; apply Position_eqb_neq; reflexivity).
  destruct (X16_pause_text_stays paused_game resumed_game Draw.new
              (snd (Draw.render paused_game Draw.new)) blank_screen 5
              Hfit Hboard eq_refl eq_refl eq_refl eq_refl Hi eq_refl
              Hbody Hprev Hfood Hold) as [_ Hstays].
  split; [exact Hfit|]. split; [exact Hboard|].
  split; [reflexivity|]. split; [reflexivity|].
  split; [reflexivity|]. split; [reflexivity|].
  split; [exact Hi|]. split; [exact Hcell|].
  exact Hstays.
Defined.

(** * Input from a terminal ([src/unnamed/part_000]) *)

Lemma setDirection_agree (dir : Direction) (s : Snake) :
  SnakeCpp.Snake.setDirection dir s = Snake.setDirection dir s.
Proof. reflexivity. Qed.

(** A byte that is not ESC is handled as [src/snakeCycle.cpp] handles a
    key that is no prefix of an extended key. *)
Lemma posix_plain_key (typed8 typed4 : list Z) (q : Posix.Stdin) (g : Game)
      (key next : Z) :
  key <> 27 -> key <> 0 -> key <> 224 ->
  Posix.Game.processInput typed8 typed4 (key :: q) g
  = (Game.processInput (Pressed key next) g, q).
Proof.
  intros H27 H0 H224.
  unfold Posix.Game.processInput, Game.processInput.
  cbn [Posix.Console.kbhit Posix.Console.getch negb].
  apply Z.eqb_neq in H27, H0, H224. rewrite H27, H0, H224. cbn [orb].
  cbv zeta. rewrite !setDirection_agree.
  repeat match goal with
         | |- context [if ?c then _ else _] => destruct c
         end; reflexivity.
Qed.

Lemma posix_arrow (typed8 typed4 : list Z) (q : Posix.Stdin) (g : Game)
      (d : Direction) :
  d <> STOP ->
  Posix.Game.processInput typed8 typed4 (27 :: 91 :: arrow_byte d :: q) g
  = (Game.processInput (Pressed 224 (arrow_code d)) g,
     (q ++ typed8) ++ typed4).
Proof.
  intros Hd. destruct d; try (exfalso; apply Hd; reflexivity); reflexivity.
Qed.

Lemma posix_escape (typed8 typed4 : list Z) (q : Posix.Stdin) (g : Game)
      (b : Z) :
  b <> 91 ->
  Posix.Game.processInput typed8 typed4 (27 :: b :: q) g = (g, q ++ typed8).
Proof.
  intros Hb. unfold Posix.Game.processInput.
  cbn [Posix.Console.kbhit Posix.Console.getch Posix.Console.sleep negb app
       Z.eqb Pos.eqb].
  apply Z.eqb_neq in Hb. rewrite Hb. reflexivity.
Qed.

(** X17. Keys on a terminal.  [processInput] of [part_000] reads a byte
    other than ESC, 0 and 224 exactly as [snakeCycle.cpp] reads that key.
    A whole arrow sequence in the queue (ESC, bracket, A/B/C/D) steers as
    the arrow key does there: up, down, right, left.  ESC followed by any
    byte but the bracket consumes that byte and does nothing, so a key
    pressed right after ESC is lost.  And a sequence that arrives late is
    not recognised: ESC alone is consumed, the bracket is then skipped,
    and the last byte is read as a letter, so that a late up arrow (A)
    steers LEFT and a late left arrow (D) steers RIGHT. *)
Theorem X17_posix_arrow_keys (typed8 typed4 : list Z) (q : Posix.Stdin)
        (g : Game) :
  (forall key next,
      key <> 27 -> key <> 0 -> key <> 224 ->
      Posix.Game.processInput typed8 typed4 (key :: q) g
      = (Game.processInput (Pressed key next) g, q)) /\
  (forall d,
      d <> STOP ->
      Posix.Game.processInput typed8 typed4 (27 :: 91 :: arrow_byte d :: q) g
      = (Game.processInput (Pressed 224 (arrow_code d)) g,
         (q ++ typed8) ++ typed4)) /\
  (forall b,
      b <> 91 ->
      Posix.Game.processInput typed8 typed4 (27 :: b :: q) g
      = (g, q ++ typed8)) /\
  Posix.Game.processInput [] typed4 [27] g = (g, []) /\
  (forall d,
      d <> STOP ->
      Posix.Game.processInput typed8 typed4 (91 :: arrow_byte d :: q) g
      = (g, arrow_byte d :: q) /\
      Posix.Game.processInput typed8 typed4 (arrow_byte d :: q) g
      = (Game.processInput (Pressed (arrow_byte d) 0) g, q)) /\
  Game.processInput (Pressed (arrow_byte UP) 0) g
  = set_snake (Snake.setDirection LEFT (snake g)) g /\
  Game.processInput (Pressed (arrow_byte LEFT) 0) g
  = set_snake (Snake.setDirection RIGHT (snake g)) g /\
  Game.processInput (Pressed (arrow_byte DOWN) 0) g = g /\
  Game.processInput (Pressed (arrow_byte RIGHT) 0) g = g.
Proof.
  split; [intros key next; apply posix_plain_key|].
  split; [intros d; apply posix_arrow|].
  split; [intros b; apply posix_escape|].
  split; [reflexivity|].
  split.
  - intros d Hd. split.
    + destruct d; try (exfalso; apply Hd; reflexivity); reflexivity.
    + apply posix_plain_key; destruct d; simpl; try discriminate;
        exfalso; apply Hd; reflexivity.
  - split; [reflexivity|]. split; [reflexivity|].
    split; reflexivity.
Qed.

Lemma X17_posix_arrow_keys_witness :
  113 <> 91 /\ UP <> STOP /\
  Posix.Game.processInput [] [] [27; 113] initial_game = (initial_game, []) /\
  Posix.Game.processInput [] [] [27; 91; 65] initial_game
  = (Game.processInput (Pressed 224 72) initial_game, []) /\
  Posix.Game.processInput [] [] [65] initial_game
  = (Game.processInput (Pressed 65 0) initial_game, []).
Proof.
  assert (Hq : 113 <> 91) by discriminate.
  assert (Hd : UP <> STOP) by discriminate.
  destruct (X17_posix_arrow_keys [] [] [] initial_game)
    as [_ [Harrow [Hesc [_ [Hlate _]]]]].
  split; [exact Hq|]. split; [exact Hd|].
  split; [exact (Hesc 113 Hq)|].
  split; [exact (Harrow UP Hd)|].
  exact (proj2 (Hlate UP Hd)).
Defined.

(** ** [handleGameOver] of [part_000] *)

Lemma flush_nil (q : Posix.Stdin) : Posix.Game.flush q = [].
Proof. induction q as [|c q IH]; [reflexivity | exact IH]. Qed.

Lemma posix_saveHighScore_max (g : Game) :
  highScore (Posix.Game.saveHighScore g) = Z.max (score g) (highScore g) /\
  gameOver (Posix.Game.saveHighScore g) = gameOver g /\
  gameRunning (Posix.Game.saveHighScore g) = gameRunning g.
Proof.
  unfold Posix.Game.saveHighScore.
  destruct (Z.gtb_spec (score g) (highScore g)); game_fields;
    (split; [lia | split; reflexivity]).
Qed.

Lemma posix_restart_fields (fuel : nat) (g : Game) (r : RandStream)
      (g' : Game) (r' : RandStream) :
  Posix.Game.restart fuel g r = Ok (g', r') ->
  gameOver g' = false /\ highScore g' = highScore g /\
  gameRunning g' = gameRunning g /\ score g' = 0.
Proof.
  unfold Posix.Game.restart, bind. cbv zeta.
  destruct (SnakeCpp.Food.generateFood _ _ _ _ _ r) as [[f r2]|e];
    [|discriminate].
  unfold ret. intros H. injection H as <- <-. game_fields.
  split; [reflexivity|]. split; [reflexivity|]. split; reflexivity.
Qed.

(** The loop ends only by a restart or by quitting. *)
Lemma posix_loop_outcome (fuel : nat) (polls : nat) :
  forall typed q g r g' q' r',
    Posix.Game.handleGameOver_loop polls fuel typed q g r = Ok (g', q', r') ->
    highScore g' = highScore g /\
    (gameOver g' = false \/ gameRunning g' = false).
Proof.
  induction polls as [|polls IH]; intros typed q g r g' q' r' H;
    [discriminate H|].
  cbn [Posix.Game.handleGameOver_loop] in H.
  destruct q as [|c q]; cbn [Posix.Console.kbhit Posix.Console.getch] in H.
  - apply IH in H. exact H.
  - destruct (c =? -1); [apply IH in H; exact H|].
    cbv zeta in H.
    destruct (tolower c =? 114).
    + unfold bind in H.
      destruct (Posix.Game.restart fuel g r) as [[g2 r2]|e] eqn:E;
        [|discriminate].
      unfold ret in H. injection H as <- <- <-.
      destruct (posix_restart_fields _ _ _ _ _ E) as [Ho [Hh _]].
      split; [exact Hh | left; exact Ho].
    + destruct (tolower c =? 113).
      * unfold ret in H. injection H as <- <- <-. game_fields.
        split; [reflexivity | right; reflexivity].
      * apply IH in H. exact H.
Qed.

(** Bytes that decide nothing are skipped, one pass each. *)
Lemma posix_loop_skip (fuel : nat) (pre : list Z) :
  Forall undecided pre ->
  forall polls typed rest g,
    Posix.Game.handleGameOver_loop (List.length pre + polls) fuel typed
                                   (pre ++ rest) g
    = Posix.Game.handleGameOver_loop polls fuel typed rest g.
Proof.
  induction 1 as [|c pre [[Hc0 _] [Hr Hq]] _ IH]; intros polls typed rest g;
    [reflexivity|].
  cbn [List.length Nat.add app Posix.Game.handleGameOver_loop
       Posix.Console.kbhit Posix.Console.getch].
  assert (E1 : (c =? -1) = false) by (apply Z.eqb_neq; lia).
  apply Z.eqb_neq in Hr, Hq. rewrite E1. cbv zeta. rewrite Hr, Hq.
  apply IH.
Qed.

(** Sleeps during which nothing is typed, one pass each. *)
Lemma posix_loop_silent (fuel : nat) (k : nat) :
  forall polls typed g,
    (forall j, (j < k)%nat -> typed j = []) ->
    Posix.Game.handleGameOver_loop (k + polls) fuel typed [] g
    = Posix.Game.handleGameOver_loop polls fuel (fun n => typed (k + n)%nat)
                                     [] g.
Proof.
  induction k as [|k IH]; intros polls typed g Hsilent; [reflexivity|].
  cbn [Nat.add Posix.Game.handleGameOver_loop Posix.Console.kbhit
       Posix.Console.sleep app].
  rewrite (Hsilent 0%nat) by lia.
  rewrite IH by (intros j Hj; apply Hsilent; lia).
  reflexivity.
Qed.

(** X18. [handleGameOver] of [part_000] waits for r or q.  On a game that
    is over, the bytes typed before the call are discarded; the high
    score becomes the larger of score and high score; and the call
    returns only once the game has been restarted or [gameRunning] has
    been cleared, never with the game still over and running.  It does
    return: if after some sleeps in which nothing is typed the player
    types bytes that are neither r nor q and then q (or r), it returns
    with [gameRunning] cleared (or with the game [restart] builds), the
    bytes typed after that one left in the queue. *)
Theorem X18_posix_handleGameOver_waits (polls fuel : nat)
        (typed : nat -> list Z) (q : Posix.Stdin) (g : Game)
        (r : RandStream) :
  gameOver g = true ->
  Posix.Game.handleGameOver polls fuel typed q g r
  = Posix.Game.handleGameOver polls fuel typed [] g r /\
  (forall g' q' r',
      Posix.Game.handleGameOver polls fuel typed q g r = Ok (g', q', r') ->
      highScore g' = Z.max (score g) (highScore g) /\
      (gameOver g' = false \/ gameRunning g' = false)) /\
  (forall k pre c post more,
      (forall j, (j < k)%nat -> typed j = []) ->
      typed k = pre ++ c :: post ->
      Forall undecided pre -> byte c ->
      (tolower c = 113 ->
       Posix.Game.handleGameOver (k + List.length pre + 2 + more) fuel typed
                                 q g r
       = Ok (set_gameRunning false (Posix.Game.saveHighScore g), post, r)) /\
      (tolower c = 114 ->
       forall g' r',
         Posix.Game.restart fuel (Posix.Game.saveHighScore g) r
         = Ok (g', r') ->
         Posix.Game.handleGameOver (k + List.length pre + 2 + more) fuel
                                   typed q g r
         = Ok (g', post, r'))).
Proof.
  intros Hover.
  assert (Hunfold : forall n q0,
             Posix.Game.handleGameOver n fuel typed q0 g
             = Posix.Game.handleGameOver_loop
                 n fuel typed [] (Posix.Game.saveHighScore g)).
  { intros n q0. unfold Posix.Game.handleGameOver.
    rewrite Hover, flush_nil. reflexivity. }
  split; [rewrite !Hunfold; reflexivity|]. split.
  - intros g' q' r' H. rewrite Hunfold in H.
    apply posix_loop_outcome in H. destruct H as [Hh Hend].
    destruct (posix_saveHighScore_max g) as [Hmax _].
    split; [rewrite Hh; exact Hmax | exact Hend].
  - intros k pre c post more Hsilent Htyped Hpre [Hc0 _].
    assert (Hreach :
              Posix.Game.handleGameOver (k + List.length pre + 2 + more)
                                        fuel typed q g
              = Posix.Game.handleGameOver_loop
                  (S more) fuel (fun n => typed (k + S n)%nat)
                  (c :: post) (Posix.Game.saveHighScore g)).
    { rewrite Hunfold.
      replace (k + List.length pre + 2 + more)%nat
        with (k + S (List.length pre + S more))%nat by lia.
      rewrite (posix_loop_silent fuel k _ typed _ Hsilent).
      cbn [Posix.Game.handleGameOver_loop Posix.Console.kbhit
           Posix.Console.sleep app].
      rewrite Nat.add_0_r, Htyped.
      rewrite (posix_loop_skip fuel pre Hpre). reflexivity. }
    assert (E1 : (c =? -1) = false) by (apply Z.eqb_neq; lia).
    split.
    + intros Hq. rewrite Hreach.
      cbn [Posix.Game.handleGameOver_loop Posix.Console.kbhit
           Posix.Console.getch].
      rewrite E1. cbv zeta. rewrite Hq. reflexivity.
    + intros Hr g' r' Hrestart. rewrite Hreach.
      cbn [Posix.Game.handleGameOver_loop Posix.Console.kbhit
           Posix.Console.getch].
      rewrite E1. cbv zeta. rewrite Hr. cbn [Z.eqb Pos.eqb].
      unfold bind. rewrite Hrestart. reflexivity.
Qed.

Lemma X18_posix_handleGameOver_waits_witness :
  gameOver crashed_game = true /\
  (forall j, (j < 1)%nat -> typed_xqw j = []) /\
  typed_xqw 1 = [120] ++ 113 :: [119] /\
  Forall undecided [120] /\ byte 113 /\ tolower 113 = 113 /\
  Posix.Game.handleGameOver 4 0 typed_xqw [114] crashed_game rand_zero
  = Ok (set_gameRunning false (Posix.Game.saveHighScore crashed_game),
        [119], rand_zero).
Proof.
  assert (Hover : gameOver crashed_game = true) by reflexivity.
  assert (Hsilent : forall j, (j < 1)%nat -> typed_xqw j = []).
  { intros j Hj. destruct j as [|j]; [reflexivity | lia]. }
  assert (Htyped : typed_xqw 1 = [120] ++ 113 :: [119]) by reflexivity.
  assert (Hpre : Forall undecided [120]).
  { constructor; [|constructor].
    unfold undecided, byte. split; [lia|]. split; discriminate. }
  assert (Hc : byte 113) by (unfold byte; lia).
  assert (Hq : tolower 113 = 113) by reflexivity.
  destruct (X18_posix_handleGameOver_waits 4 0 typed_xqw [114] crashed_game
              rand_zero Hover) as [_ [_ Hlive]].
  destruct (Hlive 1%nat [120] 113 [119] 0%nat Hsilent Htyped Hpre Hc)
    as [Hquit _].
  split; [exact Hover|]. split; [exact Hsilent|]. split; [exact Htyped|].
  split; [exact Hpre|]. split; [exact Hc|]. split; [exact Hq|].
  exact (Hquit Hq).
Defined.

(** * The border *)

Lemma paint_dashes (k : nat) :
  forall sc x y,
    cell (paint (repeat (PutString "-") k) sc) x y
    = (if (y =? cursor_y sc)
          && ((cursor_x sc <=? x) && (x <? cursor_x sc + Z.of_nat k))
       then "-"%char else cell sc x y) /\
    cursor_x (paint (repeat (PutString "-") k) sc)
    = cursor_x sc + Z.of_nat k /\
    cursor_y (paint (repeat (PutString "-") k) sc) = cursor_y sc.
Proof.
  induction k as [|k IH]; intros sc x y.
  - cbn [repeat paint]. split; [|split; [simpl; lia | reflexivity]].
    destruct (y =? cursor_y sc); [|reflexivity]. cbn [andb].
    destruct (Z.leb_spec (cursor_x sc) x), (Z.ltb_spec x (cursor_x sc + Z.of_nat 0));
      try reflexivity. simpl in *. lia.
  - cbn [repeat paint paint_op put_string].
    destruct (IH (put "-" sc) x y) as [Hc [Hx Hy]].
    rewrite Hc, Hx, Hy. cbn [put cursor_x cursor_y cell].
    split; [|split; [lia | reflexivity]].
    destruct (Z.eqb_spec y (cursor_y sc)); cbn [andb];
      [|rewrite andb_false_r; reflexivity].
    rewrite andb_true_r.
    destruct (Z.leb_spec (cursor_x sc + 1) x),
             (Z.ltb_spec x (cursor_x sc + 1 + Z.of_nat k)),
             (Z.leb_spec (cursor_x sc) x),
             (Z.ltb_spec x (cursor_x sc + Z.of_nat (S k))),
             (Z.eqb_spec x (cursor_x sc));
      cbn [andb]; try reflexivity; lia.
Qed.

(** One horizontal edge: a corner, the dashes, a corner. *)
Lemma paint_edge (w : Z) (sc : Screen) (x y : Z) :
  0 <= w ->
  cell (paint (PutString "+" :: Draw.dashes w ++ [PutString "+"]) sc) x y
  = if y =? cursor_y sc
    then if (x =? cursor_x sc) || (x =? cursor_x sc + w + 1) then "+"%char
         else if (cursor_x sc + 1 <=? x) && (x <=? cursor_x sc + w)
              then "-"%char else cell sc x y
    else cell sc x y.
Proof.
  intros Hw. cbn [paint paint_op put_string]. rewrite paint_app.
  unfold Draw.dashes.
  destruct (paint_dashes (Z.to_nat w) (put "+" sc) x y) as [Hc [Hx Hy]].
  cbn [paint paint_op put_string put cell]. rewrite Hx, Hy, Hc.
  cbn [put cursor_x cursor_y cell]. rewrite Z2Nat.id by lia.
  destruct (Z.eqb_spec y (cursor_y sc)); cbn [andb];
    [|rewrite !andb_false_r; reflexivity].
  rewrite !andb_true_r.
  destruct (Z.eqb_spec x (cursor_x sc + 1 + w)),
           (Z.eqb_spec x (cursor_x sc)),
           (Z.eqb_spec x (cursor_x sc + w + 1)),
           (Z.leb_spec (cursor_x sc + 1) x),
           (Z.ltb_spec x (cursor_x sc + 1 + w)),
           (Z.leb_spec x (cursor_x sc + w));
    cbn [andb orb]; try reflexivity; lia.
Qed.

(** The vertical edges of the rows [s], ..., [s + k - 1]. *)
Lemma paint_sides (b : GameBoard) (k : nat) :
  forall s sc x y,
    0 <= width b -> width b + 1 <= Int.max_int ->
    Z.of_nat (s + k) + 4 <= Int.max_int ->
    cell (paint (flat_map
                   (fun i => [Gotoxy 0 (Int.add 4 i); PutString "|";
                              Gotoxy (Int.add (width b) 1) (Int.add 4 i);
                              PutString "|"])
                   (map Z.of_nat (seq s k))) sc) x y
    = if ((4 + Z.of_nat s <=? y) && (y <? 4 + Z.of_nat s + Z.of_nat k))
         && ((x =? 0) || (x =? width b + 1))
      then "|"%char else cell sc x y.
Proof.
  induction k as [|k IH]; intros s sc x y Hw0 Hw Hh.
  - cbn [seq map flat_map paint].
    destruct (Z.leb_spec (4 + Z.of_nat s) y),
             (Z.ltb_spec y (4 + Z.of_nat s + Z.of_nat 0));
      cbn [andb]; try reflexivity. simpl in *. lia.
  - cbn [seq map]. simpl flat_map.
    rewrite (add_small (width b) 1) by lia.
    rewrite (add_small 4 (Z.of_nat s)) by lia.
    cbn [app paint paint_op put_string put cursor_x cursor_y cell].
    pose proof (IH (S s)) as IH'.
    rewrite (add_small (width b) 1) in IH' by lia.
    rewrite IH' by (try assumption; lia).
    cbn [put cell cursor_x cursor_y].
    destruct (Z.leb_spec (4 + Z.of_nat (S s)) y),
             (Z.ltb_spec y (4 + Z.of_nat (S s) + Z.of_nat k)),
             (Z.leb_spec (4 + Z.of_nat s) y),
             (Z.ltb_spec y (4 + Z.of_nat s + Z.of_nat (S k))),
             (Z.eqb_spec x 0), (Z.eqb_spec x (width b + 1)),
             (Z.eqb_spec y (4 + Z.of_nat s));
      cbn [andb orb]; try reflexivity; lia.
Qed.

Lemma drawBorder_shape (b : GameBoard) (d : Drawn) :
  borderDrawn d = false ->
  fst (Draw.drawBorder b d)
  = [SetColor CYAN; Gotoxy 0 3]
    ++ (PutString "+" :: Draw.dashes (width b) ++ [PutString "+"])
    ++ flat_map (fun i => [Gotoxy 0 (Int.add 4 i); PutString "|";
                           Gotoxy (Int.add (width b) 1) (Int.add 4 i);
                           PutString "|"])
                (map Z.of_nat (seq 0 (Z.to_nat (height b))))
    ++ [Gotoxy 0 (Int.add 4 (height b))]
    ++ (PutString "+" :: Draw.dashes (width b) ++ [PutString "+"]).
Proof.
  intros Hd. unfold Draw.drawBorder. rewrite Hd. cbn [fst app].
  rewrite <- !app_assoc. reflexivity.
Qed.

(** Every cell of the console after the first [drawBorder]. *)
Lemma cell_after_drawBorder (b : GameBoard) (d : Drawn) (sc : Screen)
      (x y : Z) :
  console_fits b -> borderDrawn d = false ->
  cell (paint (fst (Draw.drawBorder b d)) sc) x y
  = match border_glyph b x y with
    | Some c => c
    | None => cell sc x y
    end.
Proof.
  intros [Hw0 [Hw [Hh0 Hh]]] Hd.
  unfold Int.max_int in *.
  rewrite (drawBorder_shape b d Hd), !paint_app.
  rewrite (add_small 4 (height b)) by (unfold Int.max_int; lia).
  change (paint [SetColor CYAN; Gotoxy 0 3] sc)
    with (mkScreen 0 3 (cell sc)).
  rewrite (paint_edge (width b)) by lia.
  match goal with
  | |- context [paint [Gotoxy ?gx ?gy] ?s] =>
      change (paint [Gotoxy gx gy] s) with (mkScreen gx gy (cell s))
  end.
  cbn [cursor_x cursor_y cell].
  rewrite (paint_sides b (Z.to_nat (height b)) 0)
    by (unfold Int.max_int; lia).
  rewrite (paint_edge (width b)) by lia.
  cbn [cursor_x cursor_y cell].
  rewrite Z2Nat.id by lia.
  unfold border_glyph.
  change (Z.of_nat 0) with 0. rewrite !Z.add_0_l, !Z.add_0_r.
  rewrite (Z.add_comm 4 (height b)).
  destruct (Z.eqb_spec y 3), (Z.eqb_spec y (height b + 4)),
           (Z.eqb_spec x 0), (Z.eqb_spec x (width b + 1)),
           (Z.leb_spec 1 x), (Z.leb_spec x (width b)),
           (Z.leb_spec 4 y), (Z.leb_spec y (height b + 3)),
           (Z.ltb_spec y (height b + 4));
    cbn [andb orb]; try reflexivity; lia.
Qed.

(** X19. [drawBorder] frames the board.  On a board that fits the
    console, the first call draws the corners at the four cells around
    the play area, dashes above and below it and bars at its left and
    right, and changes no other cell of the console, in particular none
    of the play area.  The call marks the border as drawn, and a call on
    a border marked as drawn writes nothing. *)
Theorem X19_drawBorder_frames_the_board (b : GameBoard) (d : Drawn)
        (sc : Screen) :
  console_fits b -> borderDrawn d = false ->
  (forall x y,
      cell (paint (fst (Draw.drawBorder b d)) sc) x y
      = match border_glyph b x y with
        | Some c => c
        | None => cell sc x y
        end) /\
  (forall x y, play_area b x y -> border_glyph b x y = None) /\
  borderDrawn (snd (Draw.drawBorder b d)) = true /\
  fst (Draw.drawBorder b (snd (Draw.drawBorder b d))) = [] /\
  snd (Draw.drawBorder b (snd (Draw.drawBorder b d)))
  = snd (Draw.drawBorder b d).
Proof.
  intros Hfit Hd.
  split; [|split; [|split; [|split]]].
  - intros x y. apply cell_after_drawBorder; assumption.
  - destruct Hfit as [Hw0 [Hw [Hh0 Hh]]].
    intros x y [Hx Hy]. unfold border_glyph.
    destruct (Z.eqb_spec y 3), (Z.eqb_spec y (height b + 4)),
             (Z.eqb_spec x 0), (Z.eqb_spec x (width b + 1));
      cbn [andb orb]; rewrite ?andb_false_r; try reflexivity; lia.
  - unfold Draw.drawBorder. rewrite Hd. reflexivity.
  - unfold Draw.drawBorder. rewrite Hd. reflexivity.
  - unfold Draw.drawBorder. rewrite Hd. reflexivity.
Qed.

Lemma X19_drawBorder_frames_the_board_witness :
  console_fits (mkGameBoard 30 20) /\ borderDrawn Draw.new = false /\
  cell (paint (fst (Draw.drawBorder (mkGameBoard 30 20) Draw.new))
              blank_screen) 0 3 = "+"%char /\
  cell (paint (fst (Draw.drawBorder (mkGameBoard 30 20) Draw.new))
              blank_screen) 31 10 = "|"%char /\
  cell (paint (fst (Draw.drawBorder (mkGameBoard 30 20) Draw.new))
              blank_screen) 7 24 = "-"%char.
Proof.
  assert (Hfit : console_fits (mkGameBoard 30 20))
    by exact console_fits_default.
  assert (Hd : borderDrawn Draw.new = false) by reflexivity.
  destruct (X19_drawBorder_frames_the_board (mkGameBoard 30 20) Draw.new
              blank_screen Hfit Hd) as [Hcell _].
  split; [exact Hfit|]. split; [exact Hd|].
  split; [exact (Hcell 0 3)|]. split; [exact (Hcell 31 10)|].
  exact (Hcell 7 24).
Defined.

(** * The pause message of [src/unnamed/part_000] *)

(** X20. In [part_000] the text PAUSED is written when the game becomes
    paused and blanked when it resumes.  [displayPauseMessage] keeps
    [wasPaused] equal to the flag it is called with and writes nothing
    when the flag has not changed.  On a board that fits the console, the
    call on pausing puts the six letters into the cells of the middle row,
    the call on resuming puts blanks there whatever the cells showed, and
    neither touches any other cell. *)
Theorem X20_pause_message_erased (b : GameBoard) (sc : Screen) :
  console_fits b ->
  (forall paused wasPaused,
      snd (SnakeCppDraw.displayPauseMessage b paused wasPaused) = paused) /\
  (forall paused,
      fst (SnakeCppDraw.displayPauseMessage b paused paused) = []) /\
  (forall i,
      0 <= i < 6 ->
      shown (paint (fst (SnakeCppDraw.displayPauseMessage b true false)) sc)
            (pause_cell b i) = pause_letter i /\
      shown (paint (fst (SnakeCppDraw.displayPauseMessage b false true)) sc)
            (pause_cell b i) = " "%char) /\
  (forall paused wasPaused x y,
      ~ (y = height b / 2 + 4 /\
         width b / 2 - 3 <= x < width b / 2 + 3) ->
      cell (paint (fst (SnakeCppDraw.displayPauseMessage b paused wasPaused))
                  sc) x y
      = cell sc x y).
Proof.
  intros [Hw0 [Hw [Hh0 Hh]]].
  pose proof (half_bounds _ Hw0) as Hwhalf.
  pose proof (half_bounds _ Hh0) as Hhhalf.
  unfold Int.max_int in *.
  assert (Ex : Int.sub (Int.div (width b) 2) 3 = width b / 2 - 3).
  { rewrite (div2_small (width b)) by (unfold Int.max_int; lia).
    apply sub_small; unfold Int.max_int; lia. }
  assert (Ey : Int.add (Int.div (height b) 2) 4 = height b / 2 + 4).
  { rewrite (div2_small (height b)) by (unfold Int.max_int; lia).
    apply add_small; unfold Int.max_int; lia. }
  unfold SnakeCppDraw.displayPauseMessage. rewrite Ex, Ey.
  split; [|split; [|split]].
  - intros [|] [|]; reflexivity.
  - intros [|]; reflexivity.
  - intros i Hi. cbn [andb negb fst paint paint_op].
    unfold shown, pause_cell. cbn [pos_x pos_y].
    rewrite !put_string_cell. cbn [cursor_x cursor_y].
    rewrite Z.eqb_refl. cbn [andb].
    destruct (Z.leb_spec (width b / 2 - 3) (width b / 2 - 4 + i + 1));
      [|lia].
    replace (width b / 2 - 4 + i + 1 - (width b / 2 - 3)) with i by lia.
    rewrite (pause_letter_get i Hi). split; [reflexivity|].
    assert (Hcases : i = 0 \/ i = 1 \/ i = 2 \/ i = 3 \/ i = 4 \/ i = 5)
      by lia.
    destruct Hcases as [->|[->|[->|[->|[->| ->]]]]]; reflexivity.
  - intros paused wasPaused x y Hout. apply leaves_cell.
    destruct paused, wasPaused; cbn [andb negb fst leaves String.length];
      try exact I; (split; [|exact I]); intros [E1 E2]; apply Hout;
      (split; [exact E1 | simpl in E2; lia]).
Qed.

Lemma X20_pause_message_erased_witness :
  console_fits (mkGameBoard 30 20) /\ 0 <= 0 < 6 /\
  pause_cell (mkGameBoard 30 20) 0 = mkPosition 11 10 /\
  shown (paint (fst (SnakeCppDraw.displayPauseMessage (mkGameBoard 30 20)
                                                      true false))
               blank_screen) (mkPosition 11 10) = "P"%char /\
  shown (paint (fst (SnakeCppDraw.displayPauseMessage (mkGameBoard 30 20)
                                                      false true))
               (paint (fst (SnakeCppDraw.displayPauseMessage
                              (mkGameBoard 30 20) true false))
                      blank_screen)) (mkPosition 11 10) = " "%char.
Proof.
  assert (Hfit : console_fits (mkGameBoard 30 20))
    by exact console_fits_default.
  assert (Hi : 0 <= 0 < 6) by lia.
  destruct (X20_pause_message_erased (mkGameBoard 30 20) blank_screen Hfit)
    as [_ [_ [Hon _]]].
  destruct (X20_pause_message_erased
              (mkGameBoard 30 20)
              (paint (fst (SnakeCppDraw.displayPauseMessage
                             (mkGameBoard 30 20) true false)) blank_screen)
              Hfit) as [_ [_ [Hoff _]]].
  split; [exact Hfit|]. split; [exact Hi|]. split; [reflexivity|].
  split; [exact (proj1 (Hon 0 Hi)) | exact (proj2 (Hoff 0 Hi))].
Defined.

(** * The static part of the header *)

(** A drawing that does not clear the console leaves in each cell the
    character of the last string that covers it. *)
Lemma paint_lines (ops : list TermOp) :
  existsb is_clear ops = false ->
  forall sc x y,
    cell (paint ops sc) x y
    = match glyph_of (lines_of ops (cursor_x sc) (cursor_y sc)) x y with
      | Some c => c
      | None => cell sc x y
      end.
Proof.
  induction ops as [|op ops IH]; intros Hclear sc x y; [reflexivity|].
  destruct op as [gx gy|col|ch|s|]; cbn [existsb is_clear orb] in Hclear;
    try discriminate Hclear.
  - cbn [paint paint_op lines_of]. rewrite (IH Hclear). reflexivity.
  - cbn [paint paint_op lines_of]. apply (IH Hclear).
  - cbn [paint paint_op lines_of glyph_of]. rewrite (IH Hclear).
    change (put ch sc) with (put_string (String ch EmptyString) sc).
    destruct (put_string_cursor (String ch EmptyString) sc) as [Ex Ey].
    rewrite Ex, Ey. cbn [String.length].
    change (Z.of_nat 1) with 1.
    destruct (glyph_of (lines_of ops (cursor_x sc + 1) (cursor_y sc)) x y);
      [reflexivity|].
    rewrite put_string_cell.
    destruct ((y =? cursor_y sc) && (cursor_x sc <=? x)); reflexivity.
  - cbn [paint paint_op lines_of glyph_of]. rewrite (IH Hclear).
    destruct (put_string_cursor s sc) as [Ex Ey]. rewrite Ex, Ey.
    destruct (glyph_of (lines_of ops (cursor_x sc + Z.of_nat (String.length s))
                                 (cursor_y sc)) x y); [reflexivity|].
    rewrite put_string_cell.
    destruct ((y =? cursor_y sc) && (cursor_x sc <=? x)); reflexivity.
Qed.

(** What the part of [displayHeader] under [if (!headerDrawn)] writes. *)
Lemma header_frame_lines (b : GameBoard) (cx cy : Z) :
  console_fits b ->
  lines_of (Draw.header_frame b) cx cy = static_lines b.
Proof.
  intros [Hw0 [Hw [Hh0 Hh]]]. unfold Draw.header_frame.
  rewrite (add_small (width b) 5) by lia. reflexivity.
Qed.

Lemma header_frame_no_clear (b : GameBoard) :
  existsb is_clear (Draw.header_frame b) = false.
Proof. reflexivity. Qed.

(** A line of the statistics is written in its row. *)
Lemma stat_line_off_row (b : GameBoard) (row : Z) (label value : string)
      (x y : Z) :
  y <> row ->
  forall cx cy, leaves x y (Draw.stat_line b row label value) cx cy.
Proof.
  intros Hy cx cy. unfold Draw.stat_line. cbn [leaves].
  split; [intros [E _]; exact (Hy E)|].
  split; [intros [E _]; exact (Hy E)|].
  split; [intros [E _]; exact (Hy E) | exact I].
Qed.

(** The text PAUSED ends left of the panel. *)
Lemma pause_text_leaves_panel (b : GameBoard) (x y : Z) :
  console_fits b -> width b + 5 <= x ->
  forall cx cy,
    leaves x y
           [SetColor LIGHT_YELLOW;
            Gotoxy (Int.sub (Int.div (GameBoard.getWidth b) 2) 3)
                   (Int.add (Int.div (GameBoard.getHeight b) 2) 4);
            PutString "PAUSED"] cx cy.
Proof.
  intros [Hw0 [Hw [Hh0 Hh]]] Hx cx cy.
  unfold GameBoard.getWidth. pose proof (half_bounds _ Hw0) as Hhalf.
  unfold Int.max_int in *.
  rewrite (div2_small (width b)) by (unfold Int.max_int; lia).
  rewrite (sub_small (width b / 2) 3) by (unfold Int.max_int; lia).
  cbn [leaves String.length]. split; [|exact I].
  intros [_ H]. simpl in H. lia.
Qed.

Lemma border_glyph_none (b : GameBoard) (x y : Z) :
  console_fits b -> 
  banner_rows y \/ width b + 5 <= x ->
  border_glyph b x y = None.
Proof.
  intros [Hw0 [Hw [Hh0 Hh]]] Hxy. unfold border_glyph, banner_rows in *.
  destruct (Z.eqb_spec y 3), (Z.eqb_spec y (height b + 4)),
           (Z.eqb_spec x 0), (Z.eqb_spec x (width b + 1)),
           (Z.leb_spec 1 x), (Z.leb_spec x (width b)),
           (Z.leb_spec 4 y), (Z.leb_spec y (height b + 3));
    cbn [andb orb]; try reflexivity; lia.
Qed.

(** The rows of the banner, and the panel while the game is not over,
    after [render]: the static part of the header if it was never drawn
    in this process, and what was there before otherwise. *)
Lemma render_static_area (g : Game) (d : Drawn) (sc : Screen) (x y : Z) :
  console_fits (board g) -> 2 <= height (board g) ->
  banner_rows y \/ (gameOver g = false /\ panel_area (board g) x y) ->
  cell (paint (fst (Draw.render g d)) sc) x y
  = if headerDrawn d then cell sc x y
    else match glyph_of (static_lines (board g)) x y with
         | Some c => c
         | None => cell sc x y
         end.
Proof.
  intros Hfit H2 Hxy.
  pose proof (console_fits_drawable _ Hfit) as Hb.
  assert (Hout : ~ play_area (board g) x y).
  { unfold play_area, banner_rows, panel_area in *. lia. }
  assert (Hrow : forall row, 6 <= row <= 9 -> y <> row).
  { unfold banner_rows, panel_area in Hxy. intros row Hr. lia. }
  rewrite render_ops, !paint_app.
  rewrite leaves_cell.
  2:{ destruct Hxy as [Hy|[Hover _]].
      - destruct (gameOver g); [|exact I].
        apply showGameOverScreen_leaves; assumption.
      - rewrite Hover. exact I. }
  rewrite leaves_cell.
  2:{ destruct (paused g); [|exact I].
      destruct Hxy as [Hy|[_ [Hx _]]].
      - apply pause_text_leaves; assumption.
      - apply pause_text_leaves_panel; assumption. }
  assert (Hrest :
            cell (paint (Draw.drawFood (board g) (food g))
                    (paint (Draw.drawSnake (board g) (snake g))
                       (paint (if foodEaten g
                               then Draw.eraseFood (board g) (oldFoodPos g)
                               else [])
                          (paint (fst (Draw.drawBorder (board g) d)) sc))))
                 x y
            = cell sc x y).
  { rewrite leaves_cell by (apply drawFood_leaves; assumption).
    rewrite cell_drawSnake_outside by assumption.
    rewrite leaves_cell.
    2:{ destruct (foodEaten g); [|exact I].
        apply eraseFood_leaves; assumption. }
    destruct (borderDrawn d) eqn:Hbd.
    - unfold Draw.drawBorder. rewrite Hbd. reflexivity.
    - rewrite (cell_after_drawBorder _ _ _ _ _ Hfit Hbd).
      rewrite border_glyph_none; [reflexivity | exact Hfit |].
      destruct Hxy as [Hy|[_ [Hx _]]]; [left; exact Hy | right; exact Hx]. }
  unfold Draw.displayHeader. cbn [fst].
  rewrite drawBorder_headerDrawn. rewrite !paint_app.
  assert (Hline : forall (c : bool) row label value sc1,
             6 <= row <= 9 ->
             cell (paint (if c then Draw.stat_line (board g) row label value
                          else []) sc1) x y = cell sc1 x y).
  { intros c row label value sc1 Hr. apply leaves_cell.
    destruct c; [|exact I].
    apply stat_line_off_row. apply Hrow. exact Hr. }
  rewrite !Hline by lia.
  destruct (headerDrawn d); cbn [negb].
  - cbn [paint]. exact Hrest.
  - rewrite (paint_lines _ (header_frame_no_clear (board g))).
    rewrite (header_frame_lines _ _ _ Hfit).
    destruct (glyph_of (static_lines (board g)) x y); [reflexivity|].
    exact Hrest.
Qed.

(** X15. The static part of the header is drawn once in the life of the
    process.  After every pass through the loop of [run] it counts as
    drawn, and [restart] does not reset that.  A pass that restarts the
    game leaves the whole console blank.  A pass that does not, in a
    process that has not drawn the header yet, puts the banner into the
    rows 0 to 2 and, if the game is not over after it, the frames of the
    panel to the right of the board, character by character as
    [static_lines] has them.  A pass that does not restart, with the
    header drawn before, writes nothing into these cells.  Hence after
    the first restart the banner and the frames of the panel are gone for
    the rest of the run. *)
Theorem X15_banner_drawn_once (fuel : nat) (kb : Keyboard) (choice : Z)
        (g : Game) (d : Drawn) (r : RandStream) (g1 : Game) (d1 : Drawn)
        (o1 : list TermOp) (r1 : RandStream) (sc : Screen) :
  console_fits (board g) -> 2 <= height (board g) ->
  Draw.run_iteration fuel kb choice g d r = Ok (g1, d1, o1, r1) ->
  headerDrawn d1 = true /\
  (In ClearScreen o1 -> forall x y, cell (paint o1 sc) x y = " "%char) /\
  (~ In ClearScreen o1 -> headerDrawn d = false ->
   forall x y,
     banner_rows y \/ (gameOver g1 = false /\ panel_area (board g) x y) ->
     cell (paint o1 sc) x y
     = match glyph_of (static_lines (board g)) x y with
       | Some c => c
       | None => cell sc x y
       end) /\
  (~ In ClearScreen o1 -> headerDrawn d = true ->
   forall x y,
     banner_rows y \/ (gameOver g1 = false /\ panel_area (board g) x y) ->
     cell (paint o1 sc) x y = cell sc x y).
Proof.
  intros Hfit H2 Hrun.
  unfold Draw.run_iteration in Hrun. unfold bind in Hrun.
  destruct (Game.update fuel (Game.processInput kb g) r)
    as [[gu ru]|e] eqn:Hupd; [|discriminate].
  assert (Hboard : board gu = board g).
  { rewrite (update_board _ _ _ _ _ Hupd).
    apply (processInput_frame kb g). }
  assert (Hfit' : console_fits (board gu)) by (rewrite Hboard; exact Hfit).
  assert (H2' : 2 <= height (board gu)) by (rewrite Hboard; exact H2).
  pose proof (render_headerDrawn gu d) as Hdrawn.
  pose proof (render_no_clear gu d) as Hclear.
  pose proof (fun x y => render_static_area gu d sc x y Hfit' H2') as Harea.
  rewrite Hboard in Harea.
  destruct (Draw.render gu d) as [o du]. cbn [fst snd] in *.
  assert (Hnot : ~ In ClearScreen o).
  { intros Hin.
    assert (existsb is_clear o = true)
      by (apply existsb_exists; exists ClearScreen; split;
          [exact Hin | reflexivity]).
    congruence. }
  assert (Hsame : d1 = du -> o1 = o ->
    (gameOver g1 = false -> gameOver gu = false) ->
    headerDrawn d1 = true /\
    (In ClearScreen o1 -> forall x y, cell (paint o1 sc) x y = " "%char) /\
    (~ In ClearScreen o1 -> headerDrawn d = false ->
     forall x y,
       banner_rows y \/ (gameOver g1 = false /\ panel_area (board g) x y) ->
       cell (paint o1 sc) x y
       = match glyph_of (static_lines (board g)) x y with
         | Some c => c
         | None => cell sc x y
         end) /\
    (~ In ClearScreen o1 -> headerDrawn d = true ->
     forall x y,
       banner_rows y \/ (gameOver g1 = false /\ panel_area (board g) x y) ->
       cell (paint o1 sc) x y = cell sc x y)).
  { intros -> -> Hover. split; [exact Hdrawn|].
    split; [intros Hin; contradiction|].
    assert (Hxy : forall x y,
               banner_rows y \/
               (gameOver g1 = false /\ panel_area (board g) x y) ->
               banner_rows y \/
               (gameOver gu = false /\ panel_area (board g) x y)).
    { intros x y [Hy|[Ho Hp]]; [left; exact Hy|].
      right. split; [exact (Hover Ho) | exact Hp]. }
    split.
    - intros _ Hd x y H. rewrite (Harea x y (Hxy x y H)), Hd. reflexivity.
    - intros _ Hd x y H. rewrite (Harea x y (Hxy x y H)), Hd. reflexivity. }
  destruct (gameOver gu) eqn:Hover.
  - destruct (Game.handleGameOver fuel choice gu ru) as [[g' r']|e] eqn:Hh;
      [|discriminate].
    rewrite (handleGameOver_over fuel choice gu ru Hover) in Hh.
    unfold choice_of in Hh.
    destruct (Int.to_char (tolower (Int.to_char choice)) =? 114).
    + unfold ret in Hrun. injection Hrun as <- <- <- <-.
      split; [exact Hdrawn|].
      split; [intros _ x y; apply paint_then_clear|].
      split; intros Hno; exfalso; apply Hno; apply in_or_app; right;
        left; reflexivity.
    + unfold ret in Hrun. injection Hrun as <- <- <- <-.
      apply Hsame; [reflexivity | reflexivity |].
      intros Ho. exfalso.
      assert (Hs : gameOver (Game.saveHighScore gu) = true)
        by (rewrite saveHighScore_max; exact Hover).
      destruct (Int.to_char (tolower (Int.to_char choice)) =? 113);
        injection Hh as <- _; cbn [set_gameRunning gameOver] in Ho;
        congruence.
  - unfold ret in Hrun. injection Hrun as <- <- <- <-.
    apply Hsame; [reflexivity | reflexivity | intros _; reflexivity].
Qed.

(** X15 on the pass that restarts [at_right_wall], and on the first pass
    of a new game. *)
Lemma X15_banner_drawn_once_witness :
  console_fits (board at_right_wall) /\ 2 <= height (board at_right_wall) /\
  Draw.run_iteration 1 NoKey 114 at_right_wall Draw.new rand_zero
  = Ok (fst (fst restart_pass), snd (fst restart_pass), snd restart_pass,
        fun n => rand_zero (3 + n)%nat) /\
  In ClearScreen (snd restart_pass) /\
  headerDrawn (snd (fst restart_pass)) = true /\
  (forall x y, cell (paint (snd restart_pass) blank_screen) x y = " "%char) /\
  console_fits (board initial_game) /\ 2 <= height (board initial_game) /\
  Draw.run_iteration 0 NoKey 0 initial_game Draw.new rand_zero
  = Ok (fst (fst first_pass), snd (fst first_pass), snd first_pass,
        rand_zero) /\
  ~ In ClearScreen (snd first_pass) /\ headerDrawn Draw.new = false /\
  gameOver (fst (fst first_pass)) = false /\
  cell (paint (snd first_pass) blank_screen) 21 1 = "S"%char /\
  cell (paint (snd first_pass) blank_screen) 57 2 = "+"%char /\
  cell (paint (snd first_pass) blank_screen) 48 5 = "S"%char /\
  cell (paint (snd first_pass) blank_screen) 39 23 = "-"%char.
Proof.
  assert (Hfit : console_fits (board at_right_wall))
    by exact console_fits_default.
  assert (H2 : 2 <= height (board at_right_wall)) by (simpl; lia).
  assert (Hrun : Draw.run_iteration 1 NoKey 114 at_right_wall Draw.new
                                    rand_zero
                 = Ok (fst (fst restart_pass), snd (fst restart_pass),
                       snd restart_pass, fun n => rand_zero (3 + n)%nat))
    by (vm_compute; reflexivity).
  assert (Hin : In ClearScreen (snd restart_pass)).
  { assert (Hex : existsb is_clear (snd restart_pass) = true)
      by (vm_compute; reflexivity).
    apply existsb_exists in Hex. destruct Hex as [op [Hop Hc]].
    destruct op; try discriminate Hc. exact Hop. }
  destruct (X15_banner_drawn_once 1 NoKey 114 at_right_wall Draw.new
              rand_zero _ _ _ _ blank_screen Hfit H2 Hrun)
    as [Hdrawn [Hclear _]].
  assert (Hfit1 : console_fits (board initial_game))
    by exact console_fits_default.
  assert (H21 : 2 <= height (board initial_game)) by (simpl; lia).
  assert (Hrun1 : Draw.run_iteration 0 NoKey 0 initial_game Draw.new
                                     rand_zero
                  = Ok (fst (fst first_pass), snd (fst first_pass),
                        snd first_pass, rand_zero))
    by (vm_compute; reflexivity).
  assert (Hnot : ~ In ClearScreen (snd first_pass)).
  { intros Hin1.
    assert (Hex : existsb is_clear (snd first_pass) = true)
      by (apply existsb_exists; exists ClearScreen; split;
          [exact Hin1 | reflexivity]).
    vm_compute in Hex. discriminate Hex. }
  assert (Hd : headerDrawn Draw.new = false) by reflexivity.
  assert (Hover : gameOver (fst (fst first_pass)) = false) by reflexivity.
  destruct (X15_banner_drawn_once 0 NoKey 0 initial_game Draw.new
              rand_zero _ _ _ _ blank_screen Hfit1 H21 Hrun1)
    as [_ [_ [Hfirst _]]].
  split; [exact Hfit|]. split; [exact H2|]. split; [exact Hrun|].
  split; [exact Hin|]. split; [exact Hdrawn|]. split; [exact (Hclear Hin)|].
  split; [exact Hfit1|]. split; [exact H21|]. split; [exact Hrun1|].
  split; [exact Hnot|]. split; [exact Hd|]. split; [exact Hover|].
  split; [|split; [|split]].
  - apply (Hfirst Hnot Hd 21 1). left. unfold banner_rows. lia.
  - apply (Hfirst Hnot Hd 57 2). left. unfold banner_rows. lia.
  - apply (Hfirst Hnot Hd 48 5). right. split; [exact Hover|].
    unfold panel_area. simpl. lia.
  - apply (Hfirst Hnot Hd 39 23). right. split; [exact Hover|].
    unfold panel_area. simpl. lia.
Defined.
